(** * invoice-processor: the calculator, the response normalizer, the PDF
    text miner and the extraction pipeline

    A shallow embedding of
    - [internal/model/invoice.go]      (LineItem.Calculate, Invoice.CalculateTotals),
    - [internal/llm/extractor.go]      (convertToInvoice, parseDecimal, ...),
    - [internal/parser/pdf]            (Extract, extractTextFromContentStream,
                                        isPrintableText, FindNear, GetLine,
                                        ConvertToImages, ...),
    - [internal/processor/pipeline.go] (ProcessPDF, DetectFormat, ...),
    together with the part of [github.com/shopspring/decimal] the calculator
    and the normalizer call, and the numbers of [encoding/json].

    Go values are modelled as follows: [string] and [[]byte] are sequences of
    bytes ([string], [list byte]); [*big.Int] is [Z]; [int], [int32] and
    [int64] are [Z] with the range checks of the code written out; [float64]
    is the kernel's binary64 [float]; a Go [error] is its message; a panic is
    [None] in the option monad.  Slices and strings grow without bound: the
    limits of memory are not modelled. *)

From Stdlib Require Import ZArith List String Ascii Strings.Byte Lia Bool.
From Stdlib Require Import Floats.PrimFloat Numbers.Cyclic.Int63.Uint63.
Import ListNotations.

Set Warnings "-inexact-float".

Open Scope string_scope.
Open Scope list_scope.
Open Scope Z_scope.

(** ** Panics: the option monad *)

Definition bind {A B : Type} (m : option A) (k : A -> option B) : option B :=
  match m with
  | Some a => k a
  | None => None
  end.

Notation "x <- m ;; k" := (bind m (fun x => k))
  (at level 61, m at next level, right associativity).

(** ** Go values shared by the packages below *)

(** A Go [error], by its message; [nil] is [None] where an error may be
    absent. *)
Definition error : Type := string.

(** The two results of a Go call returning [(T, error)]. *)
Inductive result (A : Type) : Type :=
| Ok (a : A)
| Err (e : error).
Arguments Ok {A} a.
Arguments Err {A} e.

(** [len(s)] of a string or a byte slice, as an [int]. *)
Definition len (s : string) : Z := Z.of_nat (String.length s).
Definition lenb {A : Type} (data : list A) : Z := Z.of_nat (List.length data).

Definition byteVal (c : ascii) : Z := Z.of_N (N_of_ascii c).

(** *** package time *)

Module time.

(** [time.Time]: an instant (seconds and nanoseconds since the Unix epoch)
    with the offset of its zone in seconds.  [time.Time{}] is January 1,
    year 1, 00:00:00 UTC. *)
Record Time : Type := mkTime { unixSec : Z; nsec : Z; zoneOffset : Z }.
Definition zeroTime : Time := mkTime (-62135596800) 0 0.

End time.

(** The part of Go's standard library the sources call and this development
    does not define: [time.Parse] (layout, value), [strings.TrimSpace], and
    the Unicode path of [strings.ToLower], which Go takes for a string with
    a byte above 0x7F. *)
Class GoStd : Type := {
  time_Parse : string -> string -> result time.Time;
  strings_TrimSpace : string -> string;
  unicode_ToLower : string -> string
}.

(** What [fmt.Sscanf(pair, "%02x", &b)] leaves in [b], a byte that was 0,
    for a [pair] that is not two hexadecimal digits. *)
Class GoFmt : Type := {
  fmt_Sscanf_02x : string -> ascii
}.

(** *** package strings *)

Module strings.

Definition isUpperASCII (c : ascii) : bool :=
  (byteVal "A" <=? byteVal c) && (byteVal c <=? byteVal "Z").

Definition lowerByte (c : ascii) : ascii :=
  if isUpperASCII c then ascii_of_N (Z.to_N (byteVal c + 32)) else c.

Fixpoint isASCII (s : string) : bool :=
  match s with
  | EmptyString => true
  | String c s' => (byteVal c <? 128) && isASCII s'
  end.

Fixpoint mapBytes (f : ascii -> ascii) (s : string) : string :=
  match s with
  | EmptyString => EmptyString
  | String c s' => String (f c) (mapBytes f s')
  end.

(** [strings.ToLower]: bytewise on an ASCII string. *)
Definition ToLower {std : GoStd} (s : string) : string :=
  if isASCII s then mapBytes lowerByte s else unicode_ToLower s.

(** [strings.ReplaceAll(s, old, new)] for a non-empty [old]: the
    occurrences of [old] are replaced from left to right without overlap.
    [skip] counts the bytes of a matched [old] still to be passed over. *)
Fixpoint replaceFrom (old new s : string) (skip : nat) : string :=
  match s with
  | EmptyString => EmptyString
  | String c s' =>
    match skip with
    | S k => replaceFrom old new s' k
    | O =>
      if String.prefix old s
      then new ++ replaceFrom old new s' (String.length old - 1)
      else String c (replaceFrom old new s' O)
    end
  end.

Definition ReplaceAll (s old new : string) : string := replaceFrom old new s O.

(** [strings.IndexAny(s, chars)] for ASCII [chars]: the index of the first
    byte of [s] that is one of [chars], or -1. *)
Fixpoint inChars (c : ascii) (chars : string) : bool :=
  match chars with
  | EmptyString => false
  | String x chars' => Ascii.eqb c x || inChars c chars'
  end.

Fixpoint indexAnyFrom (s chars : string) (i : Z) : Z :=
  match s with
  | EmptyString => -1
  | String c s' => if inChars c chars then i else indexAnyFrom s' chars (i + 1)
  end.

Definition IndexAny (s chars : string) : Z := indexAnyFrom s chars 0.

(** [strings.HasSuffix(s, suffix)] *)
Definition HasSuffix (s suffix : string) : bool :=
  (String.length suffix <=? String.length s)%nat &&
  String.eqb
    (String.substring (String.length s - String.length suffix) (String.length suffix) s)
    suffix.

(** [strings.Index(s, substr)]: the index of the first occurrence of
    [substr] in [s], or -1. *)
Fixpoint indexFrom (s substr : string) (i : Z) : Z :=
  if String.prefix substr s then i
  else
    match s with
    | EmptyString => -1
    | String _ s' => indexFrom s' substr (i + 1)
    end.

Definition Index (s substr : string) : Z := indexFrom s substr 0.

(** [strings.Contains(s, substr)] *)
Definition Contains (s substr : string) : bool := 0 <=? Index s substr.

(** [strings.Split(s, sep)] for a non-empty [sep]: the pieces of [s] between
    the occurrences of [sep], taken from left to right without overlap.
    [cur] is the piece being read; [skip] counts the bytes of a matched
    [sep] still to be passed over. *)
Fixpoint splitFrom (sep s : string) (skip : nat) (cur : string) : list string :=
  match s with
  | EmptyString => [cur]
  | String c s' =>
    match skip with
    | S k => splitFrom sep s' k cur
    | O =>
      if String.prefix sep s
      then cur :: splitFrom sep s' (String.length sep - 1) ""
      else splitFrom sep s' O (cur ++ String c "")%string
    end
  end.

Definition Split (s sep : string) : list string := splitFrom sep s O "".

End strings.

(** [s[i:j]], [s[i:]] and [s[:j]] for indices within the string. *)
Definition slice (s : string) (i j : Z) : string :=
  String.substring (Z.to_nat i) (Z.to_nat (j - i)) s.
Definition sliceFrom (s : string) (i : Z) : string := slice s i (len s).
Definition sliceTo (s : string) (j : Z) : string := slice s 0 j.

(** *** package strconv *)

Module strconv.

Definition isDigit (c : ascii) : bool :=
  (byteVal "0" <=? byteVal c) && (byteVal c <=? byteVal "9").

(** The value of a non-empty run of decimal digits. *)
Fixpoint digitsFrom (s : string) (acc : Z) : option Z :=
  match s with
  | EmptyString => Some acc
  | String c s' =>
    if isDigit c then digitsFrom s' (10 * acc + (byteVal c - byteVal "0"))
    else None
  end.

Definition digits (s : string) : option Z :=
  match s with
  | EmptyString => None
  | _ => digitsFrom s 0
  end.

(** An optional sign and decimal digits, as [strconv.ParseInt(s, 10, _)]
    and [big.Int.SetString(s, 10)] both read them; no range check. *)
Definition signedDigits (s : string) : option Z :=
  match s with
  | String "+" s' => digits s'
  | String "-" s' => n <- digits s' ;; Some (- n)
  | _ => digits s
  end.

(** [strconv.ParseInt(s, 10, bitSize)]: an error ([None]) on a syntax error
    and on a value outside the [bitSize]-bit integers. *)
Definition ParseInt (s : string) (bitSize : Z) : option Z :=
  n <- signedDigits s ;;
  if (- 2 ^ (bitSize - 1) <=? n) && (n <? 2 ^ (bitSize - 1)) then Some n else None.

End strconv.

(** ** github.com/shopspring/decimal

    The library the repository imports for its amounts; it is not part of
    the repository, and the functions the calculator and the normalizer call
    are written here after the library's own source, each by the value it
    returns.  [Decimal{value *big.Int, exp int32}] denotes
    [value * 10 ^ exp].  A nil [value] behaves as 0 in every operation
    (ensureInitialized), so the Go zero value [Decimal{}] is [New 0 0]. *)

Module decimal.

Record Decimal : Type := New { value : Z; exp : Z }.

Definition MaxInt32 : Z := 2147483647.
Definition MinInt32 : Z := -2147483648.

(** int32 arithmetic wraps around. *)
Definition wrap32 (z : Z) : Z := (z + 2 ^ 31) mod 2 ^ 32 - 2 ^ 31.

(** DivisionPrecision, the number of decimal places of a quotient. *)
Definition DivisionPrecision : Z := 16.

(** [var Zero = New(0, 1)] *)
Definition Zero : Decimal := New 0 1.

Definition NewFromInt (v : Z) : Decimal := New v 0.

Definition Sign (d : Decimal) : Z := Z.sgn (value d).

Definition IsZero (d : Decimal) : bool := Sign d =? 0.

Definition Abs (d : Decimal) : Decimal := New (Z.abs (value d)) (exp d).

(** rescale: the same number at exponent [e]; digits below [e] are cut off
    ([big.Int.Quo] truncates toward zero). *)
Definition rescale (d : Decimal) (e : Z) : Decimal :=
  if exp d =? e then d
  else
    let diff := Z.abs (e - exp d) in
    let expScale := 10 ^ diff in
    if exp d <? e then New (Z.quot (value d) expScale) e
    else New (value d * expScale) e.

Definition RescalePair (d1 d2 : Decimal) : Decimal * Decimal :=
  if exp d1 <? exp d2 then (d1, rescale d2 (exp d1))
  else if exp d2 <? exp d1 then (rescale d1 (exp d2), d2)
  else (d1, d2).

Definition Add (d d2 : Decimal) : Decimal :=
  let '(rd, rd2) := RescalePair d d2 in
  New (value rd + value rd2) (exp rd).

Definition Sub (d d2 : Decimal) : Decimal :=
  let '(rd, rd2) := RescalePair d d2 in
  New (value rd - value rd2) (exp rd).

(** Cmp returns -1, 0 or 1. *)
Definition Cmp (d d2 : Decimal) : comparison :=
  if exp d =? exp d2 then value d ?= value d2
  else
    let '(rd, rd2) := RescalePair d d2 in
    value rd ?= value rd2.

Definition Equal (d d2 : Decimal) : bool :=
  match Cmp d d2 with Eq => true | _ => false end.

(** Mul panics when the exponent leaves int32. *)
Definition Mul (d d2 : Decimal) : option Decimal :=
  let expInt64 := exp d + exp d2 in
  if (MaxInt32 <? expInt64) || (expInt64 <? MinInt32) then None
  else Some (New (value d * value d2) expInt64).

(** QuoRem: quotient to [precision] places and remainder, truncated
    ([big.Int.QuoRem]).  Panics on a zero divisor and on an exponent
    outside int32. *)
Definition QuoRem (d d2 : Decimal) (precision : Z) : option (Decimal * Decimal) :=
  if Z.sgn (value d2) =? 0 then None
  else
    let scale := - precision in
    let e := exp d - exp d2 - scale in
    if (MaxInt32 <? e) || (e <? MinInt32) then None
    else
      let '(aa, bb, scalerest) :=
        if e <? 0
        then (value d, value d2 * 10 ^ (- e), exp d)
        else (value d * 10 ^ e, value d2, wrap32 (scale + exp d2)) in
      let q := Z.quot aa bb in
      let r := Z.rem aa bb in
      Some (New q scale, New r scalerest).

(** DivRound: the quotient rounded half away from zero at [precision]
    places. *)
Definition DivRound (d d2 : Decimal) (precision : Z) : option Decimal :=
  qr <- QuoRem d d2 precision ;;
  let '(q, r) := qr in
  let rv2 := Z.shiftl (Z.abs (value r)) 1 in
  let r2 := New rv2 (wrap32 (exp r + precision)) in
  match Cmp r2 (Abs d2) with
  | Lt => Some q
  | _ =>
    if Z.sgn (value d) * Z.sgn (value d2) <? 0
    then Some (Sub q (New 1 (- precision)))
    else Some (Add q (New 1 (- precision)))
  end.

Definition Div (d d2 : Decimal) : option Decimal :=
  DivRound d d2 DivisionPrecision.

(** Round to [places] decimal places, half away from zero; the digits
    beyond [places + 1] are cut off first.  [big.Int.DivMod] is Euclidean
    division, which for the divisor 10 is [Z.div] and [Z.modulo]. *)
Definition Round (d : Decimal) (places : Z) : Decimal :=
  if exp d =? - places then d
  else
    let ret := rescale d (wrap32 (- places - 1)) in
    let v := if value ret <? 0 then value ret - 5 else value ret + 5 in
    let q := v / 10 in
    let m := v mod 10 in
    let e := wrap32 (exp ret + 1) in
    if (q <? 0) && negb (m =? 0) then New (q + 1) e else New q e.

(** IntPart: the integer part as an int64; [big.Int.Int64] keeps the low
    64 bits of the magnitude. *)
Definition wrap64 (z : Z) : Z := (z + 2 ^ 63) mod 2 ^ 64 - 2 ^ 63.

Definition Int64 (x : Z) : Z :=
  let v := wrap64 (Z.abs x mod 2 ^ 64) in
  if x <? 0 then wrap64 (- v) else v.

Definition IntPart (d : Decimal) : Z := Int64 (value (rescale d 0)).

(** The loop of NewFromString that looks for the decimal point: its index,
    -1 when there is none, an error ([None]) when there are two. *)
Fixpoint pointIndexFrom (s : string) (i pIndex : Z) : option Z :=
  match s with
  | EmptyString => Some pIndex
  | String c s' =>
    if Ascii.eqb c "."
    then if -1 <? pIndex then None else pointIndexFrom s' (i + 1) i
    else pointIndexFrom s' (i + 1) pIndex
  end.

Definition pointIndex (s : string) : option Z := pointIndexFrom s 0 (-1).

(** NewFromString: [digits], [digits.digits], an optional sign, an optional
    exponent after [E] or [e].  The error's message is not kept. *)
Definition NewFromString (value0 : string) : option Decimal :=
  let eIndex := strings.IndexAny value0 "Ee" in
  ve <-
    (if negb (eIndex =? -1)
     then
       expInt <- strconv.ParseInt (sliceFrom value0 (eIndex + 1)) 32 ;;
       Some (sliceTo value0 eIndex, expInt)
     else Some (value0, 0)) ;;
  let '(value, exp0) := ve in
  pIndex <- pointIndex value ;;
  let vLen := len value in
  let '(intString, exp) :=
    if pIndex =? -1 then (value, exp0)
    else
      let intString :=
        if pIndex + 1 <? vLen
        then (sliceTo value pIndex ++ sliceFrom value (pIndex + 1))%string
        else sliceTo value pIndex in
      (intString, exp0 + - len (sliceFrom value (pIndex + 1))) in
  dValue <-
    (if len intString <=? 18
     then strconv.ParseInt intString 64
     else strconv.signedDigits intString) ;;
  if (exp <? MinInt32) || (MaxInt32 <? exp) then None
  else Some (New dValue exp).

End decimal.

Import decimal.

(** ** internal/model: the canonical invoice *)

Module model.

(** [type Provider string] *)
Definition Provider : Type := string.
Definition ProviderTCT : Provider := "TCT"%string.
Definition ProviderVNPT : Provider := "VNPT"%string.
Definition ProviderMISA : Provider := "MISA"%string.
Definition ProviderViettel : Provider := "VIETTEL"%string.
Definition ProviderFPT : Provider := "FPT"%string.
Definition ProviderUnknown : Provider := "UNKNOWN"%string.

(** [type VATRate int] *)
Definition VATRate : Type := Z.
Definition VATRate0 : VATRate := 0.
Definition VATRate5 : VATRate := 5.
Definition VATRate10 : VATRate := 10.

(** [type InvoiceType string] *)
Definition InvoiceType : Type := string.
Definition InvoiceTypeNormal : InvoiceType := "Normal"%string.
Definition InvoiceTypeReplacement : InvoiceType := "Replacement"%string.
Definition InvoiceTypeAdjustment : InvoiceType := "Adjustment"%string.

(** [type DocumentType string] *)
Definition DocumentType : Type := string.
Definition DocumentTypeInvoice : DocumentType := "invoice"%string.
Definition DocumentTypeReceipt : DocumentType := "receipt"%string.

Module Party.
Record t : Type := mk {
      Name : string;
      TaxID : string;
      Address : string;
      Phone : string;
      Email : string;
      BankAccount : string;
      BankName : string
    }.
Definition zero : t :=
      mk EmptyString EmptyString EmptyString EmptyString EmptyString EmptyString EmptyString.
End Party.

Module Signature.
Record t : Type := mk {
      Value : string;
      Date : time.Time;
      SignerName : string;
      SignerPosition : string;
      CertSerial : string
    }.
End Signature.

Module LineItem.
Record t : Type := mk {
      Number : Z;
      Code : string;
      Name : string;
      Description : string;
      Unit : string;
      Quantity : Decimal;
      UnitPrice : Decimal;
      Discount : Decimal;
      VATRate : model.VATRate;
      (* Calculated *)
      Amount : Decimal;
      DiscountAmt : Decimal;
      VATAmount : Decimal;
      Total : Decimal
    }.

(** The item with its four calculated fields replaced. *)
Definition withCalculated (li : t) (amount discountAmt vatAmount total : Decimal) : t :=
      mk (Number li) (Code li) (Name li) (Description li) (Unit li)
         (Quantity li) (UnitPrice li) (Discount li) (VATRate li)
         amount discountAmt vatAmount total.

(** [func (li *LineItem) Calculate()] *)
Definition Calculate (li : t) : option t :=
      (* Amount = Quantity * UnitPrice *)
      amount <- Mul (Quantity li) (UnitPrice li) ;;
      (* DiscountAmt = Amount * (Discount / 100) *)
      discountAmt <-
        (if negb (IsZero (Discount li))
         then
           p <- Mul amount (Discount li) ;;
           q <- Div p (NewFromInt 100) ;;
           Some (Round q 0)
         else Some (DiscountAmt li)) ;;
      (* VATAmount = (Amount - DiscountAmt) * (VATRate / 100) *)
      let taxableAmount := Sub amount discountAmt in
      p <- Mul taxableAmount (NewFromInt (VATRate li)) ;;
      q <- Div p (NewFromInt 100) ;;
      let vatAmount := Round q 0 in
      (* Total = Amount - DiscountAmt + VATAmount *)
      let total := Round (Add taxableAmount vatAmount) 0 in
      Some (withCalculated li amount discountAmt vatAmount total).
End LineItem.

Module Invoice.
Record t : Type := mk {
      ID : string;
      (* Header *)
      Number : string;
      Series : string;
      Date : time.Time;
      Type_ : InvoiceType;
      Provider : model.Provider;
      (* Parties *)
      Seller : Party.t;
      Buyer : Party.t;
      (* Line items *)
      Items : list LineItem.t;
      (* Totals *)
      SubtotalAmount : Decimal;
      TaxAmount : Decimal;
      TotalAmount : Decimal;
      (* Currency *)
      Currency : string;
      ExchangeRate : Decimal;
      (* Optional *)
      Remarks : string;
      PaymentTerms : string;
      (* Document type and receipt-specific fields *)
      DocumentType : model.DocumentType;
      Cashier : string;
      TerminalID : string;
      PaymentMethod : string;
      ReceiptNumber : string;
      ReceiptTime : string;
      AmountTendered : Decimal;
      Change : Decimal;
      (* Signature (if signed) *)
      Signature : option Signature.t;
      (* Metadata *)
      RawXML : list byte;
      SourceFile : string
    }.

(** The invoice with its items and its three totals replaced. *)
Definition withTotals (inv : t) (items : list LineItem.t)
        (subtotal tax total : Decimal) : t :=
      mk (ID inv) (Number inv) (Series inv) (Date inv) (Type_ inv) (Provider inv)
         (Seller inv) (Buyer inv) items subtotal tax total
         (Currency inv) (ExchangeRate inv) (Remarks inv) (PaymentTerms inv)
         (DocumentType inv) (Cashier inv) (TerminalID inv) (PaymentMethod inv)
         (ReceiptNumber inv) (ReceiptTime inv) (AmountTendered inv) (Change inv)
         (Signature inv) (RawXML inv) (SourceFile inv).

(** The loop of CalculateTotals over [inv.Items[i:]]: every item is
        recalculated in place and added to the running [subtotal] and [tax]. *)
Fixpoint calculateItems (items : list LineItem.t) (subtotal tax : Decimal)
        : option (list LineItem.t * Decimal * Decimal) :=
      match items with
      | [] => Some ([], subtotal, tax)
      | item :: rest =>
        item' <- LineItem.Calculate item ;;
        let subtotal' :=
          Add subtotal (Sub (LineItem.Amount item') (LineItem.DiscountAmt item')) in
        let tax' := Add tax (LineItem.VATAmount item') in
        r <- calculateItems rest subtotal' tax' ;;
        let '(rest', subtotal'', tax'') := r in
        Some (item' :: rest', subtotal'', tax'')
      end.

(** [func (inv *Invoice) CalculateTotals()] *)
Definition CalculateTotals (inv : t) : option t :=
      r <- calculateItems (Items inv) Zero Zero ;;
      let '(items, subtotal, tax) := r in
      Some (withTotals inv items
              (Round subtotal 0) (Round tax 0) (Round (Add subtotal tax) 0)).
End Invoice.

End model.



(** ** Calls to the collaborators

    The model client, the PDF reader and the rasterizer are outside the
    repository.  Each is a function of its arguments here, and every call is
    recorded, in order, in a trace. *)

Inductive Call : Type :=
| CallExtractBytes (data : list byte)
| CallConvertToImages (pdfData : list byte)
| CallChatText (model system prompt : string)
| CallChatWithImage (model system prompt : string) (imageData : list byte) (mimeType : string)
| CallXMLParse (data : list byte).

Definition Traced (A : Type) : Type := list Call -> A * list Call.

Definition ret {A : Type} (a : A) : Traced A := fun tr => (a, tr).

Definition bindT {A B : Type} (m : Traced A) (k : A -> Traced B) : Traced B :=
  fun tr => let '(a, tr') := m tr in k a tr'.

(** The call [c], answered by [answer]. *)
Definition call {A : Type} (c : Call) (answer : A) : Traced A :=
  fun tr => (answer, tr ++ [c]).

Notation "x <~ m ;; k" := (bindT m (fun x => k))
  (at level 61, m at next level, right associativity).

(** ** internal/llm: the response normalizer *)

Module llm.

(** [json.Number]: the literal as the decoder kept it. *)
Definition Number : Type := string.

Module LLMParty.
Record t : Type := mk {
  Name : string;
  TaxID : string;
  Address : string;
  Phone : string;
  Email : string;
  BankAccount : string;
  BankName : string
}.
End LLMParty.

Module LLMLineItem.
Record t : Type := mk {
  Number : Z;
  Code : string;
  Name : string;
  Description : string;
  Unit : string;
  Quantity : llm.Number;
  UnitPrice : llm.Number;
  DiscountPercent : llm.Number;
  DiscountAmount : llm.Number;
  Amount : llm.Number;
  VATRate : llm.Number;
  VATAmount : llm.Number;
  Total : llm.Number
}.
End LLMLineItem.

Module LLMResponse.
Record t : Type := mk {
  InvoiceNumber : string;
  Series : string;
  Date : string;
  Type_ : string;
  Seller : LLMParty.t;
  Buyer : LLMParty.t;
  Items : list LLMLineItem.t;
  Subtotal : llm.Number;
  TotalDiscount : llm.Number;
  TotalVAT : llm.Number;
  TotalAmount : llm.Number;
  Currency : string;
  PaymentMethod : string;
  Notes : string;
  (* Receipt-specific fields *)
  DocumentType : string;
  ReceiptNumber : string;
  Cashier : string;
  TerminalID : string;
  Time_ : string;
  AmountTendered : llm.Number;
  Change : llm.Number
}.
End LLMResponse.

(** [func parseDecimal(n json.Number) decimal.Decimal] *)
Definition parseDecimal (n : Number) : Decimal :=
  if String.eqb n "" then decimal.Zero
  else
    let s := n in
    (* Handle Vietnamese number format *)
    let s := strings.ReplaceAll s "." "" in
    let s := strings.ReplaceAll s "," "." in
    match decimal.NewFromString s with
    | Some d => d
    | None => decimal.Zero
    end.

Section Normalizer.
Context {std : GoStd}.

(** The loop of parseDate over the remaining formats. *)
Fixpoint parseDateWith (formats : list string) (s : string) : result time.Time :=
  match formats with
  | [] => Err ("cannot parse date: " ++ s)%string
  | format :: rest =>
    match time_Parse format s with
    | Ok t => Ok t
    | Err _ => parseDateWith rest s
    end
  end.

(** [time.RFC3339] *)
Definition RFC3339 : string := "2006-01-02T15:04:05Z07:00".

(** [func parseDate(s string) (time.Time, error)] *)
Definition parseDate (s : string) : result time.Time :=
  let s := strings_TrimSpace s in
  let formats := ["2006-01-02"; "02/01/2006"; "2/1/2006"; "02-01-2006"; RFC3339]%string in
  parseDateWith formats s.

(** [func parseInvoiceType(s string) model.InvoiceType] *)
Definition parseInvoiceType (s : string) : model.InvoiceType :=
  let l := strings.ToLower s in
  if String.eqb l "replacement" then model.InvoiceTypeReplacement
  else if String.eqb l "adjustment" then model.InvoiceTypeAdjustment
  else model.InvoiceTypeNormal.

(** [func parseDocumentType(s string) model.DocumentType] *)
Definition parseDocumentType (s : string) : model.DocumentType :=
  let l := strings.ToLower s in
  if String.eqb l "receipt" then model.DocumentTypeReceipt
  else model.DocumentTypeInvoice.

(** The body of convertToInvoice's loop over [resp.Items]: one line item. *)
Definition convertLineItem (item : LLMLineItem.t) : model.LineItem.t :=
  let rate := parseDecimal (LLMLineItem.VATRate item) in
  model.LineItem.mk
    (LLMLineItem.Number item)
    (LLMLineItem.Code item)
    (LLMLineItem.Name item)
    (LLMLineItem.Description item)
    (LLMLineItem.Unit item)
    (* Parse decimals *)
    (parseDecimal (LLMLineItem.Quantity item))
    (parseDecimal (LLMLineItem.UnitPrice item))
    (parseDecimal (LLMLineItem.DiscountPercent item))
    (* Parse VAT rate *)
    (if negb (decimal.IsZero rate) then decimal.IntPart rate else 0)
    (parseDecimal (LLMLineItem.Amount item))
    (parseDecimal (LLMLineItem.DiscountAmount item))
    (parseDecimal (LLMLineItem.VATAmount item))
    (parseDecimal (LLMLineItem.Total item)).

(** [func (e *Extractor) convertToInvoice(resp *LLMResponse)]; the error
    it returns beside the invoice is always nil. *)
Definition convertToInvoice (resp : LLMResponse.t) : model.Invoice.t :=
  (* Determine document number *)
  let docNumber :=
    if String.eqb (LLMResponse.InvoiceNumber resp) ""
    then LLMResponse.ReceiptNumber resp
    else LLMResponse.InvoiceNumber resp in
  (* Parse date *)
  let date :=
    if negb (String.eqb (LLMResponse.Date resp) "")
    then match parseDate (LLMResponse.Date resp) with
         | Ok t => t
         | Err _ => time.zeroTime
         end
    else time.zeroTime in
  (* Convert seller *)
  let seller :=
    model.Party.mk
      (LLMParty.Name (LLMResponse.Seller resp))
      (LLMParty.TaxID (LLMResponse.Seller resp))
      (LLMParty.Address (LLMResponse.Seller resp))
      (LLMParty.Phone (LLMResponse.Seller resp))
      (LLMParty.Email (LLMResponse.Seller resp))
      (LLMParty.BankAccount (LLMResponse.Seller resp))
      (LLMParty.BankName (LLMResponse.Seller resp)) in
  (* Convert buyer *)
  let buyer :=
    model.Party.mk
      (LLMParty.Name (LLMResponse.Buyer resp))
      (LLMParty.TaxID (LLMResponse.Buyer resp))
      (LLMParty.Address (LLMResponse.Buyer resp))
      (LLMParty.Phone (LLMResponse.Buyer resp))
      (LLMParty.Email (LLMResponse.Buyer resp))
      "" "" in
  model.Invoice.mk
    "" (* ID *)
    docNumber
    (LLMResponse.Series resp)
    date
    (parseInvoiceType (LLMResponse.Type_ resp))
    model.ProviderUnknown (* LLM doesn't identify provider *)
    seller
    buyer
    (* Convert line items *)
    (List.map convertLineItem (LLMResponse.Items resp))
    (* Parse totals *)
    (parseDecimal (LLMResponse.Subtotal resp))
    (parseDecimal (LLMResponse.TotalVAT resp))
    (parseDecimal (LLMResponse.TotalAmount resp))
    (* Set default currency if not provided *)
    (if String.eqb (LLMResponse.Currency resp) "" then "VND"
     else LLMResponse.Currency resp)
    (decimal.New 0 0) (* ExchangeRate *)
    (LLMResponse.Notes resp)
    "" (* PaymentTerms *)
    (parseDocumentType (LLMResponse.DocumentType resp))
    (LLMResponse.Cashier resp)
    (LLMResponse.TerminalID resp)
    (LLMResponse.PaymentMethod resp)
    (LLMResponse.ReceiptNumber resp)
    (LLMResponse.Time_ resp)
    (parseDecimal (LLMResponse.AmountTendered resp))
    (parseDecimal (LLMResponse.Change resp))
    None (* Signature *)
    [] (* RawXML *)
    "" (* SourceFile *).

End Normalizer.

(** [type Extractor struct]; its client is [Client] below. *)
Module Extractor.
Record t : Type := mk { textModel : string; visionModel : string }.
End Extractor.

(** What the extractor calls outside this file: the model client
    ([client.ChatText], [client.ChatWithImage]), the decoding of a response
    ([json.Unmarshal] of what [ExtractJSON] isolates from it), and the
    prompts of prompts.go ([UserPromptOCRCorrection] and
    [UserPromptTextExtraction] applied to their [%s] argument). *)
Class Client : Type := {
  ChatText : string -> string -> string -> result string;
  ChatWithImage : string -> string -> string -> list byte -> string -> result string;
  decodeJSON : string -> result LLMResponse.t;
  SystemPromptInvoiceExtractor : string;
  UserPromptTextExtraction : string -> string;
  UserPromptImageExtraction : string;
  UserPromptOCRCorrection : string -> string
}.

Section Extraction.
Context {std : GoStd} {client : Client}.

(** [func (e *Extractor) parseResponse(response string)] *)
Definition parseResponse (response : string) : result model.Invoice.t :=
  match decodeJSON response with
  | Err err => Err ("failed to parse LLM response: " ++ err)%string
  | Ok llmResp => Ok (convertToInvoice llmResp)
  end.

(** [func (e *Extractor) ExtractFromText(ctx, text)] *)
Definition ExtractFromText (e : Extractor.t) (text : string)
    : Traced (result model.Invoice.t) :=
  let prompt := UserPromptTextExtraction text in
  r <~ call (CallChatText (Extractor.textModel e) SystemPromptInvoiceExtractor prompt)
         (ChatText (Extractor.textModel e) SystemPromptInvoiceExtractor prompt) ;;
  match r with
  | Err err => ret (Err ("LLM request failed: " ++ err)%string)
  | Ok response => ret (parseResponse response)
  end.

(** [func (e *Extractor) ExtractFromImage(ctx, imageData, mimeType)] *)
Definition ExtractFromImage (e : Extractor.t) (imageData : list byte) (mimeType : string)
    : Traced (result model.Invoice.t) :=
  r <~ call (CallChatWithImage (Extractor.visionModel e) SystemPromptInvoiceExtractor
               UserPromptImageExtraction imageData mimeType)
         (ChatWithImage (Extractor.visionModel e) SystemPromptInvoiceExtractor
               UserPromptImageExtraction imageData mimeType) ;;
  match r with
  | Err err => ret (Err ("LLM request failed: " ++ err)%string)
  | Ok response => ret (parseResponse response)
  end.

(** [func (e *Extractor) ExtractFromOCRText(ctx, ocrText)] *)
Definition ExtractFromOCRText (e : Extractor.t) (ocrText : string)
    : Traced (result model.Invoice.t) :=
  let prompt := UserPromptOCRCorrection ocrText in
  r <~ call (CallChatText (Extractor.textModel e) SystemPromptInvoiceExtractor prompt)
         (ChatText (Extractor.textModel e) SystemPromptInvoiceExtractor prompt) ;;
  match r with
  | Err err => ret (Err ("LLM request failed: " ++ err)%string)
  | Ok response => ret (parseResponse response)
  end.

End Extraction.

End llm.

(** ** package unicode/utf8: the runes of a string

    [for _, r := range s] decodes [s] as UTF-8; a byte that starts no valid
    encoding yields [RuneError] and is passed over alone. *)

Module utf8.

Definition RuneError : Z := 0xFFFD.

Definition inRange (lo hi : Z) (b : Z) : bool := (lo <=? b) && (b <=? hi).

(** Is [b] a continuation byte within [lo, hi]? *)
Definition accept (lo hi : Z) (b : option ascii) : option Z :=
  match b with
  | Some c => if inRange lo hi (byteVal c) then Some (byteVal c) else None
  | None => None
  end.

Definition nthByte (s : string) (i : nat) : option ascii := String.get i s.

(** The size of the encoding [b0] starts and the range its second byte must
    lie in (the tables [first] and [acceptRanges]); [None] for a byte that
    starts no encoding of two bytes or more. *)
Definition firstInfo (b0 : Z) : option (nat * Z * Z) :=
  if inRange 0xC2 0xDF b0 then Some (2%nat, 0x80, 0xBF)
  else if b0 =? 0xE0 then Some (3%nat, 0xA0, 0xBF)
  else if inRange 0xE1 0xEC b0 then Some (3%nat, 0x80, 0xBF)
  else if b0 =? 0xED then Some (3%nat, 0x80, 0x9F)
  else if inRange 0xEE 0xEF b0 then Some (3%nat, 0x80, 0xBF)
  else if b0 =? 0xF0 then Some (4%nat, 0x90, 0xBF)
  else if inRange 0xF1 0xF3 b0 then Some (4%nat, 0x80, 0xBF)
  else if b0 =? 0xF4 then Some (4%nat, 0x80, 0x8F)
  else None.

(** [utf8.DecodeRuneInString] of a non-empty string: the rune and its width
    in bytes. *)
Definition DecodeRuneInString (c : ascii) (rest : string) : Z * nat :=
  let b0 := byteVal c in
  if b0 <? 0x80 then (b0, 1%nat)
  else
    match firstInfo b0 with
    | None => (RuneError, 1%nat)
    | Some (size, lo, hi) =>
      match accept lo hi (nthByte rest 0) with
      | None => (RuneError, 1%nat)
      | Some b1 =>
        if (size <=? 2)%nat
        then (Z.lor (Z.shiftl (Z.land b0 0x1F) 6) (Z.land b1 0x3F), 2%nat)
        else
          match accept 0x80 0xBF (nthByte rest 1) with
          | None => (RuneError, 1%nat)
          | Some b2 =>
            if (size <=? 3)%nat
            then (Z.lor (Z.lor (Z.shiftl (Z.land b0 0x0F) 12)
                               (Z.shiftl (Z.land b1 0x3F) 6))
                        (Z.land b2 0x3F), 3%nat)
            else
              match accept 0x80 0xBF (nthByte rest 2) with
              | None => (RuneError, 1%nat)
              | Some b3 =>
                (Z.lor (Z.lor (Z.lor (Z.shiftl (Z.land b0 0x07) 18)
                                     (Z.shiftl (Z.land b1 0x3F) 12))
                              (Z.shiftl (Z.land b2 0x3F) 6))
                       (Z.land b3 0x3F), 4%nat)
              end
          end
      end
    end.

(** The runes [range s] yields; [skip] counts the bytes of the current rune
    still to be passed over. *)
Fixpoint runesFrom (s : string) (skip : nat) : list Z :=
  match s with
  | EmptyString => []
  | String c s' =>
    match skip with
    | S k => runesFrom s' k
    | O =>
      let '(r, size) := DecodeRuneInString c s' in
      r :: runesFrom s' (size - 1)
    end
  end.

Definition runes (s : string) : list Z := runesFrom s 0.

(** [utf8.RuneCountInString] *)
Definition RuneCountInString (s : string) : Z := Z.of_nat (List.length (runes s)).

End utf8.

(** [float64(n)] of an [int]. *)
Definition float64 (n : Z) : float := PrimFloat.of_uint63 (Uint63.of_Z n).

(** ** internal/parser/pdf: the PDF text miner *)

Module pdf.

Record PageText : Type := mkPageText {
  PageNum : Z;
  Text : string;
  Lines : list string
}.

(** [type ExtractedText struct] (its [Blocks], which nothing fills, left out) *)
Record ExtractedText : Type := mkExtractedText {
  Pages : list PageText;
  RawText : string;
  PageCount : Z
}.

(** The condition of isPrintableText's loop body on one rune. *)
Definition isPrintableRune (r : Z) : bool :=
  ((byteVal "a" <=? r) && (r <=? byteVal "z")) || ((byteVal "A" <=? r) && (r <=? byteVal "Z")) ||
  ((byteVal "0" <=? r) && (r <=? byteVal "9")) || (r =? byteVal " ") || (r =? byteVal ".") ||
  (r =? byteVal ",") || (r =? byteVal ":") || (r =? byteVal "-") || (r =? byteVal "/") ||
  ((0x00C0 <=? r) && (r <=? 0x024F)) || (* Latin Extended *)
  ((0x1E00 <=? r) && (r <=? 0x1EFF)). (* Vietnamese *)

(** The value of [printable] after the loop over the runes of [s]. *)
Fixpoint countPrintable (rs : list Z) (printable : Z) : Z :=
  match rs with
  | [] => printable
  | r :: rs' =>
    countPrintable rs' (if isPrintableRune r then printable + 1 else printable)
  end.

(** [func isPrintableText(s string) bool] *)
Definition isPrintableText (s : string) : bool :=
  if len s =? 0 then false
  else
    let printable := countPrintable (utf8.runes s) 0 in
    PrimFloat.ltb 0.5%float (PrimFloat.div (float64 printable) (float64 (len s))).

(** One entry of the temporary directory as [os.ReadDir] lists it, with
    what [os.ReadFile] answers for it. *)
Record DirEntry : Type := mkDirEntry {
  Name : string;
  IsDir : bool;
  ReadFile : result (list byte)
}.

(** What the operating system and the two external tools answer while
    ConvertToImages runs on given PDF bytes ([None]: no error). *)
Record Rendering : Type := mkRendering {
  MkdirTemp : option error;
  WriteFile : option error;
  pdftoppm : option error;
  convert : option error;
  ReadDir : result (list DirEntry)
}.

(** [func convertPDFToImages(ctx, pdfPath, outputPrefix string) error] *)
Definition convertPDFToImages (w : Rendering) : option error :=
  match pdftoppm w with
  | Some _ =>
    (* Try convert from ImageMagick as fallback *)
    match convert w with
    | Some err => Some ("pdftoppm and convert both failed: " ++ err)%string
    | None => None
    end
  | None => None
  end.

(** The loop of ConvertToImages over the directory's entries. *)
Fixpoint readImages (files : list DirEntry) (images : list (list byte))
    : list (list byte) :=
  match files with
  | [] => images
  | f :: rest =>
    let name := Name f in
    if IsDir f || (negb (strings.HasSuffix name ".png") &&
                   negb (strings.HasSuffix name ".jpg") &&
                   negb (strings.HasSuffix name ".jpeg"))
    then readImages rest images
    else
      match ReadFile f with
      | Err _ => readImages rest images
      | Ok imgData => readImages rest (images ++ [imgData])
      end
  end.

(** [func (e *Extractor) ConvertToImages(ctx, pdfData []byte) ([][]byte, error)] *)
Definition ConvertToImages (w : Rendering) : result (list (list byte)) :=
  match MkdirTemp w with
  | Some err => Err ("failed to create temp dir: " ++ err)%string
  | None =>
    match WriteFile w with
    | Some err => Err ("failed to write temp PDF: " ++ err)%string
    | None =>
      match convertPDFToImages w with
      | Some err => Err ("failed to convert PDF to images: " ++ err)%string
      | None =>
        match ReadDir w with
        | Err err => Err ("failed to read temp dir: " ++ err)%string
        | Ok files =>
          let images := readImages files [] in
          if lenb images =? 0 then Err "no images generated from PDF"
          else Ok images
        end
      end
    end
  end.

(** *** The text of a PDF *)

Definition LF : ascii := "010".
Definition CR : ascii := "013".
Definition TAB : ascii := "009".
Definition backslash : ascii := "092".

(** The two bytes of an escape sequence: a backslash and [c]. *)
Definition escape (c : ascii) : string := String backslash (String c "").

(** [func unescapePDFString(s string) string] *)
Definition unescapePDFString (s : string) : string :=
  let s := strings.ReplaceAll s (escape "n") (String LF "") in
  let s := strings.ReplaceAll s (escape "r") (String CR "") in
  let s := strings.ReplaceAll s (escape "t") (String TAB "") in
  let s := strings.ReplaceAll s (escape "(") "(" in
  let s := strings.ReplaceAll s (escape ")") ")" in
  let s := strings.ReplaceAll s (escape backslash) (String backslash "") in
  s.

(** The value of a hexadecimal digit. *)
Definition hexDigit (c : ascii) : option Z :=
  let b := byteVal c in
  if (byteVal "0" <=? b) && (b <=? byteVal "9") then Some (b - byteVal "0")
  else if (byteVal "a" <=? b) && (b <=? byteVal "f") then Some (b - byteVal "a" + 10)
  else if (byteVal "A" <=? b) && (b <=? byteVal "F") then Some (b - byteVal "A" + 10)
  else None.

Section TextMining.
Context {std : GoStd} {gofmt : GoFmt}.

(** [var b byte; fmt.Sscanf(hex[i:i+2], "%02x", &b)]: the value of [b]
    afterwards; for two hexadecimal digits, the byte they spell. *)
Definition scanHexByte (c1 c2 : ascii) : ascii :=
  match hexDigit c1, hexDigit c2 with
  | Some h, Some l => ascii_of_N (Z.to_N (16 * h + l))
  | _, _ => fmt_Sscanf_02x (String c1 (String c2 ""))
  end.

(** [func hexToString(hex string) string]: the loop runs while
    [i+1 < len(hex)], so a last digit without partner is left out. *)
Fixpoint hexToString (hex : string) : string :=
  match hex with
  | String c1 (String c2 rest) =>
    String (scanHexByte c1 c2) (hexToString rest)
  | _ => ""
  end.

(** The submatches of the pattern for literal strings in [content], from
    left to right: an opening parenthesis, the longest run of bytes other
    than a closing parenthesis (the submatch), a closing parenthesis.
    [open] is [None] while no parenthesis is open, and otherwise what was
    read since it opened. *)
Fixpoint literalStrings (content : string) (open : option string) : list string :=
  match content with
  | EmptyString => []
  | String c rest =>
    match open with
    | None =>
      if Ascii.eqb c "(" then literalStrings rest (Some "")
      else literalStrings rest None
    | Some m =>
      if Ascii.eqb c ")" then m :: literalStrings rest None
      else literalStrings rest (Some (m ++ String c "")%string)
    end
  end.

Definition isHexDigit (c : ascii) : bool :=
  match hexDigit c with Some _ => true | None => false end.

(** The submatches of [<([0-9A-Fa-f]+)>] in [content], from left to
    right: a non-empty run of hexadecimal digits between [<] and [>].
    [open] is what was read since the last [<], as long as it is digits
    only. *)
Fixpoint hexStrings (content : string) (open : option string) : list string :=
  match content with
  | EmptyString => []
  | String c rest =>
    if Ascii.eqb c "<" then hexStrings rest (Some "")
    else
      match open with
      | None => hexStrings rest None
      | Some m =>
        if isHexDigit c then hexStrings rest (Some (m ++ String c "")%string)
        else if Ascii.eqb c ">" && negb (String.eqb m "")
        then m :: hexStrings rest None
        else hexStrings rest None
      end
  end.

(** The loops of extractTextFromContentStream over the matches: every
    printable text is written to [result], followed by a blank. *)
Fixpoint writeTexts (texts : list string) (result : string) : string :=
  match texts with
  | [] => result
  | text :: more =>
    if isPrintableText text
    then writeTexts more (result ++ text ++ " ")%string
    else writeTexts more result
  end.

(** [func extractTextFromContentStream(content string) string] *)
Definition extractTextFromContentStream (content : string) : string :=
  (* Extract strings in parentheses (PDF literal strings) *)
  let result := writeTexts (map unescapePDFString (literalStrings content None)) "" in
  (* Extract hex strings *)
  let result := writeTexts (map hexToString (hexStrings content None)) result in
  strings_TrimSpace result.

(** The loop of splitIntoLines. *)
Fixpoint trimmedLines (lines : list string) (result : list string) : list string :=
  match lines with
  | [] => result
  | line :: more =>
    let trimmed := strings_TrimSpace line in
    if negb (String.eqb trimmed "")
    then trimmedLines more (result ++ [trimmed])
    else trimmedLines more result
  end.

(** [func splitIntoLines(text string) []string] *)
Definition splitIntoLines (text : string) : list string :=
  let lines := strings.Split text (String LF "") in
  trimmedLines lines [].

(** The loop of isLabel over the remaining label patterns. *)
Fixpoint matchesLabel (labels : list string) (lower s : string) : bool :=
  match labels with
  | [] => false
  | label :: more =>
    if strings.Contains lower label && (len s <? 50) then true
    else matchesLabel more lower s
  end.

(** [func isLabel(s string) bool] *)
Definition isLabel (s : string) : bool :=
  let s := strings_TrimSpace s in
  if strings.HasSuffix s ":" then true
  else
    (* Common label patterns *)
    let labels :=
      [ "mã số thuế"; "tax id"; "taxid";
        "số hóa đơn"; "invoice no"; "invoice number";
        "ngày"; "date";
        "tên"; "name";
        "địa chỉ"; "address" ] in
    let lower := strings.ToLower s in
    matchesLabel labels lower s.

(** [func (et *ExtractedText) GetLine(lineNum int) string] *)
Definition GetLine (et : ExtractedText) (lineNum : Z) : string :=
  let lines := strings.Split (RawText et) (String LF "") in
  if (0 <=? lineNum) && (lineNum <? lenb lines)
  then strings_TrimSpace (nth (Z.to_nat lineNum) lines "")
  else "".

(** [func (et *ExtractedText) GetLines() []string] *)
Definition GetLines (et : ExtractedText) : list string :=
  splitIntoLines (RawText et).

(** The inner loop of FindNear, over the lines [lines[i+1]], ...,
    [lines[i+maxDistance]] that exist: the first one that is not blank and
    no label, trimmed. *)
Fixpoint nextValue (following : list string) : option string :=
  match following with
  | [] => None
  | line :: more =>
    let value := strings_TrimSpace line in
    if negb (String.eqb value "") && negb (isLabel value) then Some value
    else nextValue more
  end.

(** The loop of FindNear over [lines[i:]]. *)
Fixpoint findNearFrom (lines : list string) (label : string) (maxDistance : Z) : string :=
  match lines with
  | [] => ""
  | line :: rest =>
    if strings.Contains (strings.ToLower line) (strings.ToLower label)
    then
      (* Check same line for value (after colon or label) *)
      let idx := strings.Index line ":" in
      let sameLine :=
        if 0 <=? idx
        then
          let value := strings_TrimSpace (sliceFrom line (idx + 1)) in
          if negb (String.eqb value "") then Some value else None
        else None in
      match sameLine with
      | Some value => value
      | None =>
        (* Check next few lines *)
        match nextValue (firstn (Z.to_nat maxDistance) rest) with
        | Some value => value
        | None => findNearFrom rest label maxDistance
        end
      end
    else findNearFrom rest label maxDistance
  end.

(** [func (et *ExtractedText) FindNear(label string, maxDistance int) string] *)
Definition FindNear (et : ExtractedText) (label : string) (maxDistance : Z) : string :=
  let lines := strings.Split (RawText et) (String LF "") in
  findNearFrom lines label maxDistance.

(** What the structural PDF reader and the operating system answer while
    Extract runs on given content ([None]: no error): the page count, the
    temporary directory, the extraction of the content streams into it and
    the files it then holds, and, for the other way through the document,
    its validation and the content of its pages ([api.ExtractPage] followed
    by [io.ReadAll]). *)
Record Mining : Type := mkMining {
  apiPageCount : result Z;
  osMkdirTemp : option error;
  apiExtractContent : option error;
  contentFiles : list DirEntry;
  apiReadAndValidate : option error;
  apiExtractPage : Z -> result (list byte)
}.

(** The loop of extractFromContext over the pages [i], [i+1], ...,
    [n] of them. *)
Fixpoint pagesFrom (w : Mining) (n : nat) (i : Z) (pages : list PageText)
    (allText : string) : list PageText * string :=
  match n with
  | O => (pages, allText)
  | S n' =>
    match apiExtractPage w i with
    | Err _ => pagesFrom w n' (i + 1) pages allText
    | Ok pageContent =>
      let text := extractTextFromContentStream (string_of_list_byte pageContent) in
      if negb (String.eqb text "")
      then
        pagesFrom w n' (i + 1)
          (pages ++ [mkPageText i text (splitIntoLines text)])
          (allText ++ text ++ String LF "")%string
      else pagesFrom w n' (i + 1) pages allText
    end
  end.

(** [func (e *Extractor) extractFromContext(reader, pageCount int)];
    [None] is the panic of [make([]PageText, 0, pageCount)] on a negative
    capacity. *)
Definition extractFromContext (w : Mining) (pageCount : Z)
    : option (result ExtractedText) :=
  if pageCount <? 0 then None
  else
    (* Read and validate PDF *)
    match apiReadAndValidate w with
    | Some err => Some (Err ("failed to read PDF: " ++ err)%string)
    | None =>
      (* Try to extract text from each page's content stream *)
      let '(pages, allText) := pagesFrom w (Z.to_nat pageCount) 1 [] "" in
      Some (Ok (mkExtractedText pages allText pageCount))
    end.

(** The loop of Extract over the files of the temporary directory. *)
Fixpoint readContentFiles (files : list DirEntry) (allText : string) : string :=
  match files with
  | [] => allText
  | f :: rest =>
    if IsDir f then readContentFiles rest allText
    else
      match ReadFile f with
      | Err _ => readContentFiles rest allText
      | Ok data =>
        (* Extract readable text from content stream *)
        let text := extractTextFromContentStream (string_of_list_byte data) in
        if negb (String.eqb text "")
        then readContentFiles rest (allText ++ text ++ String LF "")%string
        else readContentFiles rest allText
      end
  end.

(** [func (e *Extractor) Extract(ctx, r io.Reader)];
    [r] is what [io.ReadAll(r)] returns, [world] what Extract meets on the
    content read; [None] is the panic of [make([]PageText, 0, pageCount)] on
    a negative capacity.  ExtractBytes and ExtractWithPositions are Extract
    on their argument. *)
Definition Extract (r : result (list byte)) (world : list byte -> Mining)
    : option (result ExtractedText) :=
  match r with
  | Err err => Some (Err ("failed to read PDF content: " ++ err)%string)
  | Ok content =>
    let w := world content in
    (* Get page count *)
    match apiPageCount w with
    | Err err => Some (Err ("failed to get page count: " ++ err)%string)
    | Ok pageCount =>
      if pageCount <? 0 then None
      else
        (* Create temp directory for extraction *)
        match osMkdirTemp w with
        | Some err => Some (Err ("failed to create temp dir: " ++ err)%string)
        | None =>
          (* Extract content to temp files *)
          match apiExtractContent w with
          | Some _ =>
            (* Content extraction failed, try to read raw PDF structure *)
            extractFromContext w pageCount
          | None =>
            (* Read extracted content files *)
            let rawText := readContentFiles (contentFiles w) "" in
            let pages :=
              if negb (String.eqb rawText "")
              then [mkPageText 1 rawText (splitIntoLines rawText)]
              else [] in
            Some (Ok (mkExtractedText pages rawText pageCount))
          end
        end
    end
  end.

End TextMining.

(** What the PDF extractor of the pipeline meets outside this file:
    ExtractBytes, whose text comes from the structural PDF reader and the
    file system, and the world ConvertToImages runs in. *)
Class Extractor : Type := {
  ExtractBytes : list byte -> result ExtractedText;
  rendering : list byte -> Rendering
}.

End pdf.

(** ** internal/processor: the extraction pipeline *)

Module processor.

(** [type ExtractionMethod string] *)
Definition ExtractionMethod : Type := string.
Definition MethodXML : ExtractionMethod := "xml".
Definition MethodLLMText : ExtractionMethod := "llm_text".
Definition MethodLLMVision : ExtractionMethod := "llm_vision".

Module Result.
Record t : Type := mk {
  Invoice : option model.Invoice.t;
  Method : ExtractionMethod;
  Confidence : float;
  Warnings : list string;
  Error : option error
}.
End Result.

(** [type Format int] *)
Inductive Format : Type :=
| FormatUnknown
| FormatXML
| FormatPDF
| FormatImage.

(** [type Pipeline struct]: the extractor may be nil; the XML registry and
    the PDF extractor, which NewPipeline always sets, are the collaborators
    [XMLRegistry] and [pdf.Extractor]. *)
Record Pipeline : Type := mkPipeline { llmExtractor : option llm.Extractor.t }.

Class XMLRegistry : Type := {
  Parse : list byte -> result model.Invoice.t
}.

(** [string(data[:n])] and [data[i] == b] *)
Definition stringOfPrefix (data : list byte) (n : nat) : string :=
  string_of_list_byte (firstn n data).

Definition byteAt (data : list byte) (i : nat) (b : N) : bool :=
  match nth_error data i with
  | Some x => N.eqb (Byte.to_N x) b
  | None => false
  end.

(** [s[i] == c] *)
Definition charAt (s : string) (i : nat) (c : ascii) : bool :=
  match String.get i s with
  | Some x => Ascii.eqb x c
  | None => false
  end.

(** [func detectImageMimeType(data []byte) string] *)
Definition detectImageMimeType (data : list byte) : string :=
  if (3 <=? lenb data) &&
     (* JPEG: FF D8 FF *)
     (byteAt data 0 0xFF && byteAt data 1 0xD8 && byteAt data 2 0xFF)
  then "image/jpeg"
  else if (4 <=? lenb data) &&
     (* PNG: 89 50 4E 47 *)
     (byteAt data 0 0x89 && byteAt data 1 0x50 && byteAt data 2 0x4E && byteAt data 3 0x47)
  then "image/png"
  else "image/jpeg".

(** [func contains(s, substr string) bool]: is [s[i:i+len(substr)] == substr]
    for some [i] from 0 to [len(s)-len(substr)]? *)
Fixpoint contains (s substr : string) : bool :=
  String.prefix substr s ||
  match s with
  | EmptyString => false
  | String _ s' => contains s' substr
  end.

(** [func min(a, b int) int] *)
Definition min (a b : Z) : Z := if a <? b then a else b.

(** [func DetectFormat(data []byte) Format] *)
Definition DetectFormat (data : list byte) : Format :=
  if lenb data =? 0 then FormatUnknown
  else if
    (* Check for XML declaration or common XML patterns *)
    (5 <? lenb data) &&
    (let header := stringOfPrefix data (Z.to_nat (min 100 (lenb data))) in
     charAt header 0 "<" || contains header "<?xml")
  then FormatXML
  else if
    (* Check for PDF magic number *)
    (4 <=? lenb data) && String.eqb (stringOfPrefix data 4) "%PDF"
  then FormatPDF
  else if
    (* Check for common image formats *)
    (8 <=? lenb data) &&
    ((* PNG *)
     (byteAt data 0 0x89 && byteAt data 1 0x50 && byteAt data 2 0x4E && byteAt data 3 0x47) ||
     (* JPEG *)
     (byteAt data 0 0xFF && byteAt data 1 0xD8 && byteAt data 2 0xFF) ||
     (* TIFF (little-endian) *)
     (byteAt data 0 0x49 && byteAt data 1 0x49 && byteAt data 2 0x2A && byteAt data 3 0x00) ||
     (* TIFF (big-endian) *)
     (byteAt data 0 0x4D && byteAt data 1 0x4D && byteAt data 2 0x00 && byteAt data 3 0x2A))
  then FormatImage
  else FormatUnknown.

(** [%v] of an error that may be nil. *)
Definition fmtV (e : option error) : string :=
  match e with
  | Some msg => msg
  | None => "<nil>"
  end.

Section Pipeline.
Context {std : GoStd} {client : llm.Client} {pdfExtractor : pdf.Extractor}
        {xmlRegistry : XMLRegistry}.

(** [func (p *Pipeline) ProcessXMLBytes(ctx, data []byte) *Result] *)
Definition ProcessXMLBytes (data : list byte) : Traced Result.t :=
  r <~ call (CallXMLParse data) (Parse data) ;;
  match r with
  | Err err =>
    ret (Result.mk None "" 0%float [] (Some ("XML parsing failed: " ++ err)%string))
  | Ok inv =>
    ret (Result.mk (Some inv) MethodXML 1.0%float [] None) (* XML is deterministic *)
  end.

(** [func (p *Pipeline) ProcessXML(ctx, r io.Reader) *Result]; [r] is what
    [io.ReadAll(r)] returns. *)
Definition ProcessXML (r : result (list byte)) : Traced Result.t :=
  match r with
  | Err err => ret (Result.mk None "" 0%float [] (Some ("failed to read XML: " ++ err)%string))
  | Ok data => ProcessXMLBytes data
  end.

(** [func (p *Pipeline) tryLLMTextExtraction(ctx, pdfData []byte) *Result],
    for the non-nil extractor [e] of [p]. *)
Definition tryLLMTextExtraction (e : llm.Extractor.t) (pdfData : list byte)
    : Traced Result.t :=
  (* Extract text from PDF *)
  r <~ call (CallExtractBytes pdfData) (pdf.ExtractBytes pdfData) ;;
  match r with
  | Err err =>
    ret (Result.mk None "" 0%float
           ["PDF text extraction failed: " ++ err]%string (Some err))
  | Ok extracted =>
    if String.eqb (pdf.RawText extracted) ""
    then
      ret (Result.mk None "" 0%float
             ["PDF contains no extractable text"] (Some "no text extracted from PDF"))
    else
      (* Use LLM to extract from text *)
      r <~ llm.ExtractFromOCRText e (pdf.RawText extracted) ;;
      match r with
      | Err err =>
        ret (Result.mk None "" 0%float
               ["LLM text extraction failed: " ++ err]%string (Some err))
      | Ok invoice =>
        (* LLM text extraction generally reliable *)
        ret (Result.mk (Some invoice) MethodLLMText 0.85%float [] None)
      end
  end.

(** The end of tryLLMVisionExtraction, from the call of ExtractFromImage. *)
Definition extractFromImage (e : llm.Extractor.t) (imageData : list byte)
    (imageMimeType : string) : Traced (option Result.t) :=
  r <~ llm.ExtractFromImage e imageData imageMimeType ;;
  match r with
  | Err err =>
    ret (Some (Result.mk None "" 0%float
                 ["LLM vision extraction failed: " ++ err]%string (Some err)))
  | Ok invoice =>
    (* Vision slightly less reliable than text *)
    ret (Some (Result.mk (Some invoice) MethodLLMVision 0.80%float [] None))
  end.

(** [func (p *Pipeline) tryLLMVisionExtraction(ctx, data []byte, mimeType string) *Result],
    for the non-nil extractor [e] of [p]; [None] is the panic of [images[0]]
    on an empty slice. *)
Definition tryLLMVisionExtraction (e : llm.Extractor.t) (data : list byte)
    (mimeType : string) : Traced (option Result.t) :=
  (* If data is PDF, convert to image first *)
  if String.eqb mimeType "application/pdf" ||
     ((4 <=? lenb data) && String.eqb (stringOfPrefix data 4) "%PDF")
  then
    r <~ call (CallConvertToImages data) (pdf.ConvertToImages (pdf.rendering data)) ;;
    match r with
    | Err err =>
      ret (Some (Result.mk None "" 0%float
                   ["PDF to image conversion failed: " ++ err]%string
                   (Some ("failed to convert PDF to images: " ++ err)%string)))
    | Ok images =>
      (* Use first page for vision extraction *)
      match images with
      | [] => ret None
      | imageData :: _ =>
        (* Detect image format from magic bytes *)
        extractFromImage e imageData (detectImageMimeType imageData)
      end
    end
  else extractFromImage e data mimeType.

(** The block "Read PDF data" of ProcessPDF: the bytes of the reader, the
    image data when the reader is nil, or the error ProcessPDF returns. *)
Definition readPDFData (r : option (result (list byte))) (imageData : list byte)
    : result (list byte) :=
  match r with
  | Some (Err err) => Err ("failed to read PDF: " ++ err)%string
  | Some (Ok pdfData) => Ok pdfData
  | None =>
    if 0 <? lenb imageData then Ok imageData else Err "no PDF data provided"
  end.

(** [func (p *Pipeline) ProcessPDF(ctx, r io.Reader, imageData []byte, mimeType string) *Result];
    [r] is [None] for a nil reader and otherwise what [io.ReadAll(r)]
    returns. *)
Definition ProcessPDF (p : Pipeline) (r : option (result (list byte)))
    (imageData : list byte) (mimeType : string) : Traced (option Result.t) :=
  match llmExtractor p with
  | None =>
    ret (Some (Result.mk None "" 0%float []
                 (Some "LLM extractor not configured - required for PDF processing")))
  | Some e =>
    match readPDFData r imageData with
    | Err err => ret (Some (Result.mk None "" 0%float [] (Some err)))
    | Ok pdfData =>
      (* Step 1: Try LLM text extraction *)
      textResult <~ tryLLMTextExtraction e pdfData ;;
      match Result.Invoice textResult, Result.Error textResult with
      | Some _, None => ret (Some textResult)
      | _, _ =>
        (* Step 2: Try LLM vision extraction as fallback *)
        v <~ tryLLMVisionExtraction e pdfData mimeType ;;
        match v with
        | None => ret None
        | Some visionResult =>
          match Result.Invoice visionResult with
          | Some _ => ret (Some visionResult)
          | None =>
            (* Return error with context from both attempts *)
            let warnings :=
              match Result.Error visionResult with
              | Some _ => Result.Warnings textResult ++ Result.Warnings visionResult
              | None => Result.Warnings textResult
              end in
            match Result.Error visionResult, Result.Error textResult with
            | Some _, _ =>
              ret (Some (Result.mk None "" 0%float warnings
                     (Some ("PDF extraction failed (text: " ++ fmtV (Result.Error textResult)
                            ++ ", vision: " ++ fmtV (Result.Error visionResult) ++ ")")%string)))
            | None, Some terr =>
              ret (Some (Result.mk None "" 0%float (Result.Warnings textResult)
                     (Some ("PDF extraction failed: " ++ terr)%string)))
            | None, None =>
              ret (Some (Result.mk None "" 0%float [] (Some "PDF extraction failed")))
            end
          end
        end
      end
    end
  end.

(** [func (p *Pipeline) ProcessImage(ctx, imageData []byte, mimeType string) *Result] *)
Definition ProcessImage (p : Pipeline) (imageData : list byte) (mimeType : string)
    : Traced (option Result.t) :=
  match llmExtractor p with
  | None => ret (Some (Result.mk None "" 0%float [] (Some "LLM extractor not configured")))
  | Some e => tryLLMVisionExtraction e imageData mimeType
  end.

End Pipeline.

End processor.

(** * Properties *)

(** ** The option monad *)

Lemma bind_Some {A B : Type} (m : option A) (k : A -> option B) (b : B) :
  bind m k = Some b -> exists a, m = Some a /\ k a = Some b.
Proof.
  destruct m as [a|]; simpl; intros H; [exists a; auto | discriminate].
Qed.

Ltac inv_bind H :=
  let a := fresh "v" in
  let Ha := fresh "E" in
  apply bind_Some in H; destruct H as (a & Ha & H).

(** ** Rounding to whole numbers *)

Module RoundFacts.

Lemma wrap32_m1 : wrap32 (- 0 - 1) = -1.
Proof. reflexivity. Qed.

Lemma wrap32_0 : wrap32 (-1 + 1) = 0.
Proof. reflexivity. Qed.

Lemma rescale_exp (d : Decimal) (e : Z) : exp (rescale d e) = e.
Proof.
  unfold rescale. destruct (Z.eqb_spec (exp d) e) as [E|E]; [exact E|].
  destruct (exp d <? e); reflexivity.
Qed.

(** Rounding to 0 places always ends at exponent 0. *)
Lemma Round_exp (d : Decimal) : exp (Round d 0) = 0.
Proof.
  unfold Round. rewrite wrap32_m1, rescale_exp, wrap32_0.
  destruct (Z.eqb_spec (exp d) (- 0)) as [E|E]; [exact E|].
  destruct (_ && _); reflexivity.
Qed.

(** A whole number is its own rounding. *)
Lemma Round_whole (v e : Z) : 0 <= e -> Round (New v e) 0 = New (v * 10 ^ e) 0.
Proof.
  intros He. unfold Round. rewrite wrap32_m1, rescale_exp, wrap32_0. cbn [exp].
  destruct (Z.eqb_spec e (- 0)) as [->|E]; [now rewrite Z.mul_1_r|].
  unfold rescale. cbn [exp value].
  assert ((e =? -1) = false) as -> by (apply Z.eqb_neq; lia).
  assert ((e <? -1) = false) as -> by (apply Z.ltb_ge; lia).
  cbn [exp value].
  replace (Z.abs (-1 - e)) with (e + 1) by lia.
  rewrite Z.pow_add_r by lia. change (10 ^ 1) with 10.
  set (w := v * 10 ^ e).
  replace (v * (10 ^ e * 10)) with (w * 10) by (unfold w; ring).
  destruct (Z.ltb_spec (w * 10) 0).
  - replace (w * 10 - 5) with (5 + (w - 1) * 10) by ring.
    rewrite Z.div_add, Z.mod_add by lia.
    change (5 / 10) with 0. change (5 mod 10) with 5. rewrite Z.add_0_l.
    assert ((w - 1 <? 0) = true) as -> by (apply Z.ltb_lt; lia).
    cbn. f_equal. lia.
  - replace (w * 10 + 5) with (5 + w * 10) by ring.
    rewrite Z.div_add, Z.mod_add by lia.
    change (5 / 10) with 0. change (5 mod 10) with 5. rewrite Z.add_0_l.
    assert ((w <? 0) = false) as -> by (apply Z.ltb_ge; lia).
    reflexivity.
Qed.

(** The rounding of a non-negative number with [- e] fractional digits. *)
Lemma Round_fraction (v e : Z) :
  e < 0 -> 0 <= v ->
  Round (New v e) 0 = New ((v + 5 * 10 ^ (- e - 1)) / 10 ^ (- e)) 0.
Proof.
  intros He Hv. unfold Round. rewrite wrap32_m1, rescale_exp, wrap32_0. cbn [exp].
  assert ((e =? - 0) = false) as -> by (apply Z.eqb_neq; lia).
  assert (0 < 10 ^ (- e - 1)) as Hp by (apply Z.pow_pos_nonneg; lia).
  assert (10 ^ (- e) = 10 ^ (- e - 1) * 10) as Hk.
  { replace (- e) with ((- e - 1) + 1) at 1 by lia. now rewrite Z.pow_add_r by lia. }
  assert (value (rescale (New v e) (-1)) = v / 10 ^ (- e - 1)) as Hval.
  { unfold rescale. cbn [exp value].
    destruct (Z.eqb_spec e (-1)) as [->|E].
    - cbn [value]. change (10 ^ (- -1 - 1)) with 1. now rewrite Z.div_1_r.
    - assert ((e <? -1) = true) as -> by (apply Z.ltb_lt; lia).
      cbn [value]. replace (Z.abs (-1 - e)) with (- e - 1) by lia.
      apply Z.quot_div_nonneg; lia. }
  rewrite Hval.
  set (w := v / 10 ^ (- e - 1)).
  assert (0 <= w) by (apply Z.div_pos; lia).
  assert ((w <? 0) = false) as -> by (apply Z.ltb_ge; lia).
  assert (((w + 5) / 10 <? 0) = false) as ->
    by (apply Z.ltb_ge; apply Z.div_pos; lia).
  cbn [andb]. f_equal.
  rewrite Hk. rewrite <- Z.div_div by lia.
  rewrite Z.div_add by lia. reflexivity.
Qed.

Lemma Round_at_exp0 (d : Decimal) : exp d = 0 -> Round d 0 = d.
Proof. intros H. unfold Round. now rewrite H. Qed.

Lemma Add_same_exp (a b e : Z) : Add (New a e) (New b e) = New (a + b) e.
Proof. unfold Add, RescalePair. cbn [exp]. now rewrite Z.ltb_irrefl. Qed.

Lemma Add_exp (d d2 : Decimal) : exp (Add d d2) = Z.min (exp d) (exp d2).
Proof.
  unfold Add, RescalePair.
  destruct (Z.ltb_spec (exp d) (exp d2)); [cbn [exp]; lia|].
  destruct (Z.ltb_spec (exp d2) (exp d)); cbn [exp]; [rewrite rescale_exp|]; lia.
Qed.

(** Adding a whole number before or after rounding makes no difference for
    a number that is not negative and does not become negative. *)
Lemma Round_Add_whole (s t : Decimal) :
  0 <= value s -> 0 <= exp t -> 0 <= value (Add s t) ->
  Round (Add s t) 0 = Round (Add (Round s 0) (Round t 0)) 0.
Proof.
  destruct s as [vs es], t as [vt et]. cbn [value exp]. intros Hs Ht Hsum.
  rewrite (Round_whole vt et Ht).
  assert (Round (Add (Round (New vs es) 0) (New (vt * 10 ^ et) 0)) 0 =
          New (value (Round (New vs es) 0) + vt * 10 ^ et) 0) as ->.
  { pose proof (Round_exp (New vs es)) as He.
    destruct (Round (New vs es) 0) as [vr er]. cbn [exp] in He. subst er.
    rewrite Add_same_exp. now apply Round_at_exp0. }
  unfold Add, RescalePair in *. cbn [exp value] in *.
  destruct (Z.ltb_spec es et) as [Hlt|Hge].
  - (* the sum is at the exponent of s *)
    unfold rescale in *. cbn [exp value] in *.
    assert ((et =? es) = false) as E1 by (apply Z.eqb_neq; lia).
    assert ((et <? es) = false) as E2 by (apply Z.ltb_ge; lia).
    rewrite E1, E2 in *. cbn [exp value] in *.
    replace (Z.abs (es - et)) with (et - es) in * by lia.
    destruct (Z.lt_ge_cases es 0) as [Hneg|Hpos].
    + rewrite (Round_fraction _ es Hneg Hsum), (Round_fraction vs es Hneg Hs).
      cbn [value]. f_equal.
      replace (et - es) with (et + - es) by lia. rewrite Z.pow_add_r by lia.
      replace (vs + vt * (10 ^ et * 10 ^ (- es)) + 5 * 10 ^ (- es - 1))
        with (vs + 5 * 10 ^ (- es - 1) + (vt * 10 ^ et) * 10 ^ (- es)) by ring.
      apply Z.div_add. apply Z.pow_nonzero; lia.
    + rewrite !Round_whole by lia. cbn [value]. f_equal.
      replace et with ((et - es) + es) at 2 by lia. rewrite Z.pow_add_r by lia. ring.
  - destruct (Z.ltb_spec et es) as [Hgt|Heq].
    + (* the sum is at the exponent of t *)
      unfold rescale in *. cbn [exp value] in *.
      assert ((es =? et) = false) as E1 by (apply Z.eqb_neq; lia).
      assert ((es <? et) = false) as E2 by (apply Z.ltb_ge; lia).
      rewrite E1, E2 in *. cbn [exp value] in *.
      replace (Z.abs (et - es)) with (es - et) in * by lia.
      rewrite !Round_whole by lia. cbn [value]. f_equal.
      replace es with ((es - et) + et) at 2 by lia. rewrite Z.pow_add_r by lia. ring.
    + assert (es = et) as -> by lia. cbn [exp value] in *.
      rewrite !Round_whole by lia. cbn [value]. f_equal. ring.
Qed.

End RoundFacts.

(** ** The calculator *)

Module CalculatorFacts.
Import model.

(** What Calculate stores, field by field: the amount is the product, the
    discount amount is recomputed only for a non-zero discount percent and
    is otherwise the value the item held before the call, VAT and total
    follow from the taxable amount. *)
Lemma Calculate_fields (li li' : LineItem.t) :
  LineItem.Calculate li = Some li' ->
  exists amount discountAmt vatProduct vatQuotient,
    Mul (LineItem.Quantity li) (LineItem.UnitPrice li) = Some amount /\
    (if IsZero (LineItem.Discount li)
     then discountAmt = LineItem.DiscountAmt li
     else exists p q,
        Mul amount (LineItem.Discount li) = Some p /\
        Div p (NewFromInt 100) = Some q /\
        discountAmt = Round q 0) /\
    Mul (Sub amount discountAmt) (NewFromInt (LineItem.VATRate li)) = Some vatProduct /\
    Div vatProduct (NewFromInt 100) = Some vatQuotient /\
    li' = LineItem.withCalculated li amount discountAmt (Round vatQuotient 0)
            (Round (Add (Sub amount discountAmt) (Round vatQuotient 0)) 0).
Proof.
  unfold LineItem.Calculate. intros H.
  inv_bind H. inv_bind H. inv_bind H. inv_bind H.
  exists v, v0, v1, v2. repeat split; auto.
  - destruct (IsZero (LineItem.Discount li)); simpl in E0.
    + now inversion E0.
    + inv_bind E0. inv_bind E0. inversion E0. eauto.
  - now inversion H.
Qed.

Lemma Calculate_idempotent (li li' : LineItem.t) :
  LineItem.Calculate li = Some li' -> LineItem.Calculate li' = Some li'.
Proof.
  intros H. destruct (Calculate_fields li li' H)
    as (amount & discountAmt & vp & vq & Ha & Hd & Hp & Hq & ->).
  unfold LineItem.Calculate. simpl. rewrite Ha. simpl.
  destruct (IsZero (LineItem.Discount li)); simpl.
  - rewrite Hp. simpl. rewrite Hq. simpl. reflexivity.
  - destruct Hd as (p & q & Ep & Eq & ->).
    rewrite Ep. simpl. rewrite Eq. simpl.
    rewrite Hp. simpl. rewrite Hq. simpl. reflexivity.
Qed.

Lemma calculateItems_idempotent (items : list LineItem.t) :
  forall subtotal tax items' subtotal' tax',
    Invoice.calculateItems items subtotal tax = Some (items', subtotal', tax') ->
    Invoice.calculateItems items' subtotal tax = Some (items', subtotal', tax').
Proof.
  induction items as [|item rest IH]; simpl; intros s t items' s' t' H.
  - inversion H. reflexivity.
  - inv_bind H. inv_bind H. destruct v0 as [[rest' s2] t2]. inversion H; subst.
    simpl. rewrite (Calculate_idempotent _ _ E). simpl.
    rewrite (IH _ _ _ _ _ E0). reflexivity.
Qed.

End CalculatorFacts.

(** *** Sample data *)

Module Samples.
Import model.

Definition dec (n : Z) : Decimal := New n 0.
Definition zeroDecimal : Decimal := New 0 0.

(** A line item as an extraction leaves it: the calculated fields unset. *)
Definition item (number : Z) (name : string) (quantity unitPrice discount : Decimal)
    (vatRate : Z) : LineItem.t :=
  LineItem.mk number "" name "" "pcs" quantity unitPrice discount vatRate
    zeroDecimal zeroDecimal zeroDecimal zeroDecimal.

Definition invoiceOf (items : list LineItem.t) : Invoice.t :=
  Invoice.mk "" "0000123" "AA/24E" time.zeroTime InvoiceTypeNormal ProviderUnknown
    (Party.mk "Seller Co" "0100109106" "Ha Noi" "" "" "" "")
    (Party.mk "Buyer Co" "0300588569" "Da Nang" "" "" "" "")
    items zeroDecimal zeroDecimal zeroDecimal "VND" zeroDecimal "" ""
    DocumentTypeInvoice "" "" "" "" "" zeroDecimal zeroDecimal None [] "".

(** 3 x 333.33 with 15% discount and 10% VAT; 2 x 100000 at 5% VAT. *)
Definition invoice1 : Invoice.t :=
  invoiceOf [ item 1 "paper" (dec 3) (New 33333 (-2)) (dec 15) 10;
              item 2 "ink" (dec 2) (dec 100000) zeroDecimal 5 ].

Definition invoice1Calculated : Invoice.t :=
  Eval vm_compute in
    match Invoice.CalculateTotals invoice1 with
    | Some inv => inv
    | None => invoice1
    end.

(** A line item whose discount percent is zero while its discount amount
    still holds 5000, as after a response with [discount_percent] 0 and
    [discount_amount] 5000. *)
Definition staleItem : LineItem.t :=
  LineItem.mk 1 "" "toner" "" "pcs" (dec 2) (dec 100000) zeroDecimal 10
    zeroDecimal (dec 5000) zeroDecimal zeroDecimal.

(** A credit line of -10.5 without VAT and a line of 10 at 10% VAT: the
    taxable amounts sum to -0.5, the VAT to 1. *)
Definition creditInvoice : Invoice.t :=
  invoiceOf [ item 1 "return" (New (-105) (-1)) (dec 1) zeroDecimal 0;
              item 2 "fee" (dec 10) (dec 1) zeroDecimal 10 ].

End Samples.

(** *** Claims on the calculator *)

Module CalculatorClaims.
Import model CalculatorFacts RoundFacts Samples.

(** C1 (the code departs from the claim): for a line item whose discount
    percent is zero, Calculate does not reset the discount amount; the value
    stored before the call, here 5000, stays and is subtracted from the
    amount, so VAT and total are those of 195000 and not of 200000. *)
Theorem Calculate_zero_discount_keeps_stored_amount :
  IsZero (LineItem.Discount staleItem) = true /\
  exists li',
    LineItem.Calculate staleItem = Some li' /\
    LineItem.Amount li' = dec 200000 /\
    LineItem.DiscountAmt li' = dec 5000 /\
    IsZero (LineItem.DiscountAmt li') = false /\
    LineItem.VATAmount li' = dec 19500 /\
    LineItem.Total li' = dec 214500.
Proof.
  split; [reflexivity|].
  eexists. split; [vm_compute; reflexivity|].
  repeat split.
Qed.

(** The order and the formulas of Calculate: the amount is quantity x unit
    price, not rounded; for a non-zero discount percent the discount amount
    is round(amount x percent / 100); the VAT amount is
    round((amount - discount amount) x rate / 100); the total is
    round(amount - discount amount + VAT amount); the inputs are unchanged.
    For a zero discount percent the discount amount is the one the item
    held. *)
Theorem Calculate_formulas (li li' : LineItem.t) :
  LineItem.Calculate li = Some li' ->
  Mul (LineItem.Quantity li) (LineItem.UnitPrice li) = Some (LineItem.Amount li') /\
  (IsZero (LineItem.Discount li) = false ->
   exists p q,
     Mul (LineItem.Amount li') (LineItem.Discount li) = Some p /\
     Div p (NewFromInt 100) = Some q /\
     LineItem.DiscountAmt li' = Round q 0) /\
  (IsZero (LineItem.Discount li) = true ->
   LineItem.DiscountAmt li' = LineItem.DiscountAmt li) /\
  (exists p q,
     Mul (Sub (LineItem.Amount li') (LineItem.DiscountAmt li'))
         (NewFromInt (LineItem.VATRate li)) = Some p /\
     Div p (NewFromInt 100) = Some q /\
     LineItem.VATAmount li' = Round q 0) /\
  LineItem.Total li' =
    Round (Add (Sub (LineItem.Amount li') (LineItem.DiscountAmt li'))
               (LineItem.VATAmount li')) 0 /\
  li' = LineItem.withCalculated li (LineItem.Amount li') (LineItem.DiscountAmt li')
          (LineItem.VATAmount li') (LineItem.Total li').
Proof.
  intros H. destruct (Calculate_fields li li' H)
    as (amount & discountAmt & vp & vq & Ha & Hd & Hp & Hq & ->).
  cbn [LineItem.withCalculated LineItem.Amount LineItem.DiscountAmt
       LineItem.VATAmount LineItem.Total].
  repeat split; auto.
  - intros Hz. rewrite Hz in Hd. exact Hd.
  - intros Hz. rewrite Hz in Hd. exact Hd.
  - exists vp, vq. auto.
Qed.

Lemma Calculate_formulas_witness :
  exists li',
    LineItem.Calculate (item 1 "paper" (dec 3) (New 33333 (-2)) (dec 15) 10) = Some li' /\
    LineItem.Amount li' = New 99999 (-2) /\
    LineItem.DiscountAmt li' = dec 150 /\
    LineItem.VATAmount li' = dec 85 /\
    LineItem.Total li' = dec 935 /\
    LineItem.Total li' =
      Round (Add (Sub (LineItem.Amount li') (LineItem.DiscountAmt li'))
                 (LineItem.VATAmount li')) 0.
Proof.
  eexists. split; [vm_compute; reflexivity|].
  split; [reflexivity|]. split; [reflexivity|]. split; [reflexivity|].
  split; [reflexivity|].
  refine (proj1 (proj2 (proj2 (proj2 (proj2
    (Calculate_formulas (item 1 "paper" (dec 3) (New 33333 (-2)) (dec 15) 10) _ _)))))).
  vm_compute. reflexivity.
Defined.

(** C8: running CalculateTotals on the invoice a first run returned returns
    that same invoice again: every line item's amount, discount amount, VAT
    amount and total, and the invoice's subtotal, tax and total are
    unchanged. *)
Theorem CalculateTotals_idempotent (inv inv' : Invoice.t) :
  Invoice.CalculateTotals inv = Some inv' ->
  Invoice.CalculateTotals inv' = Some inv'.
Proof.
  unfold Invoice.CalculateTotals. intros H.
  inv_bind H. destruct v as [[items s] t]. inversion H; subst; clear H.
  simpl. rewrite (calculateItems_idempotent _ _ _ _ _ _ E). reflexivity.
Qed.

Lemma CalculateTotals_idempotent_witness :
  Invoice.CalculateTotals invoice1Calculated = Some invoice1Calculated.
Proof.
  apply (CalculateTotals_idempotent invoice1). vm_compute. reflexivity.
Defined.

(** The claim's words for C2: every line item recalculated, and the sums of
    the taxable amounts and of the VAT amounts over the recalculated
    items, added up from [decimal.Zero]. *)
Fixpoint calculateAll (items : list LineItem.t) : option (list LineItem.t) :=
  match items with
  | [] => Some []
  | item :: rest =>
    item' <- LineItem.Calculate item ;;
    rest' <- calculateAll rest ;;
    Some (item' :: rest')
  end.

Definition taxable (li : LineItem.t) : Decimal :=
  Sub (LineItem.Amount li) (LineItem.DiscountAmt li).

Definition sumFrom (f : LineItem.t -> Decimal) (items : list LineItem.t)
    (start : Decimal) : Decimal :=
  fold_left (fun acc li => Add acc (f li)) items start.

Definition sumTaxable (items : list LineItem.t) : Decimal := sumFrom taxable items Zero.
Definition sumVAT (items : list LineItem.t) : Decimal :=
  sumFrom LineItem.VATAmount items Zero.

Lemma calculateItems_sums (items : list LineItem.t) :
  forall subtotal tax,
    Invoice.calculateItems items subtotal tax =
    (items' <- calculateAll items ;;
     Some (items', sumFrom taxable items' subtotal, sumFrom LineItem.VATAmount items' tax)).
Proof.
  induction items as [|item rest IH]; simpl; intros s t; [reflexivity|].
  destruct (LineItem.Calculate item) as [item'|]; simpl; [|reflexivity].
  rewrite IH. destruct (calculateAll rest) as [rest'|]; reflexivity.
Qed.

Lemma calculateAll_VAT_exp (items : list LineItem.t) : forall items',
  calculateAll items = Some items' ->
  Forall (fun li => exp (LineItem.VATAmount li) = 0) items'.
Proof.
  induction items as [|item rest IH]; simpl; intros items' H.
  - inversion H. constructor.
  - destruct (LineItem.Calculate item) as [item'|] eqn:E; [|discriminate].
    simpl in H. destruct (calculateAll rest) as [rest'|]; [|discriminate].
    inversion H; subst. constructor; [|now apply IH].
    destruct (Calculate_fields _ _ E) as (a & da & vp & vq & _ & _ & _ & _ & ->).
    apply Round_exp.
Qed.

Lemma sumFrom_exp_nonneg (f : LineItem.t -> Decimal) (items : list LineItem.t) :
  Forall (fun li => exp (f li) = 0) items ->
  forall start, 0 <= exp start -> 0 <= exp (sumFrom f items start).
Proof.
  unfold sumFrom. induction 1 as [|li items Hli _ IH]; intros start Hs; simpl; [exact Hs|].
  apply IH. rewrite Add_exp, Hli. lia.
Qed.

Lemma total_of_rounded (items items' : list LineItem.t) :
  calculateAll items = Some items' ->
  0 <= value (sumTaxable items') ->
  0 <= value (Add (sumTaxable items') (sumVAT items')) ->
  Round (Add (sumTaxable items') (sumVAT items')) 0 =
  Round (Add (Round (sumTaxable items') 0) (Round (sumVAT items') 0)) 0.
Proof.
  intros H Hs Hsum. apply Round_Add_whole; auto.
  apply sumFrom_exp_nonneg; [now apply (calculateAll_VAT_exp items)|].
  unfold Zero. cbn. lia.
Qed.
(** C2, amended: CalculateTotals recalculates every line item and stores
    subtotal = round(sum of the taxable amounts), tax = round(sum of the VAT
    amounts) and total = round(sum of the taxable amounts + sum of the VAT
    amounts): the total rounds the sum of the two unrounded sums; it panics
    exactly when recalculating an item does.  The stored total is the
    rounding of the stored subtotal plus the stored tax whenever the sum of
    the taxable amounts is not negative and stays so with the VAT added. *)
Theorem CalculateTotals_sums (inv : Invoice.t) :
  Invoice.CalculateTotals inv =
    (items' <- calculateAll (Invoice.Items inv) ;;
     Some (Invoice.withTotals inv items'
             (Round (sumTaxable items') 0)
             (Round (sumVAT items') 0)
             (Round (Add (sumTaxable items') (sumVAT items')) 0))) /\
  (forall inv',
     Invoice.CalculateTotals inv = Some inv' ->
     0 <= value (sumTaxable (Invoice.Items inv')) ->
     0 <= value (Add (sumTaxable (Invoice.Items inv')) (sumVAT (Invoice.Items inv'))) ->
     Invoice.TotalAmount inv' =
       Round (Add (Invoice.SubtotalAmount inv') (Invoice.TaxAmount inv')) 0).
Proof.
  assert (Invoice.CalculateTotals inv =
    (items' <- calculateAll (Invoice.Items inv) ;;
     Some (Invoice.withTotals inv items'
             (Round (sumTaxable items') 0)
             (Round (sumVAT items') 0)
             (Round (Add (sumTaxable items') (sumVAT items')) 0)))) as Heq.
  { unfold Invoice.CalculateTotals. rewrite calculateItems_sums.
    destruct (calculateAll (Invoice.Items inv)); reflexivity. }
  split; [exact Heq|].
  intros inv' H. rewrite Heq in H.
  destruct (calculateAll (Invoice.Items inv)) as [items'|] eqn:E; [|discriminate].
  simpl in H. inversion H; subst inv'; clear H. cbn [Invoice.withTotals
    Invoice.Items Invoice.TotalAmount Invoice.SubtotalAmount Invoice.TaxAmount].
  now apply total_of_rounded with (items := Invoice.Items inv).
Qed.

(** C2 as stated fails: on the credit invoice the stored subtotal is -1 and
    the stored tax is 1, whose sum rounds to 0, while the stored total is
    1 = round(-0.5 + 1). *)
Lemma CalculateTotals_total_is_not_rounded_sum_of_rounded :
  exists inv',
    Invoice.CalculateTotals creditInvoice = Some inv' /\
    Invoice.SubtotalAmount inv' = dec (-1) /\
    Invoice.TaxAmount inv' = dec 1 /\
    Invoice.TotalAmount inv' = dec 1 /\
    Round (Add (Invoice.SubtotalAmount inv') (Invoice.TaxAmount inv')) 0 = dec 0 /\
    Equal (Invoice.TotalAmount inv')
          (Round (Add (Invoice.SubtotalAmount inv') (Invoice.TaxAmount inv')) 0) = false.
Proof.
  eexists. split; [vm_compute; reflexivity|].
  repeat split.
Qed.

End CalculatorClaims.

(** ** The pipeline *)

Module PipelineFacts.
Import processor.

(** The calls of the vision stage, and those of the text stage. *)
Definition isVisionCall (c : Call) : bool :=
  match c with
  | CallConvertToImages _ | CallChatWithImage _ _ _ _ _ => true
  | _ => false
  end.

Definition isTextCall (c : Call) : bool :=
  match c with
  | CallExtractBytes _ | CallChatText _ _ _ => true
  | _ => false
  end.

(** A stage's result when it succeeded with [method] and [confidence], and
    when it failed: an error and the one warning it recorded, no invoice. *)
Definition succeeded (r : Result.t) (method : ExtractionMethod) (confidence : float) : Prop :=
  (exists inv, Result.Invoice r = Some inv) /\
  Result.Error r = None /\
  Result.Method r = method /\
  Result.Confidence r = confidence /\
  Result.Warnings r = [].

Definition failed (r : Result.t) : Prop :=
  Result.Invoice r = None /\
  (exists err, Result.Error r = Some err) /\
  (exists w, Result.Warnings r = [w]).

(** Closes the conjuncts of [succeeded] and [failed] on an explicit result. *)
Ltac stage_solve :=
  repeat split; simpl; try reflexivity; try (eexists; reflexivity).

Section Stages.
Context {std : GoStd} {client : llm.Client} {pdfExtractor : pdf.Extractor}.

Lemma ConvertToImages_nonempty (w : pdf.Rendering) :
  pdf.ConvertToImages w <> Ok [].
Proof.
  unfold pdf.ConvertToImages.
  destruct (pdf.MkdirTemp w); [discriminate|].
  destruct (pdf.WriteFile w); [discriminate|].
  destruct (pdf.convertPDFToImages w); [discriminate|].
  destruct (pdf.ReadDir w) as [files|]; [|discriminate].
  destruct (pdf.readImages files []) as [|img imgs]; simpl; [discriminate|].
  destruct (lenb (img :: imgs) =? 0) eqn:E; discriminate.
Qed.

(** The normalizer called on an image: one ChatWithImage call, and either an
    invoice or an error. *)
Lemma extractFromImage_outcome (e : llm.Extractor.t) (imageData : list byte)
    (mime : string) (tr : list Call) :
  exists r c,
    extractFromImage e imageData mime tr = (Some r, tr ++ [c]) /\
    isVisionCall c = true /\
    (succeeded r MethodLLMVision 0.80%float \/ failed r).
Proof.
  unfold extractFromImage, llm.ExtractFromImage, bindT, call, ret.
  destruct (llm.ChatWithImage _ _ _ _ _) as [response|err]; simpl.
  - unfold llm.parseResponse.
    destruct (llm.decodeJSON response) as [llmResp|err]; simpl;
      eexists; eexists; (split; [reflexivity|]); (split; [reflexivity|]).
    + left. stage_solve.
    + right. stage_solve.
  - eexists; eexists; (split; [reflexivity|]); (split; [reflexivity|]).
    right. stage_solve.
Qed.

(** The vision stage never panics; it makes at least one call, all of them
    vision calls, and ends in success (llm_vision, 0.80, no warning) or in
    failure. *)
Lemma tryLLMVisionExtraction_outcome (e : llm.Extractor.t) (data : list byte)
    (mimeType : string) (tr : list Call) :
  exists r calls,
    tryLLMVisionExtraction e data mimeType tr = (Some r, tr ++ calls) /\
    calls <> [] /\
    forallb isVisionCall calls = true /\
    (succeeded r MethodLLMVision 0.80%float \/ failed r).
Proof.
  unfold tryLLMVisionExtraction.
  destruct (_ || _).
  - unfold bindT at 1. unfold call.
    pose proof (ConvertToImages_nonempty (pdf.rendering data)) as Hne.
    destruct (pdf.ConvertToImages (pdf.rendering data)) as [images|err].
    + destruct images as [|img rest]; [congruence|].
      destruct (extractFromImage_outcome e img (detectImageMimeType img)
                  (tr ++ [CallConvertToImages data])) as (r & c & H & Hc & Hr).
      exists r, [CallConvertToImages data; c].
      rewrite H. rewrite <- app_assoc. repeat split; auto; try discriminate.
      simpl. now rewrite Hc.
    + eexists. exists [CallConvertToImages data]. unfold ret.
      repeat split; try discriminate.
      right. stage_solve.
  - destruct (extractFromImage_outcome e data mimeType tr) as (r & c & H & Hc & Hr).
    exists r, [c]. rewrite H. repeat split; auto; try discriminate.
    simpl. now rewrite Hc.
Qed.

(** The text stage makes text calls only and ends in success (llm_text,
    0.85, no warning) or in failure. *)
Lemma tryLLMTextExtraction_outcome (e : llm.Extractor.t) (pdfData : list byte)
    (tr : list Call) :
  exists r calls,
    tryLLMTextExtraction e pdfData tr = (r, tr ++ calls) /\
    forallb isTextCall calls = true /\
    (succeeded r MethodLLMText 0.85%float \/ failed r).
Proof.
  unfold tryLLMTextExtraction, bindT, call, ret.
  destruct (pdf.ExtractBytes pdfData) as [extracted|err].
  - destruct (String.eqb (pdf.RawText extracted) "").
    + eexists. exists [CallExtractBytes pdfData]. stage_solve.
      right. stage_solve.
    + unfold llm.ExtractFromOCRText, bindT, call, ret.
      destruct (llm.ChatText _ _ _) as [response|err].
      * unfold llm.parseResponse.
        destruct (llm.decodeJSON response) as [llmResp|err];
          eexists; eexists; rewrite <- app_assoc; (split; [reflexivity|]);
          (split; [reflexivity|]).
        -- left. stage_solve.
        -- right. stage_solve.
      * eexists; eexists; rewrite <- app_assoc; (split; [reflexivity|]);
          (split; [reflexivity|]).
        right. stage_solve.
  - eexists. exists [CallExtractBytes pdfData]. stage_solve.
    right. stage_solve.
Qed.

(** When the miner returns text and the normalizer an invoice, the text
    stage succeeds with that invoice. *)
Lemma tryLLMTextExtraction_success (e : llm.Extractor.t) (pdfData : list byte)
    (tr : list Call) (extracted : pdf.ExtractedText) (response : string)
    (llmResp : llm.LLMResponse.t) :
  pdf.ExtractBytes pdfData = Ok extracted ->
  pdf.RawText extracted <> "" ->
  llm.ChatText (llm.Extractor.textModel e) llm.SystemPromptInvoiceExtractor
    (llm.UserPromptOCRCorrection (pdf.RawText extracted)) = Ok response ->
  llm.decodeJSON response = Ok llmResp ->
  fst (tryLLMTextExtraction e pdfData tr) =
    Result.mk (Some (llm.convertToInvoice llmResp)) MethodLLMText 0.85%float [] None.
Proof.
  intros HE Hne HC HD.
  unfold tryLLMTextExtraction, bindT, call, ret. rewrite HE.
  apply String.eqb_neq in Hne. rewrite Hne.
  unfold llm.ExtractFromOCRText, bindT, call, ret. rewrite HC.
  unfold llm.parseResponse. rewrite HD. reflexivity.
Qed.

(** When the miner fails or returns no text, the text stage fails. *)
Lemma tryLLMTextExtraction_no_text (e : llm.Extractor.t) (pdfData : list byte)
    (tr : list Call) :
  (forall extracted, pdf.ExtractBytes pdfData = Ok extracted -> pdf.RawText extracted = "") ->
  failed (fst (tryLLMTextExtraction e pdfData tr)).
Proof.
  intros H. unfold tryLLMTextExtraction, bindT, call, ret.
  destruct (pdf.ExtractBytes pdfData) as [extracted|err].
  - rewrite (H extracted eq_refl). simpl. stage_solve.
  - simpl. stage_solve.
Qed.

End Stages.

End PipelineFacts.

Module PipelineClaims.
Import processor PipelineFacts.

Section Claims.
Context {std : GoStd} {client : llm.Client} {pdfExtractor : pdf.Extractor}.

Lemma succeeded_not_failed (r : Result.t) (m : ExtractionMethod) (c : float) :
  succeeded r m c -> Result.Invoice r = None -> False.
Proof. intros ((inv & Hi) & _) H. congruence. Qed.

(** ProcessPDF once the text stage has run and failed: it goes on with the
    vision stage from the trace the text stage left. *)
Lemma ProcessPDF_after_text_failure (p : Pipeline) (e : llm.Extractor.t)
    (r : option (result (list byte))) (imageData pdfData : list byte)
    (mimeType : string) (tr tr1 : list Call) (textResult : Result.t) :
  llmExtractor p = Some e ->
  readPDFData r imageData = Ok pdfData ->
  tryLLMTextExtraction e pdfData tr = (textResult, tr1) ->
  Result.Invoice textResult = None ->
  exists visionResult calls,
    tryLLMVisionExtraction e pdfData mimeType tr1 = (Some visionResult, tr1 ++ calls) /\
    calls <> [] /\ forallb isVisionCall calls = true /\
    (succeeded visionResult MethodLLMVision 0.80%float \/ failed visionResult) /\
    ProcessPDF p r imageData mimeType tr =
      match Result.Invoice visionResult with
      | Some _ => (Some visionResult, tr1 ++ calls)
      | None =>
        (Some (Result.mk None "" 0%float
                 (Result.Warnings textResult ++ Result.Warnings visionResult)
                 (Some ("PDF extraction failed (text: " ++ fmtV (Result.Error textResult)
                        ++ ", vision: " ++ fmtV (Result.Error visionResult) ++ ")")%string)),
         tr1 ++ calls)
      end.
Proof.
  intros He Hr Ht Hnone.
  destruct (tryLLMVisionExtraction_outcome e pdfData mimeType tr1)
    as (vr & calls & Hv & Hne & Hcalls & Hout).
  exists vr, calls. repeat split; auto.
  unfold ProcessPDF. rewrite He, Hr. unfold bindT at 1. rewrite Ht.
  rewrite Hnone. unfold bindT. rewrite Hv.
  destruct Hout as [((inv & Hi) & _)|(Hi & (err & Herr) & _)].
  - rewrite Hi. reflexivity.
  - rewrite Hi, Herr. reflexivity.
Qed.

(** The vision stage never panics: [images[0]] is reached only with the
    non-empty slice ConvertToImages returns without error, and the stage
    always returns a Result. *)
Theorem tryLLMVisionExtraction_returns (e : llm.Extractor.t) (data : list byte)
    (mimeType : string) (tr : list Call) :
  exists r,
    fst (tryLLMVisionExtraction e data mimeType tr) = Some r /\
    ((exists inv, Result.Invoice r = Some inv) \/ (exists err, Result.Error r = Some err)).
Proof.
  destruct (tryLLMVisionExtraction_outcome e data mimeType tr)
    as (r & calls & H & _ & _ & Hout).
  exists r. rewrite H. split; [reflexivity|].
  destruct Hout as [(Hi & _)|(_ & Herr & _)]; auto.
Qed.

(** C4: ProcessPDF tries the text stage first.  When it succeeds -- which it
    does when the miner returns non-empty text and the normalizer an invoice
    -- ProcessPDF returns its result, method llm_text and confidence 0.85,
    and the trace holds no call of the vision stage.  When it fails -- as it
    does when the miner returns no text -- the vision stage runs next, and
    when that succeeds ProcessPDF returns its result, method llm_vision and
    confidence 0.80. *)
Theorem ProcessPDF_first_success_wins (p : Pipeline) (e : llm.Extractor.t)
    (r : option (result (list byte))) (imageData pdfData : list byte)
    (mimeType : string) (tr tr1 : list Call) (textResult : Result.t) :
  llmExtractor p = Some e ->
  readPDFData r imageData = Ok pdfData ->
  tryLLMTextExtraction e pdfData tr = (textResult, tr1) ->
  (* the text stage succeeds *)
  ((exists inv, Result.Invoice textResult = Some inv) ->
     ProcessPDF p r imageData mimeType tr = (Some textResult, tr1) /\
     Result.Method textResult = MethodLLMText /\
     Result.Confidence textResult = 0.85%float /\
     exists calls, tr1 = tr ++ calls /\ forallb isTextCall calls = true) /\
  (forall extracted response llmResp,
     pdf.ExtractBytes pdfData = Ok extracted ->
     pdf.RawText extracted <> "" ->
     llm.ChatText (llm.Extractor.textModel e) llm.SystemPromptInvoiceExtractor
       (llm.UserPromptOCRCorrection (pdf.RawText extracted)) = Ok response ->
     llm.decodeJSON response = Ok llmResp ->
     Result.Invoice textResult = Some (llm.convertToInvoice llmResp)) /\
  (* the text stage fails *)
  ((forall extracted, pdf.ExtractBytes pdfData = Ok extracted -> pdf.RawText extracted = "") ->
     Result.Invoice textResult = None) /\
  (Result.Invoice textResult = None ->
     exists visionResult calls,
       tryLLMVisionExtraction e pdfData mimeType tr1 = (Some visionResult, tr1 ++ calls) /\
       calls <> [] /\ forallb isVisionCall calls = true /\
       snd (ProcessPDF p r imageData mimeType tr) = tr1 ++ calls /\
       ((exists inv, Result.Invoice visionResult = Some inv) ->
          ProcessPDF p r imageData mimeType tr = (Some visionResult, tr1 ++ calls) /\
          Result.Method visionResult = MethodLLMVision /\
          Result.Confidence visionResult = 0.80%float)).
Proof.
  intros He Hr Ht.
  destruct (tryLLMTextExtraction_outcome e pdfData tr) as (r0 & calls & H0 & Hcalls & Hout).
  rewrite Ht in H0. inversion H0; subst r0 tr1; clear H0.
  repeat split.
  - unfold ProcessPDF. rewrite He, Hr. unfold bindT. rewrite Ht.
    destruct Hout as [((inv & Hi) & Herr & _)|(Hi & _)].
    + rewrite Hi, Herr. reflexivity.
    + destruct H as (inv & H). congruence.
  - destruct Hout as [(_ & _ & Hm & _)|(Hi & _)]; [exact Hm|].
    destruct H as (inv & H). congruence.
  - destruct Hout as [(_ & _ & _ & Hc & _)|(Hi & _)]; [exact Hc|].
    destruct H as (inv & H). congruence.
  - exists calls. split; [reflexivity|exact Hcalls].
  - intros extracted response llmResp HE Hne HC HD.
    pose proof (tryLLMTextExtraction_success e pdfData tr _ _ _ HE Hne HC HD) as Hs.
    rewrite Ht in Hs. simpl in Hs. rewrite Hs. reflexivity.
  - intros Hempty.
    pose proof (tryLLMTextExtraction_no_text e pdfData tr Hempty) as (Hi & _).
    rewrite Ht in Hi. exact Hi.
  - intros Hnone.
    destruct (ProcessPDF_after_text_failure p e r imageData pdfData mimeType tr _ _
                He Hr Ht Hnone) as (vr & vcalls & Hv & Hne & Hvc & Hvout & HP).
    exists vr, vcalls. repeat split; auto.
    + rewrite HP. destruct (Result.Invoice vr); reflexivity.
    + rewrite HP. destruct H as (inv & ->). reflexivity.
    + destruct Hvout as [(_ & _ & Hm & _)|(Hi & _)]; [exact Hm|].
      destruct H as (inv & H). congruence.
    + destruct Hvout as [(_ & _ & _ & Hc & _)|(Hi & _)]; [exact Hc|].
      destruct H as (inv & H). congruence.
Qed.

(** C5: when the text stage and the vision stage both fail, ProcessPDF
    returns a Result without invoice, whose error is the one message
    "PDF extraction failed (text: ..., vision: ...)" built from the two
    stages' errors, and whose warnings are the text stage's followed by the
    vision stage's. *)
Theorem ProcessPDF_both_stages_fail (p : Pipeline) (e : llm.Extractor.t)
    (r : option (result (list byte))) (imageData pdfData : list byte)
    (mimeType : string) (tr tr1 tr2 : list Call) (textResult : Result.t)
    (v : option Result.t) :
  llmExtractor p = Some e ->
  readPDFData r imageData = Ok pdfData ->
  tryLLMTextExtraction e pdfData tr = (textResult, tr1) ->
  Result.Invoice textResult = None ->
  tryLLMVisionExtraction e pdfData mimeType tr1 = (v, tr2) ->
  (forall visionResult, v = Some visionResult -> Result.Invoice visionResult = None) ->
  exists visionResult textErr visionErr textWarning visionWarning,
    v = Some visionResult /\
    Result.Error textResult = Some textErr /\
    Result.Error visionResult = Some visionErr /\
    Result.Warnings textResult = [textWarning] /\
    Result.Warnings visionResult = [visionWarning] /\
    ProcessPDF p r imageData mimeType tr =
      (Some (Result.mk None "" 0%float [textWarning; visionWarning]
               (Some ("PDF extraction failed (text: " ++ textErr ++
                      ", vision: " ++ visionErr ++ ")")%string)),
       tr2).
Proof.
  intros He Hr Ht Hnone Hv Hfail.
  destruct (ProcessPDF_after_text_failure p e r imageData pdfData mimeType tr _ _
              He Hr Ht Hnone) as (vr & vcalls & Hv' & _ & _ & Hvout & HP).
  rewrite Hv in Hv'. inversion Hv'; subst v tr2; clear Hv'.
  specialize (Hfail vr eq_refl).
  destruct (tryLLMTextExtraction_outcome e pdfData tr) as (r0 & calls & H0 & _ & Hout).
  rewrite Ht in H0. inversion H0; subst r0 tr1; clear H0.
  destruct Hout as [Hs|(_ & (terr & Hterr) & (tw & Htw))];
    [exfalso; eapply succeeded_not_failed; eauto|].
  destruct Hvout as [Hs|(_ & (verr & Hverr) & (vw & Hvw))];
    [exfalso; eapply succeeded_not_failed; eauto|].
  exists vr, terr, verr, tw, vw. repeat split; auto.
  rewrite HP, Hfail, Hterr, Hverr, Htw, Hvw. reflexivity.
Qed.

(** C10: when the text stage fails, having recorded its warning, and the
    vision stage succeeds, ProcessPDF returns the vision stage's Result as it
    is: method llm_vision, confidence 0.80, no error and no warning; the text
    stage's warning is not in it. *)
Theorem ProcessPDF_vision_success_drops_text_warning (p : Pipeline)
    (e : llm.Extractor.t) (r : option (result (list byte)))
    (imageData pdfData : list byte) (mimeType : string) (tr tr1 tr2 : list Call)
    (textResult visionResult : Result.t) :
  llmExtractor p = Some e ->
  readPDFData r imageData = Ok pdfData ->
  tryLLMTextExtraction e pdfData tr = (textResult, tr1) ->
  Result.Invoice textResult = None ->
  tryLLMVisionExtraction e pdfData mimeType tr1 = (Some visionResult, tr2) ->
  (exists inv, Result.Invoice visionResult = Some inv) ->
  ProcessPDF p r imageData mimeType tr = (Some visionResult, tr2) /\
  Result.Method visionResult = MethodLLMVision /\
  Result.Confidence visionResult = 0.80%float /\
  Result.Error visionResult = None /\
  Result.Warnings visionResult = [] /\
  exists textWarning,
    Result.Warnings textResult = [textWarning] /\
    ~ In textWarning (Result.Warnings visionResult).
Proof.
  intros He Hr Ht Hnone Hv (inv & Hinv).
  destruct (ProcessPDF_after_text_failure p e r imageData pdfData mimeType tr _ _
              He Hr Ht Hnone) as (vr & vcalls & Hv' & _ & _ & Hvout & HP).
  rewrite Hv in Hv'. inversion Hv'; subst vr tr2; clear Hv'.
  rewrite Hinv in HP.
  destruct Hvout as [(_ & Herr & Hm & Hc & Hw)|(Hi & _)]; [|congruence].
  destruct (tryLLMTextExtraction_outcome e pdfData tr) as (r0 & calls & H0 & _ & Hout).
  rewrite Ht in H0. inversion H0; subst r0 tr1; clear H0.
  destruct Hout as [Hs|(_ & _ & (tw & Htw))];
    [exfalso; eapply succeeded_not_failed; eauto|].
  repeat split; auto.
  exists tw. split; [exact Htw|]. rewrite Hw. simpl. tauto.
Qed.

End Claims.

End PipelineClaims.

(** ** The printability filter *)

Module PrintableClaims.
Import pdf.

(** The two bytes of U+0110 (Latin capital D with stroke, in the
    Latin-Extended range) followed by the three bytes of U+1EC1 (Latin small
    e with circumflex and grave, in the Vietnamese range): a Vietnamese word
    of two letters in UTF-8. *)
Definition vietnameseWord : string :=
  string_of_list_byte [xc4; x90; xe1; xbb; x81].

(** Ten bytes of which the four letters and digits are printable. *)
Definition tenBytesFourPrintable : string := "ab12!@#$%^".

(** The claim's two examples hold. *)
Lemma isPrintableText_examples :
  isPrintableText "Hello, 123" = true /\
  len tenBytesFourPrintable = 10 /\
  countPrintable (utf8.runes tenBytesFourPrintable) 0 = 4 /\
  isPrintableText tenBytesFourPrintable = false.
Proof. repeat split. Qed.

(** C6 (the code departs from the claim): isPrintableText divides the number
    of printable characters by the number of bytes.  The Vietnamese word
    has two characters, both in the printable set, so its
    printable-character ratio is 1; it has five bytes, so the code computes
    2/5 and drops it. *)
Theorem isPrintableText_drops_printable_multibyte_text :
  utf8.runes vietnameseWord = [0x0110; 0x1EC1] /\
  forallb isPrintableRune (utf8.runes vietnameseWord) = true /\
  countPrintable (utf8.runes vietnameseWord) 0 = utf8.RuneCountInString vietnameseWord /\
  len vietnameseWord = 5 /\
  isPrintableText vietnameseWord = false.
Proof. repeat split. Qed.

End PrintableClaims.

(** ** Format detection *)

Module DetectFormatClaims.
Import processor.

(** The classification in the claim's words: [data] starts with the bytes
    [magic]; the string [sub] occurs in [s]. *)
Definition startsWith (magic data : list byte) : Prop :=
  exists rest, data = magic ++ rest.

Definition occursIn (sub s : string) : Prop :=
  exists pre post, s = (pre ++ sub ++ post)%string.

(** The first character is [<], or [<?xml] occurs within the first 100
    bytes. *)
Definition xmlLike (data : list byte) : Prop :=
  startsWith [x3c] data \/
  occursIn "<?xml" (string_of_list_byte (firstn 100 data)).

Definition pdfMagic : list byte := list_byte_of_string "%PDF".
Definition pngMagic : list byte := [x89; x50; x4e; x47].
Definition jpegMagic : list byte := [xff; xd8; xff].
Definition tiffLittleEndian : list byte := [x49; x49; x2a; x00].
Definition tiffBigEndian : list byte := [x4d; x4d; x00; x2a].

Definition imageMagic (data : list byte) : Prop :=
  startsWith pngMagic data \/ startsWith jpegMagic data \/
  startsWith tiffLittleEndian data \/ startsWith tiffBigEndian data.

(** The boolean tests of the code against these. *)

Fixpoint startsWithb (magic data : list byte) : bool :=
  match magic, data with
  | [], _ => true
  | m :: magic', d :: data' => Byte.eqb m d && startsWithb magic' data'
  | _ :: _, [] => false
  end.

Lemma byteAt_cons_S (d : byte) (data : list byte) (i : nat) (n : N) :
  byteAt (d :: data) (S i) n = byteAt data i n.
Proof. reflexivity. Qed.

Lemma byteAt_head (d c : byte) (data : list byte) (n : N) :
  Byte.of_N n = Some c -> (byteAt (d :: data) 0 n = true <-> d = c).
Proof.
  intros H. unfold byteAt. simpl. rewrite N.eqb_eq. rewrite <- Byte.to_of_N_iff.
  rewrite H. split; [intros E; now inversion E | now intros ->].
Qed.

Lemma byteAt_nil (i : nat) (n : N) : byteAt [] i n = false.
Proof. destruct i; reflexivity. Qed.

Lemma prefix_spec (sub s : string) :
  String.prefix sub s = true <-> exists post, s = (sub ++ post)%string.
Proof.
  revert s. induction sub as [|a sub IH]; intros s.
  - destruct s; simpl; split; eauto.
  - destruct s as [|b s]; simpl.
    + split; [discriminate|]. intros (post & H). discriminate.
    + destruct (ascii_dec a b) as [->|Hne].
      * rewrite IH. split; intros (post & H); exists post; [now rewrite H|now inversion H].
      * split; [discriminate|]. intros (post & H). inversion H. congruence.
Qed.

Lemma contains_spec (s sub : string) :
  contains s sub = true <-> occursIn sub s.
Proof.
  unfold occursIn. induction s as [|c s IH].
  - change (contains "" sub) with (String.prefix sub "" || false).
    rewrite orb_false_r, prefix_spec. split.
    + intros (post & H). exists "", post. exact H.
    + intros (pre & post & H). destruct pre; [now exists post|discriminate].
  - change (contains (String c s) sub)
      with (String.prefix sub (String c s) || contains s sub).
    rewrite orb_true_iff, prefix_spec, IH. split.
    + intros [(post & H)|(pre & post & H)].
      * exists "", post. exact H.
      * exists (String c pre), post. simpl. now rewrite H.
    + intros (pre & post & H). destruct pre as [|a pre].
      * left. now exists post.
      * right. simpl in H. inversion H. now exists pre, post.
Qed.

Lemma firstn_min100 (data : list byte) :
  firstn (Z.to_nat (min 100 (lenb data))) data = firstn 100 data.
Proof.
  unfold min, lenb. destruct (100 <? Z.of_nat (List.length data)) eqn:E.
  - reflexivity.
  - apply Z.ltb_ge in E. rewrite Nat2Z.id.
    rewrite firstn_all. symmetry. apply firstn_all2. lia.
Qed.

Lemma firstn_startsWith (magic data : list byte) :
  firstn (List.length magic) data = magic <-> startsWith magic data.
Proof.
  split.
  - intros H. exists (skipn (List.length magic) data).
    rewrite <- H at 1. symmetry. apply firstn_skipn.
  - intros (rest & ->). rewrite firstn_app, Nat.sub_diag, firstn_all. simpl.
    apply app_nil_r.
Qed.

Lemma pdfMagic_spec (data : list byte) :
  (4 <=? lenb data) && String.eqb (stringOfPrefix data 4) "%PDF" = true <->
  startsWith pdfMagic data.
Proof.
  rewrite <- firstn_startsWith. unfold stringOfPrefix, pdfMagic. simpl List.length.
  rewrite andb_true_iff, String.eqb_eq, Z.leb_le. split.
  - intros (_ & H). rewrite <- H. now rewrite list_byte_of_string_of_list_byte.
  - intros H. split.
    + unfold lenb. apply (f_equal (@List.length byte)) in H. rewrite length_firstn in H.
      change (List.length (list_byte_of_string "%PDF")) with 4%nat in H. lia.
    + rewrite H. reflexivity.
Qed.


Lemma byteAt_here (d c : byte) (data : list byte) (n : N) :
  Byte.of_N n = Some c -> byteAt (d :: data) 0 n = Byte.eqb c d.
Proof.
  intros H. destruct (Byte.eqb c d) eqn:E.
  - apply Byte.byte_dec_bl in E. subst d. now apply (byteAt_head c c data n H).
  - destruct (byteAt (d :: data) 0 n) eqn:E'; [|reflexivity].
    apply (byteAt_head d c data n H) in E'. subst d.
    pose proof (@Byte.byte_dec_lb c c eq_refl). congruence.
Qed.

Lemma startsWithb_spec (magic data : list byte) :
  startsWithb magic data = true <-> startsWith magic data.
Proof.
  revert data. induction magic as [|m magic IH]; intros data; simpl.
  - split; auto. intros _. now exists data.
  - destruct data as [|d data].
    + split; [discriminate|]. intros (rest & H). discriminate.
    + rewrite andb_true_iff, IH. split.
      * intros (E & rest & ->). apply Byte.byte_dec_bl in E. subst. now exists rest.
      * intros (rest & H). inversion H. split; [now apply Byte.byte_dec_lb|now exists rest].
Qed.

Lemma magic4_spec (data : list byte) (n0 n1 n2 n3 : N) (c0 c1 c2 c3 : byte) :
  Byte.of_N n0 = Some c0 -> Byte.of_N n1 = Some c1 ->
  Byte.of_N n2 = Some c2 -> Byte.of_N n3 = Some c3 ->
  byteAt data 0 n0 && byteAt data 1 n1 && byteAt data 2 n2 && byteAt data 3 n3 =
  startsWithb [c0; c1; c2; c3] data.
Proof.
  intros H0 H1 H2 H3.
  destruct data as [|d0 data]; [reflexivity|].
  rewrite !byteAt_cons_S, (byteAt_here _ _ _ _ H0). simpl.
  destruct (Byte.eqb c0 d0); [|reflexivity]. simpl.
  destruct data as [|d1 data]; [reflexivity|].
  rewrite !byteAt_cons_S, (byteAt_here _ _ _ _ H1).
  destruct (Byte.eqb c1 d1); [|reflexivity]. simpl.
  destruct data as [|d2 data]; [reflexivity|].
  rewrite !byteAt_cons_S, (byteAt_here _ _ _ _ H2).
  destruct (Byte.eqb c2 d2); [|reflexivity]. simpl.
  destruct data as [|d3 data]; [reflexivity|].
  rewrite (byteAt_here _ _ _ _ H3).
  destruct (Byte.eqb c3 d3); reflexivity.
Qed.

Lemma magic3_spec (data : list byte) (n0 n1 n2 : N) (c0 c1 c2 : byte) :
  Byte.of_N n0 = Some c0 -> Byte.of_N n1 = Some c1 -> Byte.of_N n2 = Some c2 ->
  byteAt data 0 n0 && byteAt data 1 n1 && byteAt data 2 n2 =
  startsWithb [c0; c1; c2] data.
Proof.
  intros H0 H1 H2.
  destruct data as [|d0 data]; [reflexivity|].
  rewrite !byteAt_cons_S, (byteAt_here _ _ _ _ H0). simpl.
  destruct (Byte.eqb c0 d0); [|reflexivity]. simpl.
  destruct data as [|d1 data]; [reflexivity|].
  rewrite !byteAt_cons_S, (byteAt_here _ _ _ _ H1).
  destruct (Byte.eqb c1 d1); [|reflexivity]. simpl.
  destruct data as [|d2 data]; [reflexivity|].
  rewrite (byteAt_here _ _ _ _ H2).
  destruct (Byte.eqb c2 d2); reflexivity.
Qed.

Lemma imageMagic_spec (data : list byte) :
  (byteAt data 0 0x89 && byteAt data 1 0x50 && byteAt data 2 0x4E && byteAt data 3 0x47) ||
  (byteAt data 0 0xFF && byteAt data 1 0xD8 && byteAt data 2 0xFF) ||
  (byteAt data 0 0x49 && byteAt data 1 0x49 && byteAt data 2 0x2A && byteAt data 3 0x00) ||
  (byteAt data 0 0x4D && byteAt data 1 0x4D && byteAt data 2 0x00 && byteAt data 3 0x2A) = true
  <-> imageMagic data.
Proof.
  unfold imageMagic, pngMagic, jpegMagic, tiffLittleEndian, tiffBigEndian.
  rewrite (magic4_spec data _ _ _ _ x89 x50 x4e x47) by reflexivity.
  rewrite (magic3_spec data _ _ _ xff xd8 xff) by reflexivity.
  rewrite (magic4_spec data _ _ _ _ x49 x49 x2a x00) by reflexivity.
  rewrite (magic4_spec data _ _ _ _ x4d x4d x00 x2a) by reflexivity.
  rewrite !orb_true_iff, !startsWithb_spec. tauto.
Qed.

Lemma xmlLike_spec (data : list byte) :
  data <> [] ->
  (let header := stringOfPrefix data (Z.to_nat (min 100 (lenb data))) in
   charAt header 0 "<" || contains header "<?xml") = true <-> xmlLike data.
Proof.
  intros Hne. cbv zeta. unfold stringOfPrefix, xmlLike. rewrite firstn_min100.
  rewrite orb_true_iff, contains_spec.
  assert (charAt (string_of_list_byte (firstn 100 data)) 0 "<" = true
          <-> startsWith [x3c] data) as ->; [|reflexivity].
  destruct data as [|d data]; [contradiction|]. simpl.
  unfold charAt. simpl. rewrite Ascii.eqb_eq. split.
  - intros H. exists data.
    apply (f_equal byte_of_ascii) in H. rewrite byte_of_ascii_of_byte in H.
    rewrite H. reflexivity.
  - intros (rest & H). inversion H. reflexivity.
Qed.


Ltac classify :=
  repeat split; intros; try discriminate; try reflexivity;
  intuition (try discriminate; try lia; try congruence).

(** C7, amended: DetectFormat answers unknown for empty input; xml exactly
    when the input is longer than 5 bytes and its first character is [<] or
    [<?xml] occurs within its first 100 bytes; pdf exactly when it is not
    such an input and starts with [%PDF]; image exactly when it is neither,
    has at least 8 bytes and starts with the PNG, JPEG or TIFF (little- or
    big-endian) magic bytes; and unknown in every other case. *)
Theorem DetectFormat_classifies (data : list byte) :
  (data = [] -> DetectFormat data = FormatUnknown) /\
  (DetectFormat data = FormatXML <-> 5 < lenb data /\ xmlLike data) /\
  (DetectFormat data = FormatPDF <->
     startsWith pdfMagic data /\ ~ (5 < lenb data /\ xmlLike data)) /\
  (DetectFormat data = FormatImage <->
     8 <= lenb data /\ imageMagic data /\
     ~ (5 < lenb data /\ xmlLike data) /\ ~ startsWith pdfMagic data).
Proof.
  split; [intros ->; reflexivity|].
  unfold DetectFormat.
  destruct (lenb data =? 0) eqn:E0.
  - apply Z.eqb_eq in E0.
    assert (data = []) as ->
      by (destruct data; [reflexivity|unfold lenb in E0; simpl in E0; lia]).
    unfold lenb. simpl. repeat split; try discriminate.
    + intros (H & _). lia.
    + intros ((rest & H) & _). discriminate.
    + intros (H & _). lia.
  - assert (data <> []) as Hne by (intros ->; discriminate).
    pose proof (xmlLike_spec data Hne) as Hxml. cbv zeta in Hxml.
    pose proof (pdfMagic_spec data) as Hpdf.
    pose proof (imageMagic_spec data) as Himg.
    destruct (Z.ltb_spec 5 (lenb data));
    destruct (charAt _ 0 "<" || contains _ "<?xml");
    destruct ((4 <=? lenb data) && _)%bool;
    destruct (Z.leb_spec 8 (lenb data));
    simpl;
    try (destruct (_ || _ || _ || _)%bool);
    classify.
Qed.

(** C7 as stated fails on short inputs: the four bytes [<a/>] start with
    [<] and are classified unknown, not xml; six bytes that start with the
    JPEG magic bytes are classified unknown, not image. *)
Lemma DetectFormat_short_inputs_unknown :
  xmlLike (list_byte_of_string "<a/>") /\
  DetectFormat (list_byte_of_string "<a/>") = FormatUnknown /\
  imageMagic [xff; xd8; xff; xe0; x00; x10] /\
  DetectFormat [xff; xd8; xff; xe0; x00; x10] = FormatUnknown.
Proof.
  repeat split.
  - left. now exists (list_byte_of_string "a/>").
  - right. left. now exists [xe0; x00; x10].
Qed.

End DetectFormatClaims.

(** ** Sample collaborators, and the pipeline theorems applied to them *)

Module PipelineSamples.
Import processor PipelineFacts PipelineClaims.

(** A standard library that accepts no date and has no Unicode tables. *)
Definition plainStd : GoStd := {|
  time_Parse := fun _ value => Err ("parsing time " ++ value)%string;
  strings_TrimSpace := fun s => s;
  unicode_ToLower := fun s => s
|}.

Definition sampleItem : llm.LLMLineItem.t :=
  llm.LLMLineItem.mk 1 "" "paper" "" "ream" "3" "333" "15" "150" "999" "10" "85" "934".

Definition sampleResponse : llm.LLMResponse.t :=
  llm.LLMResponse.mk "0000123" "AA/24E" "" "normal"
    (llm.LLMParty.mk "Seller Co" "0100109106" "Ha Noi" "" "" "" "")
    (llm.LLMParty.mk "Buyer Co" "0300588569" "Da Nang" "" "" "" "")
    [sampleItem] "849" "150" "85" "934" "VND" "" "" "" "" "" "" "" "" "".

(** A model client that answers every request with the sample response, and
    one that cannot be reached. *)
Definition answeringClient : llm.Client := {|
  llm.ChatText := fun _ _ _ => Ok "{invoice_number: 0000123}";
  llm.ChatWithImage := fun _ _ _ _ _ => Ok "{invoice_number: 0000123}";
  llm.decodeJSON := fun _ => Ok sampleResponse;
  llm.SystemPromptInvoiceExtractor := "You are an expert invoice data extractor";
  llm.UserPromptTextExtraction := fun text => ("Extract invoice data: " ++ text)%string;
  llm.UserPromptImageExtraction := "Extract invoice data from this invoice image.";
  llm.UserPromptOCRCorrection := fun text => ("OCR Text: " ++ text)%string
|}.

Definition unreachableClient : llm.Client := {|
  llm.ChatText := fun _ _ _ => Err "connection refused";
  llm.ChatWithImage := fun _ _ _ _ _ => Err "connection refused";
  llm.decodeJSON := fun _ => Err "unexpected end of JSON input";
  llm.SystemPromptInvoiceExtractor := "You are an expert invoice data extractor";
  llm.UserPromptTextExtraction := fun text => ("Extract invoice data: " ++ text)%string;
  llm.UserPromptImageExtraction := "Extract invoice data from this invoice image.";
  llm.UserPromptOCRCorrection := fun text => ("OCR Text: " ++ text)%string
|}.

Definition onePage : pdf.Rendering :=
  pdf.mkRendering None None None None
    (Ok [pdf.mkDirEntry "input.pdf" false (Ok []);
         pdf.mkDirEntry "page-1.jpg" false (Ok [xff; xd8; xff; xe0])]).

Definition noTool : pdf.Rendering :=
  pdf.mkRendering None None (Some "executable file not found") (Some "exit status 1")
    (Ok [pdf.mkDirEntry "input.pdf" false (Ok [])]).

(** A PDF with a text layer, a scanned PDF without one, and a file the
    reader rejects and no tool renders. *)
Definition textPDF : pdf.Extractor := {|
  pdf.ExtractBytes := fun _ => Ok (pdf.mkExtractedText [] "HOA DON GTGT 0000123" 1);
  pdf.rendering := fun _ => onePage
|}.

Definition scannedPDF : pdf.Extractor := {|
  pdf.ExtractBytes := fun _ => Ok (pdf.mkExtractedText [] "" 1);
  pdf.rendering := fun _ => onePage
|}.

Definition brokenPDF : pdf.Extractor := {|
  pdf.ExtractBytes := fun _ => Err "failed to get page count: bad xref";
  pdf.rendering := fun _ => noTool
|}.

Definition pipeline : Pipeline :=
  mkPipeline (Some (llm.Extractor.mk "text-model" "vision-model")).

Definition pdfBytes : list byte := list_byte_of_string "%PDF-1.4 sample".

(** The text stage succeeds: its result is returned. *)
Lemma ProcessPDF_first_success_wins_witness :
  exists textResult,
    fst (ProcessPDF (std := plainStd) (client := answeringClient) (pdfExtractor := textPDF)
           pipeline (Some (Ok pdfBytes)) [] "application/pdf" []) = Some textResult /\
    Result.Method textResult = MethodLLMText /\
    Result.Confidence textResult = 0.85%float.
Proof.
  destruct (ProcessPDF_first_success_wins (std := plainStd) (client := answeringClient)
              (pdfExtractor := textPDF) pipeline _ (Some (Ok pdfBytes)) [] pdfBytes
              "application/pdf" [] _ _ eq_refl eq_refl eq_refl) as (H & _).
  destruct (H (ex_intro _ _ eq_refl)) as (HP & Hm & Hc & _).
  eexists. rewrite HP. split; [reflexivity|]. split; [exact Hm|exact Hc].
Defined.

(** Both stages fail: no invoice, one error naming both causes, both
    warnings. *)
Lemma ProcessPDF_both_stages_fail_witness :
  exists result calls,
    ProcessPDF (std := plainStd) (client := unreachableClient) (pdfExtractor := brokenPDF)
      pipeline (Some (Ok pdfBytes)) [] "application/pdf" [] = (Some result, calls) /\
    Result.Invoice result = None /\
    (exists err, Result.Error result = Some err) /\
    List.length (Result.Warnings result) = 2%nat.
Proof.
  destruct (ProcessPDF_both_stages_fail (std := plainStd) (client := unreachableClient)
              (pdfExtractor := brokenPDF) pipeline _ (Some (Ok pdfBytes)) [] pdfBytes
              "application/pdf" [] _ _ _ _ eq_refl eq_refl eq_refl eq_refl eq_refl
              (fun vr H => f_equal (fun v => match v with
                                             | Some x => Result.Invoice x
                                             | None => None
                                             end) (eq_sym H)))
    as (vr & terr & verr & tw & vw & _ & _ & _ & _ & _ & HP).
  eexists. eexists. rewrite HP. split; [reflexivity|]. split; [reflexivity|].
  split; [eexists; reflexivity | reflexivity].
Defined.

(** The text stage finds no text, the vision stage succeeds: its result is
    returned without the text stage's warning. *)
Lemma ProcessPDF_vision_success_drops_text_warning_witness :
  exists visionResult calls,
    ProcessPDF (std := plainStd) (client := answeringClient) (pdfExtractor := scannedPDF)
      pipeline (Some (Ok pdfBytes)) [] "application/pdf" [] = (Some visionResult, calls) /\
    Result.Method visionResult = MethodLLMVision /\
    Result.Warnings visionResult = [].
Proof.
  destruct (ProcessPDF_vision_success_drops_text_warning (std := plainStd)
              (client := answeringClient) (pdfExtractor := scannedPDF)
              pipeline _ (Some (Ok pdfBytes)) [] pdfBytes "application/pdf" [] _ _ _ _
              eq_refl eq_refl eq_refl eq_refl eq_refl (ex_intro _ _ eq_refl))
    as (HP & Hm & _ & _ & Hw & _).
  eexists. eexists. rewrite HP. split; [reflexivity|]. split; [exact Hm|exact Hw].
Defined.

End PipelineSamples.

(** ** Rendering an invoice for the Normalizer

    Modelled from the spec: the round trip "canonical invoice ->
    Normalizer-compatible JSON (Vietnamese numeric formatting) -> Normalizer"
    needs a renderer, which is not in the repository's sources.  A number is
    written with [.] between groups of three digits of its integer part and
    [,] before its fractional digits. *)
Module Render.

(** Modelled from the spec: the character of the decimal digit [d]. *)
Definition digitChar (d : Z) : ascii := ascii_of_N (Z.to_N (48 + d)).

(** Modelled from the spec: the decimal digits of [n] written before [acc],
    the last digit first; [fuel] bounds their number. *)
Fixpoint digitsAcc (fuel : nat) (n : Z) (acc : list ascii) : list ascii :=
  match fuel with
  | O => acc
  | S fuel' =>
    let acc' := digitChar (n mod 10) :: acc in
    if n <? 10 then acc' else digitsAcc fuel' (n / 10) acc'
  end.

(** Modelled from the spec: the decimal digits of [n >= 0], which are at
    most [log2 n + 1]. *)
Definition digitsOf (n : Z) : list ascii :=
  digitsAcc (S (Z.to_nat (Z.log2 n))) n [].

(** Modelled from the spec: [l] with zeros before it up to [width] digits. *)
Definition padZeros (width : nat) (l : list ascii) : list ascii :=
  repeat "0"%char (width - List.length l) ++ l.

(** Modelled from the spec: the thousands separator [.] after every third
    digit that has a digit after it, on the digits from the right. *)
Fixpoint groupRev (l : list ascii) (count : nat) : list ascii :=
  match l with
  | [] => []
  | c :: rest =>
    match rest, count with
    | _ :: _, 2%nat => c :: "."%char :: groupRev rest 0
    | _, _ => c :: groupRev rest (S count)
    end
  end.

(** Modelled from the spec: digits in groups of three, [1.234.567]. *)
Definition group3 (l : list ascii) : list ascii := rev (groupRev (rev l) 0).

(** Modelled from the spec: a decimal in Vietnamese formatting, with as
    many fractional digits as its exponent is below zero: [1.234.567,89]. *)
Definition formatVN (d : Decimal) : string :=
  let m := Z.abs (value d) in
  let sign := if value d <? 0 then ["-"%char] else [] in
  let body :=
    if 0 <=? exp d then group3 (digitsOf (m * 10 ^ exp d))
    else
      let k := Z.to_nat (- exp d) in
      let ds := padZeros (S k) (digitsOf m) in
      let n := (List.length ds - k)%nat in
      group3 (firstn n ds) ++ ","%char :: skipn n ds in
  string_of_list_ascii (sign ++ body).

(** Modelled from the spec: a party as the response carries it. *)
Definition renderParty (p : model.Party.t) : llm.LLMParty.t :=
  llm.LLMParty.mk (model.Party.Name p) (model.Party.TaxID p) (model.Party.Address p)
    (model.Party.Phone p) (model.Party.Email p)
    (model.Party.BankAccount p) (model.Party.BankName p).

(** Modelled from the spec: a line item as the response carries it. *)
Definition renderItem (li : model.LineItem.t) : llm.LLMLineItem.t :=
  llm.LLMLineItem.mk
    (model.LineItem.Number li) (model.LineItem.Code li) (model.LineItem.Name li)
    (model.LineItem.Description li) (model.LineItem.Unit li)
    (formatVN (model.LineItem.Quantity li))
    (formatVN (model.LineItem.UnitPrice li))
    (formatVN (model.LineItem.Discount li))
    (formatVN (model.LineItem.DiscountAmt li))
    (formatVN (model.LineItem.Amount li))
    (formatVN (NewFromInt (model.LineItem.VATRate li)))
    (formatVN (model.LineItem.VATAmount li))
    (formatVN (model.LineItem.Total li)).

(** Modelled from the spec: the fields of the JSON the renderer writes for
    an invoice, every number as its literal in Vietnamese formatting;
    [formatDate] writes its date.  What the decoder makes of that JSON is
    [json.Unmarshal] on [RenderJSON.renderJSON], below. *)
Definition renderResponse (formatDate : time.Time -> string) (inv : model.Invoice.t)
    : llm.LLMResponse.t :=
  llm.LLMResponse.mk
    (model.Invoice.Number inv)
    (model.Invoice.Series inv)
    (formatDate (model.Invoice.Date inv))
    (model.Invoice.Type_ inv)
    (renderParty (model.Invoice.Seller inv))
    (renderParty (model.Invoice.Buyer inv))
    (map renderItem (model.Invoice.Items inv))
    (formatVN (model.Invoice.SubtotalAmount inv))
    "" (* total_discount: the invoice has no such field *)
    (formatVN (model.Invoice.TaxAmount inv))
    (formatVN (model.Invoice.TotalAmount inv))
    (model.Invoice.Currency inv)
    (model.Invoice.PaymentMethod inv)
    (model.Invoice.Remarks inv)
    (model.Invoice.DocumentType inv)
    (model.Invoice.ReceiptNumber inv)
    (model.Invoice.Cashier inv)
    (model.Invoice.TerminalID inv)
    (model.Invoice.ReceiptTime inv)
    (formatVN (model.Invoice.AmountTendered inv))
    (formatVN (model.Invoice.Change inv)).

End Render.

Module RenderFacts.
Import Render.

Abbreviation ofList := string_of_list_ascii.

(** Characters *)
Definition isPlain (c : ascii) : bool := strconv.isDigit c || Ascii.eqb c "-".

Ltac by_cases_on_ascii c :=
  destruct c as [[] [] [] [] [] [] [] []]; try discriminate; try reflexivity.

Lemma isDigit_plain c : strconv.isDigit c = true -> isPlain c = true.
Proof. unfold isPlain. now intros ->. Qed.

Lemma plain_not_dot c : isPlain c = true -> Ascii.eqb c "." = false.
Proof. by_cases_on_ascii c. Qed.

Lemma plain_not_comma c : isPlain c = true -> Ascii.eqb c "," = false.
Proof. by_cases_on_ascii c. Qed.

Lemma plain_not_E c : isPlain c = true -> strings.inChars c "Ee" = false.
Proof. by_cases_on_ascii c. Qed.

Lemma digit_value c :
  strconv.isDigit c = true -> 0 <= byteVal c - byteVal "0" <= 9.
Proof. by_cases_on_ascii c; intros _; vm_compute; split; discriminate. Qed.

Lemma digitChar_isDigit d : 0 <= d <= 9 -> strconv.isDigit (digitChar d) = true.
Proof.
  intros H. assert (d = 0 \/ d = 1 \/ d = 2 \/ d = 3 \/ d = 4 \/ d = 5 \/ d = 6 \/
                    d = 7 \/ d = 8 \/ d = 9) as Hd by lia.
  repeat (destruct Hd as [->|Hd]; [reflexivity|]). subst. reflexivity.
Qed.

Lemma digitChar_value d : 0 <= d <= 9 -> byteVal (digitChar d) - byteVal "0" = d.
Proof.
  intros H. assert (d = 0 \/ d = 1 \/ d = 2 \/ d = 3 \/ d = 4 \/ d = 5 \/ d = 6 \/
                    d = 7 \/ d = 8 \/ d = 9) as Hd by lia.
  repeat (destruct Hd as [->|Hd]; [reflexivity|]). subst. reflexivity.
Qed.

(** The value of a run of digits read after [a]. *)
Definition valueOf (l : list ascii) (a : Z) : Z :=
  fold_left (fun a c => 10 * a + (byteVal c - byteVal "0")) l a.

Lemma valueOf_cons c l a :
  valueOf (c :: l) a = valueOf l (10 * a + (byteVal c - byteVal "0")).
Proof. reflexivity. Qed.

Lemma digitsFrom_ofList (l : list ascii) (a : Z) :
  forallb strconv.isDigit l = true ->
  strconv.digitsFrom (ofList l) a = Some (valueOf l a).
Proof.
  revert a. induction l as [|c l IH]; intros a H; simpl in *; [reflexivity|].
  apply andb_true_iff in H. destruct H as (Hc & Hl). rewrite Hc. now apply IH.
Qed.

Lemma valueOf_app l1 l2 a : valueOf (l1 ++ l2) a = valueOf l2 (valueOf l1 a).
Proof. apply fold_left_app. Qed.

Lemma valueOf_zeros n : valueOf (repeat "0"%char n) 0 = 0.
Proof. induction n; simpl; auto. Qed.

Lemma valueOf_bounds l a :
  forallb strconv.isDigit l = true -> 0 <= a ->
  0 <= valueOf l a < (a + 1) * 10 ^ Z.of_nat (List.length l).
Proof.
  revert a. induction l as [|c l IH]; intros a H Ha.
  - simpl. lia.
  - simpl in H. apply andb_true_iff in H. destruct H as (Hc & Hl).
    pose proof (digit_value c Hc) as Hd.
    change (valueOf (c :: l) a) with (valueOf l (10 * a + (byteVal c - byteVal "0"))).
    specialize (IH (10 * a + (byteVal c - byteVal "0")) Hl ltac:(lia)).
    change (List.length (c :: l)) with (S (List.length l)).
    rewrite Nat2Z.inj_succ, Z.pow_succ_r by lia.
    assert (0 < 10 ^ Z.of_nat (List.length l)) by (apply Z.pow_pos_nonneg; lia).
    nia.
Qed.

(** Digits *)
Lemma digitsAcc_digits fuel : forall n acc,
  0 <= n -> forallb strconv.isDigit acc = true ->
  forallb strconv.isDigit (digitsAcc fuel n acc) = true.
Proof.
  induction fuel as [|fuel IH]; intros n acc Hn Hacc; simpl; [exact Hacc|].
  assert (strconv.isDigit (digitChar (n mod 10)) = true) as Hd.
  { apply digitChar_isDigit. pose proof (Z.mod_pos_bound n 10). lia. }
  destruct (n <? 10).
  - simpl. now rewrite Hd.
  - apply IH; [apply Z.div_pos; lia|]. simpl. now rewrite Hd.
Qed.

Lemma digitsAcc_value fuel : forall n acc,
  0 <= n < 2 ^ Z.of_nat fuel ->
  valueOf (digitsAcc fuel n acc) 0 = valueOf acc n.
Proof.
  induction fuel as [|fuel IH]; intros n acc Hn.
  - simpl in Hn. assert (n = 0) as -> by lia. reflexivity.
  - simpl digitsAcc. rewrite Nat2Z.inj_succ, Z.pow_succ_r in Hn by lia.
    pose proof (Z.mod_pos_bound n 10 ltac:(lia)) as Hm.
    destruct (Z.ltb_spec n 10).
    + rewrite !valueOf_cons, digitChar_value by lia.
      rewrite Z.mod_small by lia. reflexivity.
    + rewrite IH.
      * rewrite valueOf_cons, digitChar_value by lia.
        f_equal. pose proof (Z.div_mod n 10 ltac:(lia)). lia.
      * split; [apply Z.div_pos; lia|].
        apply Z.div_lt_upper_bound; lia.
Qed.

Lemma digitsAcc_nonempty fuel n acc : digitsAcc (S fuel) n acc <> [].
Proof.
  revert n acc. induction fuel as [|fuel IH]; intros n acc; simpl.
  - destruct (n <? 10); discriminate.
  - destruct (n <? 10); [discriminate|]. apply IH.
Qed.

Lemma digitsOf_digits n : 0 <= n -> forallb strconv.isDigit (digitsOf n) = true.
Proof. intros H. now apply digitsAcc_digits. Qed.

Lemma digitsOf_value n : 0 <= n -> valueOf (digitsOf n) 0 = n.
Proof.
  intros H. unfold digitsOf. rewrite digitsAcc_value; [reflexivity|].
  split; [exact H|].
  rewrite Nat2Z.inj_succ, Z2Nat.id by apply Z.log2_nonneg.
  destruct (Z.eq_dec n 0) as [->|Hne]; [reflexivity|].
  apply Z.log2_spec. lia.
Qed.

Lemma digitsOf_nonempty n : digitsOf n <> [].
Proof. apply digitsAcc_nonempty. Qed.


(** Strings built from lists of characters *)

Lemma ofList_app l1 l2 : ofList (l1 ++ l2) = (ofList l1 ++ ofList l2)%string.
Proof. induction l1 as [|c l1 IH]; simpl; [reflexivity|]. now rewrite IH. Qed.

Lemma len_ofList l : len (ofList l) = Z.of_nat (List.length l).
Proof.
  unfold len. f_equal. induction l as [|c l IH]; simpl; [reflexivity|]. now rewrite IH.
Qed.

Lemma substring_all s : String.substring 0 (String.length s) s = s.
Proof. induction s as [|c s IH]; simpl; [reflexivity|]. now rewrite IH. Qed.

Lemma substring_prefix l1 l2 :
  String.substring 0 (List.length l1) (ofList (l1 ++ l2)) = ofList l1.
Proof.
  induction l1 as [|c l1 IH]; simpl.
  - destruct (ofList l2); reflexivity.
  - now rewrite IH.
Qed.

Lemma substring_suffix l1 l2 :
  String.substring (List.length l1) (List.length l2) (ofList (l1 ++ l2)) = ofList l2.
Proof.
  induction l1 as [|c l1 IH]; simpl.
  - rewrite <- (substring_all (ofList l2)) at 2. f_equal.
    pose proof (len_ofList l2) as H. unfold len in H. lia.
  - exact IH.
Qed.

Lemma sliceTo_app l1 l2 :
  sliceTo (ofList (l1 ++ l2)) (Z.of_nat (List.length l1)) = ofList l1.
Proof.
  unfold sliceTo, slice. rewrite Z.sub_0_r, Nat2Z.id. simpl Z.to_nat.
  apply substring_prefix.
Qed.

Lemma sliceFrom_app l1 l2 :
  sliceFrom (ofList (l1 ++ l2)) (Z.of_nat (List.length l1)) = ofList l2.
Proof.
  unfold sliceFrom, slice. rewrite len_ofList, length_app, Nat2Z.id.
  replace (Z.to_nat (Z.of_nat (List.length l1 + List.length l2) - Z.of_nat (List.length l1)))
    with (List.length l2) by lia.
  apply substring_suffix.
Qed.

(** ReplaceAll with a pattern of one byte *)

Lemma prefix_one c d s :
  String.prefix (String c EmptyString) (String d s) = Ascii.eqb d c.
Proof.
  simpl. destruct (ascii_dec c d) as [->|Hne].
  - rewrite Ascii.eqb_refl. now destruct s.
  - symmetry. apply Ascii.eqb_neq. congruence.
Qed.

Lemma ReplaceAll_delete c l :
  strings.ReplaceAll (ofList l) (String c EmptyString) "" =
  ofList (filter (fun d => negb (Ascii.eqb d c)) l).
Proof.
  unfold strings.ReplaceAll. induction l as [|d l IH]; [reflexivity|].
  cbn [string_of_list_ascii strings.replaceFrom]. rewrite prefix_one.
  cbn [filter]. destruct (Ascii.eqb d c); simpl; rewrite IH; reflexivity.
Qed.

Lemma ReplaceAll_one c e l :
  strings.ReplaceAll (ofList l) (String c EmptyString) (String e EmptyString) =
  ofList (map (fun d => if Ascii.eqb d c then e else d) l).
Proof.
  unfold strings.ReplaceAll. induction l as [|d l IH]; [reflexivity|].
  cbn [string_of_list_ascii strings.replaceFrom]. rewrite prefix_one.
  cbn [map]. destruct (Ascii.eqb d c); simpl; rewrite IH; reflexivity.
Qed.

Lemma filter_plain l :
  forallb isPlain l = true -> filter (fun d => negb (Ascii.eqb d ".")) l = l.
Proof.
  induction l as [|c l IH]; simpl; [reflexivity|]. intros H.
  apply andb_true_iff in H. destruct H as (Hc & Hl).
  rewrite (plain_not_dot c Hc). simpl. now rewrite IH.
Qed.

Lemma map_plain l :
  forallb isPlain l = true ->
  map (fun d => if Ascii.eqb d "," then "."%char else d) l = l.
Proof.
  induction l as [|c l IH]; simpl; [reflexivity|]. intros H.
  apply andb_true_iff in H. destruct H as (Hc & Hl).
  rewrite (plain_not_comma c Hc). now rewrite IH.
Qed.

Lemma forallb_digits_plain l :
  forallb strconv.isDigit l = true -> forallb isPlain l = true.
Proof.
  induction l as [|c l IH]; simpl; [reflexivity|]. intros H.
  apply andb_true_iff in H. destruct H as (Hc & Hl).
  now rewrite (isDigit_plain c Hc), IH.
Qed.

(** Grouping by three *)

Lemma filter_groupRev l : forall count,
  forallb isPlain l = true ->
  filter (fun d => negb (Ascii.eqb d ".")) (groupRev l count) = l.
Proof.
  induction l as [|c l IH]; intros count H; [reflexivity|].
  simpl in H. apply andb_true_iff in H. destruct H as (Hc & Hl).
  pose proof (plain_not_dot c Hc) as Hd.
  cbn [groupRev].
  destruct l as [|c' l'].
  - simpl. now rewrite Hd.
  - destruct count as [|[|[|count]]]; cbn [filter]; rewrite Hd; cbn [negb];
      rewrite IH by exact Hl; reflexivity.
Qed.

Lemma filter_group3 l :
  forallb isPlain l = true ->
  filter (fun d => negb (Ascii.eqb d ".")) (group3 l) = l.
Proof.
  intros H. unfold group3. rewrite filter_rev, filter_groupRev.
  - apply rev_involutive.
  - rewrite forallb_forall in *. intros x Hx. apply H. now apply in_rev.
Qed.


(** NewFromString on such strings *)

Lemma indexAnyFrom_none l : forall i,
  forallb (fun c => negb (strings.inChars c "Ee")) l = true ->
  strings.indexAnyFrom (ofList l) "Ee" i = -1.
Proof.
  induction l as [|c l IH]; intros i H; [reflexivity|].
  cbn [forallb] in H. apply andb_true_iff in H. destruct H as (Hc & Hl).
  cbn [string_of_list_ascii strings.indexAnyFrom].
  apply negb_true_iff in Hc. rewrite Hc. now apply IH.
Qed.

Lemma pointIndexFrom_plain l : forall i p,
  forallb isPlain l = true ->
  pointIndexFrom (ofList l) i p = Some p.
Proof.
  induction l as [|c l IH]; intros i p H; [reflexivity|].
  simpl in H. apply andb_true_iff in H. destruct H as (Hc & Hl).
  cbn [string_of_list_ascii pointIndexFrom].
  rewrite (plain_not_dot c Hc). now apply IH.
Qed.

Lemma pointIndexFrom_one a b : forall i,
  forallb isPlain a = true -> forallb isPlain b = true ->
  pointIndexFrom (ofList (a ++ "."%char :: b)) i (-1) =
  Some (i + Z.of_nat (List.length a)).
Proof.
  induction a as [|c a IH]; intros i Ha Hb.
  - cbn [app string_of_list_ascii pointIndexFrom].
    change (Ascii.eqb "." ".") with true. cbn iota.
    change (-1 <? -1) with false. cbn iota.
    rewrite pointIndexFrom_plain by exact Hb. simpl. f_equal. lia.
  - simpl in Ha. apply andb_true_iff in Ha. destruct Ha as (Hc & Ha).
    cbn [app string_of_list_ascii pointIndexFrom].
    rewrite (plain_not_dot c Hc), IH by assumption.
    f_equal. change (List.length (c :: a)) with (S (List.length a)). lia.
Qed.

Lemma signedDigits_digit c s :
  strconv.isDigit c = true ->
  strconv.signedDigits (String c s) = strconv.digitsFrom (String c s) 0.
Proof. by_cases_on_ascii c. Qed.

(** The sign the renderer writes, and the number it stands for. *)
Definition signChars (negative : bool) : list ascii :=
  if negative then ["-"%char] else [].

Definition signed (negative : bool) (m : Z) : Z := if negative then - m else m.

Lemma signedDigits_signed negative ds :
  ds <> [] -> forallb strconv.isDigit ds = true ->
  strconv.signedDigits (ofList (signChars negative ++ ds)) =
  Some (signed negative (valueOf ds 0)).
Proof.
  intros Hne Hds. destruct negative; simpl.
  - unfold strconv.digits. destruct ds as [|c ds]; [contradiction|].
    cbn [string_of_list_ascii]. change (ofList (c :: ds)) with (String c (ofList ds)).
    fold (ofList (c :: ds)).
    rewrite (digitsFrom_ofList (c :: ds)) by exact Hds. reflexivity.
  - destruct ds as [|c ds]; [contradiction|].
    cbn [string_of_list_ascii].
    assert (strconv.isDigit c = true) as Hc
      by (simpl in Hds; apply andb_true_iff in Hds; tauto).
    rewrite (signedDigits_digit c _ Hc).
    apply (digitsFrom_ofList (c :: ds)). exact Hds.
Qed.

Lemma pow10_18 : 10 ^ 18 < 2 ^ 63.
Proof. reflexivity. Qed.

Lemma parse_intString negative ds :
  ds <> [] -> forallb strconv.isDigit ds = true ->
  (if len (ofList (signChars negative ++ ds)) <=? 18
   then strconv.ParseInt (ofList (signChars negative ++ ds)) 64
   else strconv.signedDigits (ofList (signChars negative ++ ds))) =
  Some (signed negative (valueOf ds 0)).
Proof.
  intros Hne Hds.
  destruct (Z.leb_spec (len (ofList (signChars negative ++ ds))) 18) as [Hlen|Hlen];
    [|now apply signedDigits_signed].
  unfold strconv.ParseInt. rewrite signedDigits_signed by assumption. cbn [bind].
  rewrite len_ofList, length_app in Hlen.
  pose proof (valueOf_bounds ds 0 Hds ltac:(lia)) as Hb.
  assert (10 ^ Z.of_nat (List.length ds) <= 10 ^ 18)
    by (apply Z.pow_le_mono_r; lia).
  pose proof pow10_18 as H18.
  change (64 - 1) with 63.
  destruct (_ && _) eqn:E; [reflexivity|]. exfalso.
  apply andb_false_iff in E. rewrite Z.leb_gt, Z.ltb_ge in E.
  unfold signed in E. destruct negative; lia.
Qed.

Lemma ofList_nonempty l : l <> [] -> String.eqb (ofList l) "" = false.
Proof. destruct l; [contradiction|reflexivity]. Qed.

Lemma forallb_signChars negative : forallb isPlain (signChars negative) = true.
Proof. now destruct negative. Qed.

Abbreviation noE := (forallb (fun c => negb (strings.inChars c "Ee"))).

Lemma plain_noE l : forallb isPlain l = true -> noE l = true.
Proof.
  induction l as [|c l IH]; [reflexivity|]. cbn [forallb]. intros H.
  apply andb_true_iff in H. destruct H as (Hc & Hl).
  now rewrite (plain_not_E c Hc), IH.
Qed.

(** A sign and digits: an integer. *)
Lemma NewFromString_integer negative ds :
  ds <> [] -> forallb strconv.isDigit ds = true ->
  NewFromString (ofList (signChars negative ++ ds)) =
  Some (New (signed negative (valueOf ds 0)) 0).
Proof.
  intros Hne Hds.
  assert (forallb isPlain (signChars negative ++ ds) = true) as Hplain.
  { rewrite forallb_app, forallb_signChars. now apply forallb_digits_plain. }
  unfold NewFromString, strings.IndexAny, pointIndex.
  rewrite indexAnyFrom_none by now apply plain_noE.
  change (negb (-1 =? -1)) with false. cbn iota. cbn [bind].
  rewrite pointIndexFrom_plain by exact Hplain. cbn [bind].
  change (-1 =? -1) with true. cbn iota.
  rewrite parse_intString by assumption. reflexivity.
Qed.

(** A sign, digits, a point and [List.length frac] more digits. *)
Lemma NewFromString_fraction negative int frac :
  forallb strconv.isDigit int = true -> forallb strconv.isDigit frac = true ->
  int <> [] -> frac <> [] ->
  MinInt32 <= - Z.of_nat (List.length frac) ->
  NewFromString (ofList (signChars negative ++ int ++ "."%char :: frac)) =
  Some (New (signed negative (valueOf (int ++ frac) 0)) (- Z.of_nat (List.length frac))).
Proof.
  intros Hint Hfrac Hne Hnef Hmin.
  assert (forallb isPlain (signChars negative ++ int) = true) as Hplain.
  { rewrite forallb_app, forallb_signChars. now apply forallb_digits_plain. }
  pose proof (forallb_digits_plain frac Hfrac) as Hplainf.
  unfold NewFromString, strings.IndexAny, pointIndex.
  rewrite indexAnyFrom_none.
  2:{ rewrite app_assoc, forallb_app. rewrite (plain_noE _ Hplain).
      cbn [forallb]. now rewrite (plain_noE _ Hplainf). }
  change (negb (-1 =? -1)) with false. cbn iota. cbn [bind].
  rewrite app_assoc, pointIndexFrom_one by assumption. cbn [bind].
  rewrite Z.add_0_l.
  set (pre := signChars negative ++ int).
  assert ((Z.of_nat (List.length pre) =? -1) = false) as -> by (apply Z.eqb_neq; lia).
  assert ((Z.of_nat (List.length pre) + 1 <? len (ofList (pre ++ "."%char :: frac))) = true)
    as ->.
  { apply Z.ltb_lt. rewrite len_ofList, length_app. simpl List.length.
    destruct frac; [contradiction|]. simpl List.length. lia. }
  rewrite sliceTo_app.
  replace (pre ++ "."%char :: frac) with ((pre ++ ["."%char]) ++ frac)
    by (rewrite <- app_assoc; reflexivity).
  replace (Z.of_nat (List.length pre) + 1) with (Z.of_nat (List.length (pre ++ ["."%char])))
    by (rewrite length_app; simpl; lia).
  rewrite sliceFrom_app, <- ofList_app.
  unfold pre. rewrite <- app_assoc.
  rewrite parse_intString.
  - cbn [bind]. rewrite len_ofList, Z.add_0_l.
    assert ((- Z.of_nat (List.length frac) <? MinInt32) ||
            (MaxInt32 <? - Z.of_nat (List.length frac)) = false) as ->; [|reflexivity].
    apply orb_false_iff. rewrite Z.ltb_ge, Z.ltb_ge. unfold MaxInt32. lia.
  - destruct int; [contradiction|discriminate].
  - now rewrite forallb_app, Hint.
Qed.


Lemma group3_nonempty l : l <> [] -> group3 l <> [].
Proof.
  intros Hne. unfold group3. destruct (rev l) as [|x r] eqn:E.
  - apply (f_equal (@rev ascii)) in E. rewrite rev_involutive in E. contradiction.
  - intros H. apply (f_equal (@rev ascii)) in H. rewrite rev_involutive in H.
    simpl in H. destruct r; discriminate.
Qed.

Lemma padZeros_length w l : (w <= List.length (padZeros w l))%nat.
Proof. unfold padZeros. rewrite length_app, repeat_length. lia. Qed.

Lemma padZeros_digits w l :
  forallb strconv.isDigit l = true -> forallb strconv.isDigit (padZeros w l) = true.
Proof.
  intros H. unfold padZeros. rewrite forallb_app, H, andb_true_r.
  induction (w - List.length l)%nat; simpl; auto.
Qed.

Lemma padZeros_value w l : valueOf (padZeros w l) 0 = valueOf l 0.
Proof. unfold padZeros. now rewrite valueOf_app, valueOf_zeros. Qed.

Lemma forallb_firstn_skipn {A} (f : A -> bool) n l :
  forallb f l = true ->
  forallb f (firstn n l) = true /\ forallb f (skipn n l) = true.
Proof.
  intros H. rewrite <- (firstn_skipn n l), forallb_app in H.
  now apply andb_true_iff in H.
Qed.

Lemma signed_abs v : signed (v <? 0) (Z.abs v) = v.
Proof. unfold signed. destruct (Z.ltb_spec v 0); lia. Qed.

(** What the normalizer reads back from a rendered number: the number
    itself when its exponent is negative, and otherwise the same number
    written out at exponent 0. *)
Lemma parseDecimal_formatVN (d : Decimal) :
  MinInt32 <= exp d ->
  llm.parseDecimal (formatVN d) =
  if exp d <? 0 then d else New (value d * 10 ^ exp d) 0.
Proof.
  intros Hmin. unfold llm.parseDecimal, formatVN.
  change (if value d <? 0 then ["-"%char] else []) with (signChars (value d <? 0)).
  set (negative := value d <? 0).
  pose proof (forallb_signChars negative) as Hsign.
  destruct (Z.leb_spec 0 (exp d)) as [He|He].
  - (* an integer *)
    assert ((exp d <? 0) = false) as -> by (apply Z.ltb_ge; lia).
    set (D := digitsOf (Z.abs (value d) * 10 ^ exp d)).
    assert (0 <= Z.abs (value d) * 10 ^ exp d) as Hnn
      by (apply Z.mul_nonneg_nonneg; [lia|apply Z.pow_nonneg; lia]).
    pose proof (digitsOf_digits _ Hnn) as HD. fold D in HD.
    pose proof (forallb_digits_plain D HD) as HDp.
    rewrite ofList_nonempty.
    2:{ intros H. apply app_eq_nil in H. destruct H as (_ & H).
        revert H. apply group3_nonempty, digitsOf_nonempty. }
    rewrite ReplaceAll_delete, filter_app, (filter_plain _ Hsign), (filter_group3 _ HDp).
    rewrite ReplaceAll_one, map_plain by (now rewrite forallb_app, Hsign).
    rewrite NewFromString_integer by (auto; apply digitsOf_nonempty).
    unfold D. rewrite digitsOf_value by exact Hnn.
    f_equal. f_equal. unfold negative, signed.
    destruct (Z.ltb_spec (value d) 0); lia.
  - (* a fraction *)
    assert ((exp d <? 0) = true) as -> by (apply Z.ltb_lt; lia).
    set (k := Z.to_nat (- exp d)).
    set (ds := padZeros (S k) (digitsOf (Z.abs (value d)))).
    set (n := (List.length ds - k)%nat).
    assert (forallb strconv.isDigit ds = true) as Hds
      by (apply padZeros_digits, digitsOf_digits; lia).
    pose proof (padZeros_length (S k) (digitsOf (Z.abs (value d)))) as Hlen. fold ds in Hlen.
    destruct (forallb_firstn_skipn _ n _ Hds) as (HI & HF).
    pose proof (forallb_digits_plain _ HI) as HIp.
    pose proof (forallb_digits_plain _ HF) as HFp.
    assert (List.length (skipn n ds) = k) as HlenF by (rewrite length_skipn; unfold n; lia).
    assert (List.length (firstn n ds) = n) as HlenI by (rewrite length_firstn; unfold n; lia).
    rewrite ofList_nonempty by (destruct (signChars negative); destruct (group3 (firstn n ds)); discriminate).
    rewrite ReplaceAll_delete, !filter_app, (filter_plain _ Hsign), (filter_group3 _ HIp).
    cbn [filter]. change (negb (Ascii.eqb "," ".")) with true. cbn iota.
    rewrite (filter_plain _ HFp).
    rewrite ReplaceAll_one, !map_app, (map_plain _ Hsign), (map_plain _ HIp).
    cbn [map]. change (Ascii.eqb "," ",") with true. cbn iota.
    rewrite (map_plain _ HFp).
    rewrite NewFromString_fraction; auto.
    + rewrite firstn_skipn, HlenF. unfold ds. rewrite padZeros_value.
      rewrite digitsOf_value by lia. unfold negative. rewrite signed_abs.
      unfold k. rewrite Z2Nat.id by lia. rewrite Z.opp_involutive.
      now destruct d.
    + intros H. rewrite H in HlenI. simpl in HlenI. unfold n in HlenI. lia.
    + intros H. rewrite H in HlenF. simpl in HlenF. unfold k in HlenF. lia.
    + rewrite HlenF. unfold k. rewrite Z2Nat.id by lia. lia.
Qed.

Lemma Equal_rendered (d : Decimal) :
  Equal (if exp d <? 0 then d else New (value d * 10 ^ exp d) 0) d = true.
Proof.
  unfold Equal, Cmp. destruct (Z.ltb_spec (exp d) 0) as [He|He].
  - rewrite Z.eqb_refl, Z.compare_refl. reflexivity.
  - simpl exp. destruct (Z.eqb_spec 0 (exp d)) as [E|E].
    + simpl. rewrite <- E. rewrite Z.mul_1_r. now rewrite Z.compare_refl.
    + unfold RescalePair. simpl exp.
      assert ((0 <? exp d) = true) as -> by (apply Z.ltb_lt; lia).
      unfold rescale. assert ((exp d =? 0) = false) as -> by (apply Z.eqb_neq; lia).
      assert ((exp d <? 0) = false) as -> by (apply Z.ltb_ge; lia).
      simpl value. rewrite Z.abs_opp, Z.abs_eq by lia.
      now rewrite Z.compare_refl.
Qed.

End RenderFacts.

(** ** The response normalizer *)

Module NormalizerClaims.
Import Render RenderFacts.

(** *** Derived fields *)

(** A line item's derived fields follow the calculator's formulas from its
    quantity, unit price, discount percent and VAT rate.  For a zero discount
    percent nothing is asked of the discount amount. *)
Definition consistent (li : model.LineItem.t) : Prop :=
  exists vatProduct vatQuotient,
    Mul (model.LineItem.Quantity li) (model.LineItem.UnitPrice li) =
      Some (model.LineItem.Amount li) /\
    (IsZero (model.LineItem.Discount li) = false ->
     exists p q,
       Mul (model.LineItem.Amount li) (model.LineItem.Discount li) = Some p /\
       Div p (NewFromInt 100) = Some q /\
       model.LineItem.DiscountAmt li = Round q 0) /\
    Mul (Sub (model.LineItem.Amount li) (model.LineItem.DiscountAmt li))
        (NewFromInt (model.LineItem.VATRate li)) = Some vatProduct /\
    Div vatProduct (NewFromInt 100) = Some vatQuotient /\
    model.LineItem.VATAmount li = Round vatQuotient 0 /\
    model.LineItem.Total li =
      Round (Add (Sub (model.LineItem.Amount li) (model.LineItem.DiscountAmt li))
                 (model.LineItem.VATAmount li)) 0.

(** The converted line item holds the response's amount, discount amount,
    VAT amount and total as parseDecimal reads them. *)
Definition copiesDerived (item : llm.LLMLineItem.t) (li : model.LineItem.t) : Prop :=
  model.LineItem.Amount li = llm.parseDecimal (llm.LLMLineItem.Amount item) /\
  model.LineItem.DiscountAmt li = llm.parseDecimal (llm.LLMLineItem.DiscountAmount item) /\
  model.LineItem.VATAmount li = llm.parseDecimal (llm.LLMLineItem.VATAmount item) /\
  model.LineItem.Total li = llm.parseDecimal (llm.LLMLineItem.Total item).

Lemma Calculate_consistent (li li' : model.LineItem.t) :
  model.LineItem.Calculate li = Some li' -> consistent li'.
Proof.
  intros H. destruct (CalculatorFacts.Calculate_fields li li' H)
    as (amount & discountAmt & vp & vq & Ha & Hd & Hp & Hq & ->).
  exists vp, vq. simpl. repeat split; auto.
  intros Hz. rewrite Hz in Hd. exact Hd.
Qed.

(** A response whose line item states amount 999 and total 1 for 2 x 100. *)
Definition handSetItem : llm.LLMLineItem.t :=
  llm.LLMLineItem.mk 1 "" "paper" "" "ream" "2" "100" "" "" "999" "10" "0" "1".

Definition handSetResponse : llm.LLMResponse.t :=
  llm.LLMResponse.mk "0000123" "AA/24E" "" "normal"
    (llm.LLMParty.mk "Seller Co" "0100109106" "Ha Noi" "" "" "" "")
    (llm.LLMParty.mk "Buyer Co" "0300588569" "Da Nang" "" "" "" "")
    [handSetItem] "999" "" "0" "1" "VND" "" "" "" "" "" "" "" "" "".

(** C3 as stated fails: the Normalizer returns the line item of that
    response with amount 999, although quantity x unit price is 200. *)
Lemma convertToInvoice_keeps_hand_set_fields :
  exists li,
    (forall std : GoStd,
       model.Invoice.Items (llm.convertToInvoice (std := std) handSetResponse) = [li]) /\
    Mul (model.LineItem.Quantity li) (model.LineItem.UnitPrice li) = Some (New 200 0) /\
    model.LineItem.Amount li = New 999 0 /\
    model.LineItem.Total li = New 1 0 /\
    ~ consistent li.
Proof.
  eexists. split; [intros std; reflexivity|].
  split; [reflexivity|]. split; [reflexivity|]. split; [reflexivity|].
  intros (vp & vq & H & _). discriminate H.
Qed.

Section DerivedFields.
Context {std : GoStd}.

(** C3, amended: a line item the Calculator has recalculated has derived
    fields that follow the formulas; the Response Normalizer does not run
    the Calculator, it sets the amount, discount amount, VAT amount and total
    of every line item to what parseDecimal reads from the response. *)
Theorem derived_fields_from_Calculate_or_response :
  (forall li li', model.LineItem.Calculate li = Some li' -> consistent li') /\
  (forall resp,
     Forall2 copiesDerived (llm.LLMResponse.Items resp)
       (model.Invoice.Items (llm.convertToInvoice resp))).
Proof.
  split; [exact Calculate_consistent|].
  intros resp. unfold llm.convertToInvoice. cbn [model.Invoice.Items].
  induction (llm.LLMResponse.Items resp) as [|item items IH]; simpl; constructor; auto.
  repeat split.
Qed.

End DerivedFields.

(** *** The round trip *)

(** Two decimals that are the same number ([Decimal.Equal]). *)
Definition sameNumber (a b : Decimal) : Prop := Equal a b = true.

Definition sameItem (a b : model.LineItem.t) : Prop :=
  model.LineItem.Number a = model.LineItem.Number b /\
  model.LineItem.Code a = model.LineItem.Code b /\
  model.LineItem.Name a = model.LineItem.Name b /\
  model.LineItem.Description a = model.LineItem.Description b /\
  model.LineItem.Unit a = model.LineItem.Unit b /\
  sameNumber (model.LineItem.Quantity a) (model.LineItem.Quantity b) /\
  sameNumber (model.LineItem.UnitPrice a) (model.LineItem.UnitPrice b) /\
  sameNumber (model.LineItem.Discount a) (model.LineItem.Discount b) /\
  model.LineItem.VATRate a = model.LineItem.VATRate b /\
  sameNumber (model.LineItem.Amount a) (model.LineItem.Amount b) /\
  sameNumber (model.LineItem.DiscountAmt a) (model.LineItem.DiscountAmt b) /\
  sameNumber (model.LineItem.VATAmount a) (model.LineItem.VATAmount b) /\
  sameNumber (model.LineItem.Total a) (model.LineItem.Total b).

(** A party's name, tax id, address, phone and email. *)
Definition sameContact (a b : model.Party.t) : Prop :=
  model.Party.Name a = model.Party.Name b /\
  model.Party.TaxID a = model.Party.TaxID b /\
  model.Party.Address a = model.Party.Address b /\
  model.Party.Phone a = model.Party.Phone b /\
  model.Party.Email a = model.Party.Email b.

(** The same invoice in every field but the buyer's bank account and bank
    name, about which nothing is said. *)
Definition sameInvoice (a b : model.Invoice.t) : Prop :=
  model.Invoice.ID a = model.Invoice.ID b /\
  model.Invoice.Number a = model.Invoice.Number b /\
  model.Invoice.Series a = model.Invoice.Series b /\
  model.Invoice.Date a = model.Invoice.Date b /\
  model.Invoice.Type_ a = model.Invoice.Type_ b /\
  model.Invoice.Provider a = model.Invoice.Provider b /\
  model.Invoice.Seller a = model.Invoice.Seller b /\
  sameContact (model.Invoice.Buyer a) (model.Invoice.Buyer b) /\
  Forall2 sameItem (model.Invoice.Items a) (model.Invoice.Items b) /\
  sameNumber (model.Invoice.SubtotalAmount a) (model.Invoice.SubtotalAmount b) /\
  sameNumber (model.Invoice.TaxAmount a) (model.Invoice.TaxAmount b) /\
  sameNumber (model.Invoice.TotalAmount a) (model.Invoice.TotalAmount b) /\
  model.Invoice.Currency a = model.Invoice.Currency b /\
  sameNumber (model.Invoice.ExchangeRate a) (model.Invoice.ExchangeRate b) /\
  model.Invoice.Remarks a = model.Invoice.Remarks b /\
  model.Invoice.PaymentTerms a = model.Invoice.PaymentTerms b /\
  model.Invoice.DocumentType a = model.Invoice.DocumentType b /\
  model.Invoice.Cashier a = model.Invoice.Cashier b /\
  model.Invoice.TerminalID a = model.Invoice.TerminalID b /\
  model.Invoice.PaymentMethod a = model.Invoice.PaymentMethod b /\
  model.Invoice.ReceiptNumber a = model.Invoice.ReceiptNumber b /\
  model.Invoice.ReceiptTime a = model.Invoice.ReceiptTime b /\
  sameNumber (model.Invoice.AmountTendered a) (model.Invoice.AmountTendered b) /\
  sameNumber (model.Invoice.Change a) (model.Invoice.Change b) /\
  model.Invoice.Signature a = model.Invoice.Signature b /\
  model.Invoice.RawXML a = model.Invoice.RawXML b /\
  model.Invoice.SourceFile a = model.Invoice.SourceFile b.

(** The values Go's types admit: an exponent is an int32, a VAT rate an
    int. *)
Definition wellTyped (d : Decimal) : Prop := MinInt32 <= exp d <= MaxInt32.

Definition wellTypedItem (li : model.LineItem.t) : Prop :=
  wellTyped (model.LineItem.Quantity li) /\
  wellTyped (model.LineItem.UnitPrice li) /\
  wellTyped (model.LineItem.Discount li) /\
  - 2 ^ 63 <= model.LineItem.VATRate li < 2 ^ 63 /\
  wellTyped (model.LineItem.Amount li) /\
  wellTyped (model.LineItem.DiscountAmt li) /\
  wellTyped (model.LineItem.VATAmount li) /\
  wellTyped (model.LineItem.Total li).

Section RoundTrip.
Context {std : GoStd}.
Variable formatDate : time.Time -> string.

(** The invoices the Normalizer can return: what it never sets is unset,
    what it defaults is not empty, what it reads through a table of names
    is one of the names, and the date is one the date formats read back. *)
Definition inNormalizerRange (inv : model.Invoice.t) : Prop :=
  model.Invoice.ID inv = "" /\
  model.Invoice.Provider inv = model.ProviderUnknown /\
  sameNumber (New 0 0) (model.Invoice.ExchangeRate inv) /\
  model.Invoice.PaymentTerms inv = "" /\
  model.Invoice.Signature inv = None /\
  model.Invoice.RawXML inv = [] /\
  model.Invoice.SourceFile inv = "" /\
  (model.Invoice.Number inv = "" -> model.Invoice.ReceiptNumber inv = "") /\
  model.Invoice.Currency inv <> "" /\
  (model.Invoice.Type_ inv = model.InvoiceTypeNormal \/
   model.Invoice.Type_ inv = model.InvoiceTypeReplacement \/
   model.Invoice.Type_ inv = model.InvoiceTypeAdjustment) /\
  (model.Invoice.DocumentType inv = model.DocumentTypeInvoice \/
   model.Invoice.DocumentType inv = model.DocumentTypeReceipt) /\
  ((formatDate (model.Invoice.Date inv) = "" /\ model.Invoice.Date inv = time.zeroTime) \/
   (formatDate (model.Invoice.Date inv) <> "" /\
    llm.parseDate (formatDate (model.Invoice.Date inv)) = Ok (model.Invoice.Date inv))) /\
  Forall wellTypedItem (model.Invoice.Items inv) /\
  wellTyped (model.Invoice.SubtotalAmount inv) /\
  wellTyped (model.Invoice.TaxAmount inv) /\
  wellTyped (model.Invoice.TotalAmount inv) /\
  wellTyped (model.Invoice.AmountTendered inv) /\
  wellTyped (model.Invoice.Change inv).

Lemma sameNumber_rendered (d : Decimal) :
  wellTyped d -> sameNumber (llm.parseDecimal (formatVN d)) d.
Proof.
  intros (H & _). unfold sameNumber. rewrite parseDecimal_formatVN by exact H.
  apply Equal_rendered.
Qed.

Lemma Int64_id (x : Z) : - 2 ^ 63 <= x < 2 ^ 63 -> Int64 x = x.
Proof.
  intros H. unfold Int64, wrap64.
  destruct (Z.eq_dec x (- 2 ^ 63)) as [->|Hne]; [reflexivity|].
  destruct (Z.ltb_spec x 0).
  - rewrite (Z.mod_small (Z.abs x)) by lia.
    rewrite (Z.mod_small (Z.abs x + 2 ^ 63)) by lia.
    rewrite Z.mod_small by lia. lia.
  - rewrite (Z.mod_small (Z.abs x)) by lia.
    rewrite Z.mod_small by lia. lia.
Qed.

Lemma VATRate_rendered (r : Z) :
  - 2 ^ 63 <= r < 2 ^ 63 ->
  (let rate := llm.parseDecimal (formatVN (NewFromInt r)) in
   if negb (IsZero rate) then IntPart rate else 0) = r.
Proof.
  intros H. cbv zeta. rewrite parseDecimal_formatVN by (unfold MinInt32; simpl; lia).
  simpl. rewrite Z.mul_1_r. unfold IsZero, Sign, IntPart. simpl.
  destruct (Z.eqb_spec (Z.sgn r) 0) as [E|E]; simpl.
  - destruct r; simpl in E; try discriminate; reflexivity.
  - unfold rescale. simpl. now apply Int64_id.
Qed.

Lemma convertLineItem_rendered (li : model.LineItem.t) :
  wellTypedItem li -> sameItem (llm.convertLineItem (renderItem li)) li.
Proof.
  intros (HQ & HU & HD & HR & HA & HDA & HV & HT).
  unfold sameItem, llm.convertLineItem, renderItem. cbn -[formatVN llm.parseDecimal IsZero IntPart].
  repeat split; try (now apply sameNumber_rendered).
  now apply VATRate_rendered.
Qed.


Lemma ToLower_names :
  strings.ToLower model.InvoiceTypeNormal = "normal" /\
  strings.ToLower model.InvoiceTypeReplacement = "replacement" /\
  strings.ToLower model.InvoiceTypeAdjustment = "adjustment" /\
  strings.ToLower model.DocumentTypeInvoice = "invoice" /\
  strings.ToLower model.DocumentTypeReceipt = "receipt".
Proof. repeat split. Qed.

(** The conversion alone, without the decoder before it: for every canonical
    invoice in the Normalizer's range, converting the fields the renderer
    writes, numbers in Vietnamese formatting, gives the same invoice: the same
    header, seller, line items, totals, currency and receipt fields, the
    numbers equal as numbers, and the same name, tax id, address, phone and
    email of the buyer. *)
Theorem convertToInvoice_renderResponse (inv : model.Invoice.t) :
  inNormalizerRange inv ->
  sameInvoice (llm.convertToInvoice (renderResponse formatDate inv)) inv.
Proof.
  intros (HID & HProv & HEx & HPT & HSig & HRaw & HSrc & HNum & HCur & HType & HDoc &
          HDate & HItems & HSub & HTax & HTot & HTend & HChange).
  unfold sameInvoice, llm.convertToInvoice, renderResponse.
  cbn -[formatVN llm.parseDecimal llm.parseDate llm.parseInvoiceType llm.parseDocumentType
        llm.convertLineItem String.eqb].
  repeat match goal with |- _ /\ _ => split end;
    try (now apply sameNumber_rendered); try (symmetry; assumption); try reflexivity.
  - (* number *)
    destruct (String.eqb_spec (model.Invoice.Number inv) "") as [E|E]; [|reflexivity].
    rewrite E. now apply HNum.
  - (* date *)
    destruct HDate as [(E & E0)|(E & HP)].
    + rewrite E. symmetry. exact E0.
    + apply String.eqb_neq in E. rewrite E, HP. reflexivity.
  - (* type *)
    unfold llm.parseInvoiceType.
    destruct HType as [-> | [-> | ->]]; reflexivity.
  - (* seller *)
    now destruct (model.Invoice.Seller inv).
  - (* buyer *)
    unfold sameContact. now destruct (model.Invoice.Buyer inv).
  - (* items *)
    induction HItems as [|li items Hli _ IH]; simpl; constructor; auto.
    now apply convertLineItem_rendered.
  - (* currency *)
    apply String.eqb_neq in HCur. now rewrite HCur.
  - (* exchange rate *)
    exact HEx.
  - (* document type *)
    unfold llm.parseDocumentType.
    destruct HDoc as [-> | ->]; reflexivity.
Qed.

End RoundTrip.


(** *** Sample invoices *)

(** The invoice [invoice1] after CalculateTotals; its date is not set, and
    the renderer writes no date. *)
Definition noDate (t : time.Time) : string := "".

Lemma convertToInvoice_renderResponse_witness :
  sameInvoice
    (llm.convertToInvoice (std := PipelineSamples.plainStd)
       (renderResponse noDate Samples.invoice1Calculated))
    Samples.invoice1Calculated.
Proof.
  apply (convertToInvoice_renderResponse (std := PipelineSamples.plainStd) noDate).
  unfold inNormalizerRange, wellTyped, MinInt32, MaxInt32.
  repeat match goal with |- _ /\ _ => split end;
    try reflexivity; try discriminate; try (simpl; lia); auto.
  cbn. repeat constructor; simpl; try lia; try discriminate.
Defined.

(** An invoice whose buyer has a bank account. *)
Definition bankedInvoice : model.Invoice.t :=
  model.Invoice.mk "" "0000123" "AA/24E" time.zeroTime model.InvoiceTypeNormal
    model.ProviderUnknown
    (model.Party.mk "Seller Co" "0100109106" "Ha Noi" "" "" "" "")
    (model.Party.mk "Buyer Co" "0300588569" "Da Nang" "" "" "0011004455" "Vietcombank")
    [] (New 0 0) (New 0 0) (New 0 0) "VND" (New 0 0) "" "" model.DocumentTypeInvoice
    "" "" "" "" "" (New 0 0) (New 0 0) None [] "".

(** The buyer's bank account is not converted: the fields the renderer
    writes carry it, the converted invoice does not, and no response at all
    is converted into that invoice. *)
Lemma convertToInvoice_loses_buyer_bank_account :
  llm.LLMParty.BankAccount (llm.LLMResponse.Buyer (renderResponse noDate bankedInvoice))
    = "0011004455" /\
  model.Party.BankAccount
    (model.Invoice.Buyer
       (llm.convertToInvoice (std := PipelineSamples.plainStd)
          (renderResponse noDate bankedInvoice))) = "" /\
  ~ (exists (std : GoStd) (resp : llm.LLMResponse.t),
       llm.convertToInvoice resp = bankedInvoice).
Proof.
  split; [reflexivity|]. split; [reflexivity|].
  intros (std & resp & H).
  apply (f_equal (fun inv => model.Party.BankAccount (model.Invoice.Buyer inv))) in H.
  discriminate H.
Qed.

End NormalizerClaims.

(** ** encoding/json: the numbers of a response

    The part of Go's JSON decoder that decides what a field of type
    [json.Number] can hold: the grammar of numbers ([isValidNumber], which
    the scanner follows as well) and what [Unmarshal] stores in such a
    field.  The strings and the line numbers of a response are taken as
    decoded. *)

Module json.

(** The loops [for len(s) > 0 && '0' <= s[0] && s[0] <= '9' { s = s[1:] }]. *)
Fixpoint skipDigits (s : string) : string :=
  match s with
  | EmptyString => ""
  | String c s' => if strconv.isDigit c then skipDigits s' else s
  end.

(** The steps of isValidNumber on what is left of [s]; [None] where the
    function returns false. *)

(* Optional - *)
Definition optionalMinus (s : string) : option string :=
  match s with
  | EmptyString => None
  | String c rest =>
    if Ascii.eqb c "-"
    then if String.eqb rest "" then None else Some rest
    else Some s
  end.

(* Digits *)
Definition integerDigits (s : string) : option string :=
  match s with
  | EmptyString => None
  | String c rest =>
    if Ascii.eqb c "0" then Some rest
    else if (byteVal "1" <=? byteVal c) && (byteVal c <=? byteVal "9")
    then Some (skipDigits rest)
    else None
  end.

(* . followed by 1 or more digits. *)
Definition fractionDigits (s : string) : string :=
  match s with
  | String c (String d rest) =>
    if Ascii.eqb c "." && strconv.isDigit d then skipDigits rest else s
  | _ => s
  end.

(* e or E followed by an optional - or + and 1 or more digits. *)
Definition exponentDigits (s : string) : option string :=
  match s with
  | String c (String x rest) =>
    if Ascii.eqb c "e" || Ascii.eqb c "E"
    then
      if Ascii.eqb x "+" || Ascii.eqb x "-"
      then if String.eqb rest "" then None else Some (skipDigits rest)
      else Some (skipDigits (String x rest))
    else Some s
  | _ => Some s
  end.

(** [func isValidNumber(s string) bool]: the grammar of JSON numbers. *)
Definition isValidNumber (s : string) : bool :=
  match optionalMinus s with
  | None => false
  | Some s =>
    match integerDigits s with
    | None => false
    | Some s =>
      match exponentDigits (fractionDigits s) with
      | None => false
      | Some s =>
        (* Make sure we are at the end. *)
        String.eqb s ""
      end
    end
  end.

(** The value of one member of a JSON object, as the decoder meets it. *)
Inductive Value : Type :=
| Missing                 (* the object has no such member *)
| Null
| Str (s : string)        (* a string, here without its quotes and escapes *)
| Num (literal : string)  (* a number as written: the scanner has accepted it *)
| Other.                  (* true, false, an array or an object *)

(** What Unmarshal stores in a field of type [json.Number] of a fresh
    struct; [None]: Unmarshal returns an error.  A string is stored when it
    is a number (otherwise: "invalid number literal"), a number as it is
    written; null and a missing member leave the field empty; anything else
    is a value of the wrong type. *)
Definition unmarshalNumber (v : Value) : option llm.Number :=
  match v with
  | Missing => Some ""
  | Null => Some ""
  | Str s => if isValidNumber s then Some s else None
  | Num literal => Some literal
  | Other => None
  end.

(** The JSON object of a line item: its numbers as JSON values. *)
Module ItemObject.
Record t : Type := mk {
  Number : Z;
  Code : string;
  Name : string;
  Description : string;
  Unit : string;
  Quantity : Value;
  UnitPrice : Value;
  DiscountPercent : Value;
  DiscountAmount : Value;
  Amount : Value;
  VATRate : Value;
  VATAmount : Value;
  Total : Value
}.
End ItemObject.

(** The JSON object of a response: its numbers as JSON values. *)
Module ResponseObject.
Record t : Type := mk {
  InvoiceNumber : string;
  Series : string;
  Date : string;
  Type_ : string;
  Seller : llm.LLMParty.t;
  Buyer : llm.LLMParty.t;
  Items : list ItemObject.t;
  Subtotal : Value;
  TotalDiscount : Value;
  TotalVAT : Value;
  TotalAmount : Value;
  Currency : string;
  PaymentMethod : string;
  Notes : string;
  DocumentType : string;
  ReceiptNumber : string;
  Cashier : string;
  TerminalID : string;
  Time_ : string;
  AmountTendered : Value;
  Change : Value
}.
End ResponseObject.

(** Unmarshal on the object of a line item. *)
Definition unmarshalItem (o : ItemObject.t) : option llm.LLMLineItem.t :=
  quantity <- unmarshalNumber (ItemObject.Quantity o) ;;
  unitPrice <- unmarshalNumber (ItemObject.UnitPrice o) ;;
  discountPercent <- unmarshalNumber (ItemObject.DiscountPercent o) ;;
  discountAmount <- unmarshalNumber (ItemObject.DiscountAmount o) ;;
  amount <- unmarshalNumber (ItemObject.Amount o) ;;
  vatRate <- unmarshalNumber (ItemObject.VATRate o) ;;
  vatAmount <- unmarshalNumber (ItemObject.VATAmount o) ;;
  total <- unmarshalNumber (ItemObject.Total o) ;;
  Some (llm.LLMLineItem.mk (ItemObject.Number o) (ItemObject.Code o) (ItemObject.Name o)
          (ItemObject.Description o) (ItemObject.Unit o)
          quantity unitPrice discountPercent discountAmount amount vatRate vatAmount total).

Fixpoint unmarshalItems (os : list ItemObject.t) : option (list llm.LLMLineItem.t) :=
  match os with
  | [] => Some []
  | o :: rest =>
    item <- unmarshalItem o ;;
    items <- unmarshalItems rest ;;
    Some (item :: items)
  end.

(** [json.Unmarshal([]byte(jsonStr), &llmResp)] on the object of a
    response; [None]: it returns an error. *)
Definition Unmarshal (o : ResponseObject.t) : option llm.LLMResponse.t :=
  items <- unmarshalItems (ResponseObject.Items o) ;;
  subtotal <- unmarshalNumber (ResponseObject.Subtotal o) ;;
  totalDiscount <- unmarshalNumber (ResponseObject.TotalDiscount o) ;;
  totalVAT <- unmarshalNumber (ResponseObject.TotalVAT o) ;;
  totalAmount <- unmarshalNumber (ResponseObject.TotalAmount o) ;;
  amountTendered <- unmarshalNumber (ResponseObject.AmountTendered o) ;;
  change <- unmarshalNumber (ResponseObject.Change o) ;;
  Some (llm.LLMResponse.mk
          (ResponseObject.InvoiceNumber o) (ResponseObject.Series o)
          (ResponseObject.Date o) (ResponseObject.Type_ o)
          (ResponseObject.Seller o) (ResponseObject.Buyer o)
          items subtotal totalDiscount totalVAT totalAmount
          (ResponseObject.Currency o) (ResponseObject.PaymentMethod o)
          (ResponseObject.Notes o) (ResponseObject.DocumentType o)
          (ResponseObject.ReceiptNumber o) (ResponseObject.Cashier o)
          (ResponseObject.TerminalID o) (ResponseObject.Time_ o)
          amountTendered change).

End json.

Module RenderJSON.
Import Render.

(** Modelled from the spec: a number of the invoice in the JSON object.  In
    Vietnamese formatting it is no JSON number, so it is written as a
    string. *)
Definition renderNumber (d : Decimal) : json.Value := json.Str (formatVN d).

(** Modelled from the spec: the JSON object of a line item. *)
Definition renderItemObject (li : model.LineItem.t) : json.ItemObject.t :=
  json.ItemObject.mk
    (model.LineItem.Number li) (model.LineItem.Code li) (model.LineItem.Name li)
    (model.LineItem.Description li) (model.LineItem.Unit li)
    (renderNumber (model.LineItem.Quantity li))
    (renderNumber (model.LineItem.UnitPrice li))
    (renderNumber (model.LineItem.Discount li))
    (renderNumber (model.LineItem.DiscountAmt li))
    (renderNumber (model.LineItem.Amount li))
    (renderNumber (NewFromInt (model.LineItem.VATRate li)))
    (renderNumber (model.LineItem.VATAmount li))
    (renderNumber (model.LineItem.Total li)).

(** Modelled from the spec: the Normalizer-compatible JSON of an invoice,
    its numbers in Vietnamese formatting; [formatDate] writes its date. *)
Definition renderJSON (formatDate : time.Time -> string) (inv : model.Invoice.t)
    : json.ResponseObject.t :=
  json.ResponseObject.mk
    (model.Invoice.Number inv)
    (model.Invoice.Series inv)
    (formatDate (model.Invoice.Date inv))
    (model.Invoice.Type_ inv)
    (renderParty (model.Invoice.Seller inv))
    (renderParty (model.Invoice.Buyer inv))
    (map renderItemObject (model.Invoice.Items inv))
    (renderNumber (model.Invoice.SubtotalAmount inv))
    json.Missing (* total_discount: the invoice has no such field *)
    (renderNumber (model.Invoice.TaxAmount inv))
    (renderNumber (model.Invoice.TotalAmount inv))
    (model.Invoice.Currency inv)
    (model.Invoice.PaymentMethod inv)
    (model.Invoice.Remarks inv)
    (model.Invoice.DocumentType inv)
    (model.Invoice.ReceiptNumber inv)
    (model.Invoice.Cashier inv)
    (model.Invoice.TerminalID inv)
    (model.Invoice.ReceiptTime inv)
    (renderNumber (model.Invoice.AmountTendered inv))
    (renderNumber (model.Invoice.Change inv)).

End RenderJSON.

Module JSONFacts.
Import json Render RenderJSON.

(** The bytes a JSON number is made of. *)
Definition numeric (c : ascii) : bool := strings.inChars c "0123456789+-.eE".

Fixpoint allNumeric (s : string) : bool :=
  match s with
  | EmptyString => true
  | String c s' => numeric c && allNumeric s'
  end.

(** [passes s r]: [r] is what is left of [s] behind some bytes of
    numbers. *)
Inductive passes : string -> string -> Prop :=
| passes_here (s : string) : passes s s
| passes_byte (c : ascii) (s r : string) :
    numeric c = true -> passes s r -> passes (String c s) r.

Lemma passes_trans (s r t : string) : passes s r -> passes r t -> passes s t.
Proof.
  induction 1 as [|c s r Hc _ IH]; [auto|]. intros H. apply passes_byte; auto.
Qed.

Lemma passes_end (s : string) : passes s "" -> allNumeric s = true.
Proof.
  intros H. remember "" as e eqn:He. induction H as [s|c s r Hc _ IH]; subst.
  - reflexivity.
  - cbn [allNumeric]. now rewrite Hc, IH.
Qed.

Lemma isDigit_numeric (c : ascii) : strconv.isDigit c = true -> numeric c = true.
Proof.
  destruct c as [[] [] [] [] [] [] [] []]; intros H; try discriminate H; reflexivity.
Qed.

Lemma passes_skipDigits (s : string) : passes s (skipDigits s).
Proof.
  induction s as [|c s IH]; [apply passes_here|]. cbn [skipDigits].
  destruct (strconv.isDigit c) eqn:E; [|apply passes_here].
  apply passes_byte; [now apply isDigit_numeric|exact IH].
Qed.

Lemma optionalMinus_passes (s r : string) : optionalMinus s = Some r -> passes s r.
Proof.
  destruct s as [|c rest]; [discriminate|]. cbn [optionalMinus].
  destruct (Ascii.eqb_spec c "-") as [->|_].
  - destruct (String.eqb rest ""); [discriminate|]. intros [= <-].
    apply passes_byte; [reflexivity|apply passes_here].
  - intros [= <-]. apply passes_here.
Qed.

Lemma integerDigits_passes (s r : string) : integerDigits s = Some r -> passes s r.
Proof.
  destruct s as [|c rest]; [discriminate|]. cbn [integerDigits].
  destruct (Ascii.eqb_spec c "0") as [->|_].
  - intros [= <-]. apply passes_byte; [reflexivity|apply passes_here].
  - destruct (_ && _) eqn:E; [|discriminate]. intros [= <-].
    apply passes_byte; [|apply passes_skipDigits].
    revert E. clear. destruct c as [[] [] [] [] [] [] [] []]; intros H;
      try discriminate H; reflexivity.
Qed.

Lemma fractionDigits_passes (s : string) : passes s (fractionDigits s).
Proof.
  destruct s as [|c [|d rest]]; try apply passes_here. cbn [fractionDigits].
  destruct (Ascii.eqb_spec c ".") as [->|_]; [|apply passes_here].
  destruct (strconv.isDigit d) eqn:E; cbn [andb]; [|apply passes_here].
  apply passes_byte; [reflexivity|].
  apply passes_byte; [now apply isDigit_numeric|apply passes_skipDigits].
Qed.

Lemma exponentDigits_passes (s r : string) : exponentDigits s = Some r -> passes s r.
Proof.
  destruct s as [|c [|x rest]]; cbn [exponentDigits];
    [intros [= <-]; apply passes_here|intros [= <-]; apply passes_here|].
  destruct (Ascii.eqb c "e" || Ascii.eqb c "E") eqn:Ec;
    [|intros [= <-]; apply passes_here].
  assert (numeric c = true) as Hc.
  { revert Ec. clear. destruct c as [[] [] [] [] [] [] [] []]; intros H;
      try discriminate H; reflexivity. }
  destruct (Ascii.eqb x "+" || Ascii.eqb x "-") eqn:Ex.
  - destruct (String.eqb rest ""); [discriminate|]. intros [= <-].
    apply passes_byte; [exact Hc|]. apply passes_byte; [|apply passes_skipDigits].
    revert Ex. clear. destruct x as [[] [] [] [] [] [] [] []]; intros H;
      try discriminate H; reflexivity.
  - intros [= <-]. apply passes_byte; [exact Hc|apply passes_skipDigits].
Qed.

(** A JSON number is made of digits, signs, a point and the mark of an
    exponent. *)
Lemma isValidNumber_numeric (s : string) :
  isValidNumber s = true -> allNumeric s = true.
Proof.
  unfold isValidNumber.
  destruct (optionalMinus s) as [s1|] eqn:E1; [|discriminate].
  destruct (integerDigits s1) as [s2|] eqn:E2; [|discriminate].
  destruct (exponentDigits (fractionDigits s2)) as [s3|] eqn:E3; [|discriminate].
  intros H. apply String.eqb_eq in H. subst s3. apply passes_end.
  apply (passes_trans _ _ _ (optionalMinus_passes _ _ E1)).
  apply (passes_trans _ _ _ (integerDigits_passes _ _ E2)).
  apply (passes_trans _ _ _ (fractionDigits_passes s2)).
  now apply exponentDigits_passes.
Qed.

Lemma allNumeric_inChars (c : ascii) (s : string) :
  numeric c = false -> allNumeric s = true -> strings.inChars c s = false.
Proof.
  intros Hc. induction s as [|x s IH]; [reflexivity|]. cbn [allNumeric strings.inChars].
  intros H. apply andb_true_iff in H. destruct H as (Hx & Hs).
  rewrite (IH Hs), orb_false_r.
  destruct (Ascii.eqb_spec c x) as [->|_]; [congruence|reflexivity].
Qed.

(** No JSON number holds a comma. *)
Lemma isValidNumber_no_comma (s : string) :
  isValidNumber s = true -> strings.inChars "," s = false.
Proof.
  intros H. apply allNumeric_inChars; [reflexivity|]. now apply isValidNumber_numeric.
Qed.

(** So no field of type [json.Number] holds one after Unmarshal. *)
Lemma unmarshalNumber_no_comma (v : Value) (n : llm.Number) :
  (forall literal, v = Num literal -> isValidNumber literal = true) ->
  unmarshalNumber v = Some n -> strings.inChars "," n = false.
Proof.
  intros Hv. destruct v as [| |s|literal|]; cbn [unmarshalNumber]; intros H;
    try discriminate H; try (inversion H; reflexivity).
  - destruct (isValidNumber s) eqn:E; [|discriminate]. inversion H; subst.
    now apply isValidNumber_no_comma.
  - inversion H; subst. now apply isValidNumber_no_comma, Hv.
Qed.

Lemma inChars_ofList (c : ascii) (a b : list ascii) :
  strings.inChars c (string_of_list_ascii (a ++ c :: b)) = true.
Proof.
  induction a as [|x a IH]; cbn [app string_of_list_ascii strings.inChars].
  - now rewrite Ascii.eqb_refl.
  - now rewrite IH, orb_true_r.
Qed.

(** A number with a fraction is written with a comma, and rejected. *)
Lemma formatVN_comma (d : Decimal) :
  exp d < 0 -> strings.inChars "," (formatVN d) = true.
Proof.
  intros H. unfold formatVN. cbv zeta.
  assert ((0 <=? exp d) = false) as -> by (apply Z.leb_gt; lia).
  rewrite app_assoc. apply inChars_ofList.
Qed.

Lemma renderNumber_rejected (d : Decimal) :
  exp d < 0 -> unmarshalNumber (renderNumber d) = None.
Proof.
  intros H. unfold renderNumber, unmarshalNumber.
  destruct (isValidNumber (formatVN d)) eqn:E; [|reflexivity].
  apply isValidNumber_no_comma in E. now rewrite formatVN_comma in E.
Qed.

Lemma renderNumber_accepted (d : Decimal) (n : llm.Number) :
  unmarshalNumber (renderNumber d) = Some n -> n = formatVN d.
Proof.
  unfold renderNumber, unmarshalNumber.
  destruct (isValidNumber (formatVN d)); [|discriminate]. now intros [= <-].
Qed.

(** The decimals of a line item and of an invoice that the renderer
    writes. *)
Definition itemNumbers (li : model.LineItem.t) : list Decimal :=
  [ model.LineItem.Quantity li; model.LineItem.UnitPrice li; model.LineItem.Discount li;
    model.LineItem.DiscountAmt li; model.LineItem.Amount li;
    model.LineItem.VATAmount li; model.LineItem.Total li ].

Definition invoiceNumbers (inv : model.Invoice.t) : list Decimal :=
  flat_map itemNumbers (model.Invoice.Items inv) ++
  [ model.Invoice.SubtotalAmount inv; model.Invoice.TaxAmount inv;
    model.Invoice.TotalAmount inv; model.Invoice.AmountTendered inv;
    model.Invoice.Change inv ].

Ltac rejected H :=
  rewrite (renderNumber_rejected _ H);
  repeat (match goal with
          | |- context [unmarshalNumber ?v] => destruct (unmarshalNumber v)
          | |- context [unmarshalItems ?l] => destruct (unmarshalItems l)
          end; cbn [bind]; try reflexivity).

Lemma unmarshalItem_rejected (li : model.LineItem.t) (d : Decimal) :
  In d (itemNumbers li) -> exp d < 0 -> unmarshalItem (renderItemObject li) = None.
Proof.
  intros Hin Hd. unfold unmarshalItem, renderItemObject.
  cbn [ItemObject.Quantity ItemObject.UnitPrice ItemObject.DiscountPercent
       ItemObject.DiscountAmount ItemObject.Amount ItemObject.VATRate
       ItemObject.VATAmount ItemObject.Total].
  unfold itemNumbers in Hin. cbn [In] in Hin.
  repeat (destruct Hin as [<-|Hin]; [now rejected Hd|]). contradiction.
Qed.

Lemma unmarshalItems_rejected (items : list model.LineItem.t) (d : Decimal) :
  In d (flat_map itemNumbers items) -> exp d < 0 ->
  unmarshalItems (map renderItemObject items) = None.
Proof.
  induction items as [|li items IH]; [contradiction|]. cbn [flat_map map unmarshalItems].
  intros Hin Hd. apply in_app_or in Hin. destruct Hin as [Hin|Hin].
  - now rewrite (unmarshalItem_rejected li d).
  - rewrite (IH Hin Hd). now destruct (unmarshalItem _).
Qed.

(** Unmarshal rejects the JSON of every invoice that has a number with a
    fraction. *)
Lemma Unmarshal_rejects_fractions (formatDate : time.Time -> string)
    (inv : model.Invoice.t) (d : Decimal) :
  In d (invoiceNumbers inv) -> exp d < 0 ->
  Unmarshal (renderJSON formatDate inv) = None.
Proof.
  intros Hin Hd. unfold Unmarshal, renderJSON.
  cbn [ResponseObject.Items ResponseObject.Subtotal ResponseObject.TotalDiscount
       ResponseObject.TotalVAT ResponseObject.TotalAmount ResponseObject.AmountTendered
       ResponseObject.Change].
  unfold invoiceNumbers in Hin. apply in_app_or in Hin. destruct Hin as [Hin|Hin].
  - now rewrite (unmarshalItems_rejected _ d).
  - cbn [In] in Hin.
    repeat (destruct Hin as [<-|Hin]; [now rejected Hd|]). contradiction.
Qed.

Ltac accepted :=
  repeat (match goal with
          | |- context [unmarshalNumber (renderNumber ?d)] =>
            let E := fresh "E" in
            destruct (unmarshalNumber (renderNumber d)) eqn:E;
              [apply renderNumber_accepted in E; subst|discriminate]
          end; cbn [bind]).

Lemma unmarshalItem_accepted (li : model.LineItem.t) (item : llm.LLMLineItem.t) :
  unmarshalItem (renderItemObject li) = Some item -> item = renderItem li.
Proof.
  unfold unmarshalItem, renderItemObject.
  cbn [ItemObject.Quantity ItemObject.UnitPrice ItemObject.DiscountPercent
       ItemObject.DiscountAmount ItemObject.Amount ItemObject.VATRate
       ItemObject.VATAmount ItemObject.Total ItemObject.Number ItemObject.Code
       ItemObject.Name ItemObject.Description ItemObject.Unit].
  accepted. now intros [= <-].
Qed.

Lemma unmarshalItems_accepted (items : list model.LineItem.t) :
  forall decoded,
    unmarshalItems (map renderItemObject items) = Some decoded ->
    decoded = map renderItem items.
Proof.
  induction items as [|li items IH]; intros decoded; cbn [map unmarshalItems].
  - now intros [= <-].
  - destruct (unmarshalItem (renderItemObject li)) as [item|] eqn:E; [|discriminate].
    apply unmarshalItem_accepted in E. subst item. cbn [bind].
    destruct (unmarshalItems (map renderItemObject items)) as [rest|]; [|discriminate].
    cbn [bind]. intros [= <-]. now rewrite (IH rest eq_refl).
Qed.

(** When Unmarshal accepts the JSON of an invoice, the response it returns
    holds the strings of the object and its numbers as they are written. *)
Lemma Unmarshal_accepted (formatDate : time.Time -> string) (inv : model.Invoice.t)
    (llmResp : llm.LLMResponse.t) :
  Unmarshal (renderJSON formatDate inv) = Some llmResp ->
  llmResp = renderResponse formatDate inv.
Proof.
  unfold Unmarshal, renderJSON.
  cbn [ResponseObject.Items ResponseObject.Subtotal ResponseObject.TotalDiscount
       ResponseObject.TotalVAT ResponseObject.TotalAmount ResponseObject.AmountTendered
       ResponseObject.Change ResponseObject.InvoiceNumber ResponseObject.Series
       ResponseObject.Date ResponseObject.Type_ ResponseObject.Seller ResponseObject.Buyer
       ResponseObject.Currency ResponseObject.PaymentMethod ResponseObject.Notes
       ResponseObject.DocumentType ResponseObject.ReceiptNumber ResponseObject.Cashier
       ResponseObject.TerminalID ResponseObject.Time_].
  destruct (unmarshalItems _) as [items|] eqn:Ei; [|discriminate].
  apply unmarshalItems_accepted in Ei. subst items. cbn [bind].
  accepted. cbn [unmarshalNumber bind]. now intros [= <-].
Qed.

End JSONFacts.

(** ** The Normalizer behind the decoder *)

Module NormalizerDecoding.
Import json Render RenderJSON RenderFacts JSONFacts NormalizerClaims.

Lemma allNumeric_no_comma (l : list ascii) :
  allNumeric (ofList l) = true ->
  map (fun d => if Ascii.eqb d "," then "."%char else d) l = l.
Proof.
  induction l as [|c l IH]; [reflexivity|]. cbn [string_of_list_ascii allNumeric map].
  intros H. apply andb_true_iff in H. destruct H as (Hc & Hl). rewrite (IH Hl).
  destruct (Ascii.eqb_spec c ",") as [->|_]; [discriminate Hc|reflexivity].
Qed.

Lemma allNumeric_filter (f : ascii -> bool) (l : list ascii) :
  allNumeric (ofList l) = true -> allNumeric (ofList (filter f l)) = true.
Proof.
  induction l as [|c l IH]; [reflexivity|]. cbn [string_of_list_ascii allNumeric filter].
  intros H. apply andb_true_iff in H. destruct H as (Hc & Hl).
  destruct (f c); [cbn [string_of_list_ascii allNumeric]; rewrite Hc|]; auto.
Qed.

(** On a number the decoder has accepted, the second replacement of
    parseDecimal, of the comma by a point, finds nothing to replace. *)
Lemma parseDecimal_comma_never_replaced (n : llm.Number) :
  isValidNumber n = true ->
  strings.ReplaceAll (strings.ReplaceAll n "." "") "," "." = strings.ReplaceAll n "." "".
Proof.
  intros H. apply isValidNumber_numeric in H.
  rewrite <- (string_of_list_ascii_of_string n) in *.
  fold (ofList (list_ascii_of_string n)) in *.
  rewrite ReplaceAll_delete, ReplaceAll_one.
  now rewrite allNumeric_no_comma by now apply allNumeric_filter.
Qed.

Section Accepted.
Context {std : GoStd}.
Variable formatDate : time.Time -> string.

(** Where the decoder accepts the JSON of an invoice in the Normalizer's
    range, the Normalizer returns the invoice. *)
Lemma round_trip_when_accepted (inv : model.Invoice.t) (llmResp : llm.LLMResponse.t) :
  inNormalizerRange formatDate inv ->
  Unmarshal (renderJSON formatDate inv) = Some llmResp ->
  sameInvoice (llm.convertToInvoice llmResp) inv.
Proof.
  intros Hr H. apply Unmarshal_accepted in H. subst llmResp.
  now apply convertToInvoice_renderResponse.
Qed.

End Accepted.

(** C9 (the code departs from the claim): the JSON of an invoice with
    Vietnamese numeric formatting does not pass the decoder.  The invoice
    [invoice1Calculated] has the unit price 333.33, written 333,33.
    [json.Unmarshal] stores in a [json.Number] only what is a JSON number,
    so it returns an error and parseResponse returns no invoice; the same
    holds for every invoice that has a number with a fraction, and for a
    number of a million or more, written with two points.  No decoded number
    holds a comma: the replacement by which parseDecimal handles the
    Vietnamese format is never reached with one, although the conversion of
    the fields as they are written would give the invoice back. *)
Theorem parseResponse_rejects_vietnamese_numbers :
  let document := renderJSON noDate Samples.invoice1Calculated in
  map ItemObject.UnitPrice (ResponseObject.Items document) =
    [Str "333,33"; Str "100.000"] /\
  isValidNumber "333,33" = false /\
  Unmarshal document = None /\
  (forall (std : GoStd) (client : llm.Client) (response : string),
     (forall llmResp,
        llm.decodeJSON response = Ok llmResp -> Unmarshal document = Some llmResp) ->
     exists err,
       llm.parseResponse response = Err ("failed to parse LLM response: " ++ err)%string) /\
  (forall (formatDate : time.Time -> string) (inv : model.Invoice.t) (d : Decimal),
     In d (invoiceNumbers inv) -> exp d < 0 ->
     Unmarshal (renderJSON formatDate inv) = None) /\
  (formatVN (New 1234567 0) = "1.234.567" /\ isValidNumber "1.234.567" = false) /\
  (forall (v : Value) (n : llm.Number),
     (forall literal, v = Num literal -> isValidNumber literal = true) ->
     unmarshalNumber v = Some n -> strings.inChars "," n = false) /\
  sameInvoice
    (llm.convertToInvoice (std := PipelineSamples.plainStd)
       (renderResponse noDate Samples.invoice1Calculated))
    Samples.invoice1Calculated.
Proof.
  cbv zeta.
  assert (Unmarshal (renderJSON noDate Samples.invoice1Calculated) = None) as Hnone.
  { apply (Unmarshal_rejects_fractions noDate _ (New 33333 (-2))); [|reflexivity].
    right. left. reflexivity. }
  split; [reflexivity|]. split; [reflexivity|]. split; [exact Hnone|]. split.
  { intros std client response Hdec. unfold llm.parseResponse.
    destruct (llm.decodeJSON response) as [llmResp|err]; [|now exists err].
    specialize (Hdec llmResp eq_refl). rewrite Hnone in Hdec. discriminate Hdec. }
  split; [exact Unmarshal_rejects_fractions|].
  split; [split; reflexivity|].
  split; [exact unmarshalNumber_no_comma|].
  exact convertToInvoice_renderResponse_witness.
Qed.

(** A model client whose answers hold the JSON of [invoice1Calculated]:
    its decoder is Unmarshal on that object. *)
Definition renderingClient : llm.Client := {|
  llm.ChatText := fun _ _ _ => Ok "{unit_price: 333,33}";
  llm.ChatWithImage := fun _ _ _ _ _ => Ok "{unit_price: 333,33}";
  llm.decodeJSON := fun _ =>
    match Unmarshal (renderJSON noDate Samples.invoice1Calculated) with
    | Some llmResp => Ok llmResp
    | None => Err "json: invalid number literal"
    end;
  llm.SystemPromptInvoiceExtractor := "You are an expert invoice data extractor";
  llm.UserPromptTextExtraction := fun text => ("Extract invoice data: " ++ text)%string;
  llm.UserPromptImageExtraction := "Extract invoice data from this invoice image.";
  llm.UserPromptOCRCorrection := fun text => ("OCR Text: " ++ text)%string
|}.

Lemma renderingClient_rejected :
  llm.parseResponse (std := PipelineSamples.plainStd) (client := renderingClient)
    "{unit_price: 333,33}" =
  Err "failed to parse LLM response: json: invalid number literal".
Proof.
  unfold llm.parseResponse, llm.decodeJSON, renderingClient.
  rewrite (Unmarshal_rejects_fractions noDate _ (New 33333 (-2)));
    [reflexivity|right; left; reflexivity|reflexivity].
Qed.

End NormalizerDecoding.

(** * Further properties of the code *)

(** ** Strings *)

Module StringFacts.

Lemma length_append (s1 s2 : string) :
  String.length (s1 ++ s2) = (String.length s1 + String.length s2)%nat.
Proof. induction s1 as [|c s1 IH]; simpl; [reflexivity|now rewrite IH]. Qed.

Lemma append_nil_r (s : string) : (s ++ "")%string = s.
Proof. induction s as [|c s IH]; simpl; [reflexivity|now rewrite IH]. Qed.

Lemma append_assoc (s1 s2 s3 : string) :
  ((s1 ++ s2) ++ s3)%string = (s1 ++ s2 ++ s3)%string.
Proof. induction s1 as [|c s1 IH]; simpl; [reflexivity|now rewrite IH]. Qed.

Lemma prefix_length (p s : string) :
  String.prefix p s = true -> (String.length p <= String.length s)%nat.
Proof.
  revert s. induction p as [|a p IH]; intros s H; simpl; [lia|].
  destruct s as [|b s]; simpl in H; [discriminate|].
  destruct (ascii_dec a b); [|discriminate]. specialize (IH _ H). simpl. lia.
Qed.

(** A pattern does not start where its first byte does not stand. *)
Lemma prefix_other (c0 : ascii) (old' : string) (c : ascii) (s : string) :
  c <> c0 -> String.prefix (String c0 old') (String c s) = false.
Proof. intros H. simpl. destruct (ascii_dec c0 c); [congruence|reflexivity]. Qed.

(** ReplaceAll leaves alone a stretch that lacks the first byte of the
    pattern. *)
Lemma replaceFrom_app_absent (c0 : ascii) (old' new s t : string) :
  strings.inChars c0 s = false ->
  strings.replaceFrom (String c0 old') new (s ++ t) 0 =
  (s ++ strings.replaceFrom (String c0 old') new t 0)%string.
Proof.
  induction s as [|c s IH]; intros H; [reflexivity|].
  cbn [strings.inChars] in H. apply orb_false_iff in H. destruct H as (Hc & Hs).
  apply Ascii.eqb_neq in Hc.
  change ((String c s ++ t)%string) with (String c (s ++ t)).
  cbn [strings.replaceFrom]. rewrite prefix_other by congruence.
  rewrite IH by exact Hs. reflexivity.
Qed.

Lemma ReplaceAll_absent (c0 : ascii) (old' new s : string) :
  strings.inChars c0 s = false ->
  strings.ReplaceAll s (String c0 old') new = s.
Proof.
  intros H. unfold strings.ReplaceAll.
  rewrite <- (append_nil_r s) at 1. rewrite replaceFrom_app_absent by exact H.
  simpl. apply append_nil_r.
Qed.

(** ReplaceAll does not lengthen a string when the replacement is no longer
    than the pattern. *)
Lemma replaceFrom_length (old new : string) :
  (String.length new <= String.length old)%nat ->
  forall s skip,
    (String.length (strings.replaceFrom old new s skip) <= String.length s - skip)%nat.
Proof.
  intros Hlen. induction s as [|c s IH]; intros skip; [simpl; lia|].
  cbn [strings.replaceFrom]. destruct skip as [|k].
  - destruct (String.prefix old (String c s)) eqn:E.
    + apply prefix_length in E. rewrite length_append.
      specialize (IH (String.length old - 1)%nat). simpl in *. lia.
    + specialize (IH 0%nat). simpl in *. lia.
  - specialize (IH k). simpl. lia.
Qed.

Lemma ReplaceAll_length (s old new : string) :
  (String.length new <= String.length old)%nat ->
  (String.length (strings.ReplaceAll s old new) <= String.length s)%nat.
Proof.
  intros H. unfold strings.ReplaceAll.
  pose proof (replaceFrom_length old new H s 0). lia.
Qed.

Lemma inChars_app (c : ascii) (s t : string) :
  strings.inChars c (s ++ t) = strings.inChars c s || strings.inChars c t.
Proof.
  induction s as [|x s IH]; [reflexivity|]. cbn [append strings.inChars].
  now rewrite IH, orb_assoc.
Qed.

End StringFacts.

(** ** The calculator *)

Module CalculatorProps.
Import model CalculatorFacts RoundFacts Samples.

(** Exponents a calculation meets in practice: far inside int32. *)
Definition modestExp (d : Decimal) : Prop := - 10 ^ 8 <= exp d <= 10 ^ 8.

Definition modestItem (li : LineItem.t) : Prop :=
  modestExp (LineItem.Quantity li) /\ modestExp (LineItem.UnitPrice li) /\
  modestExp (LineItem.Discount li) /\ modestExp (LineItem.DiscountAmt li).

Lemma Mul_Some (d d2 : Decimal) :
  MinInt32 <= exp d + exp d2 <= MaxInt32 ->
  Mul d d2 = Some (New (value d * value d2) (exp d + exp d2)).
Proof.
  intros H. unfold Mul.
  assert ((MaxInt32 <? exp d + exp d2) || (exp d + exp d2 <? MinInt32) = false) as ->;
    [|reflexivity].
  apply orb_false_iff. rewrite !Z.ltb_ge. lia.
Qed.

Lemma Mul_None (d d2 : Decimal) :
  MaxInt32 < exp d + exp d2 \/ exp d + exp d2 < MinInt32 -> Mul d d2 = None.
Proof.
  intros H. unfold Mul.
  assert ((MaxInt32 <? exp d + exp d2) || (exp d + exp d2 <? MinInt32) = true) as ->;
    [|reflexivity].
  apply orb_true_iff. rewrite !Z.ltb_lt. lia.
Qed.

Lemma Div_100_Some (d : Decimal) :
  MinInt32 <= exp d + 16 <= MaxInt32 -> exists q, Div d (NewFromInt 100) = Some q.
Proof.
  intros H. unfold Div, DivRound, QuoRem, NewFromInt, DivisionPrecision.
  cbv zeta. cbn [value exp]. change (Z.sgn 100 =? 0) with false. cbn iota.
  set (e := exp d - 0 - - (16)).
  assert ((MaxInt32 <? e) || (e <? MinInt32) = false) as ->.
  { apply orb_false_iff. rewrite !Z.ltb_ge. lia. }
  destruct (e <? 0); cbn [bind];
    match goal with |- context [Cmp ?a ?b] => destruct (Cmp a b) end;
    try (destruct (_ <? 0)); eauto.
Qed.

Lemma Sub_exp (d d2 : Decimal) : exp (Sub d d2) = Z.min (exp d) (exp d2).
Proof.
  unfold Sub, RescalePair.
  destruct (Z.ltb_spec (exp d) (exp d2)); [cbn [exp]; lia|].
  destruct (Z.ltb_spec (exp d2) (exp d)); cbn [exp]; [rewrite rescale_exp|]; lia.
Qed.

Lemma Calculate_returns (li : LineItem.t) :
  modestItem li -> exists li', LineItem.Calculate li = Some li'.
Proof.
  unfold modestItem, modestExp. intros (HQ & HU & HD & HA).
  unfold LineItem.Calculate, MinInt32, MaxInt32 in *.
  rewrite Mul_Some by (unfold MinInt32, MaxInt32; lia). cbn [bind].
  set (amount := New _ _).
  assert (exp amount = exp (LineItem.Quantity li) + exp (LineItem.UnitPrice li)) as Ha
    by reflexivity.
  assert (exists discountAmt,
    (if negb (IsZero (LineItem.Discount li))
     then p <- Mul amount (LineItem.Discount li) ;;
          q <- Div p (NewFromInt 100) ;; Some (Round q 0)
     else Some (LineItem.DiscountAmt li)) = Some discountAmt /\
    - 10 ^ 8 <= exp discountAmt <= 10 ^ 8) as (discountAmt & -> & Hd).
  { destruct (IsZero (LineItem.Discount li)); cbn [negb].
    - eauto.
    - rewrite Mul_Some by (unfold MinInt32, MaxInt32; lia). cbn [bind].
      destruct (Div_100_Some (New (value amount * value (LineItem.Discount li))
                  (exp amount + exp (LineItem.Discount li)))) as (q & ->).
      { cbn [exp]. unfold MinInt32, MaxInt32. lia. }
      cbn [bind]. eexists. split; [reflexivity|]. rewrite Round_exp. lia. }
  cbn [bind].
  pose proof (Sub_exp amount discountAmt) as Hs.
  rewrite Mul_Some by (unfold NewFromInt, MinInt32, MaxInt32; cbn [exp]; lia).
  cbn [bind].
  match goal with |- context [Div ?p _] => destruct (Div_100_Some p) as (q & ->) end.
  { unfold NewFromInt, MinInt32, MaxInt32. cbn [exp]. lia. }
  cbn [bind]. eauto.
Qed.

Lemma calculateItems_returns (items : list LineItem.t) :
  Forall modestItem items ->
  forall subtotal tax, exists r, Invoice.calculateItems items subtotal tax = Some r.
Proof.
  induction 1 as [|li items Hli _ IH]; intros s t; simpl; [eauto|].
  destruct (Calculate_returns li Hli) as (li' & ->). cbn [bind].
  match goal with |- context [Invoice.calculateItems items ?a ?b] =>
    destruct (IH a b) as ([[rest' s'] t'] & ->) end.
  cbn [bind]. eauto.
Qed.


Lemma calculateItems_length (items : list LineItem.t) :
  forall subtotal tax items' subtotal' tax',
    Invoice.calculateItems items subtotal tax = Some (items', subtotal', tax') ->
    List.length items = List.length items'.
Proof.
  induction items as [|item rest IH]; simpl; intros s t items' s' t' H.
  - inversion H. reflexivity.
  - inv_bind H. inv_bind H. destruct v0 as [[rest' s2] t2]. inversion H; subst.
    simpl. f_equal. eapply IH; eauto.
Qed.

Lemma calculateItems_panics (items : list LineItem.t) (li : LineItem.t) :
  In li items -> LineItem.Calculate li = None ->
  forall subtotal tax, Invoice.calculateItems items subtotal tax = None.
Proof.
  induction items as [|item rest IH]; simpl; intros Hin Hli s t; [contradiction|].
  destruct Hin as [->|Hin].
  - rewrite Hli. reflexivity.
  - destruct (LineItem.Calculate item); cbn [bind]; [|reflexivity].
    rewrite IH by assumption. reflexivity.
Qed.

(** CalculateTotals does not panic on an invoice whose items' quantity,
    unit price, discount percent and stored discount amount have exponents
    between -10^8 and 10^8: it returns the invoice, with as many items. *)
Theorem CalculateTotals_returns (inv : Invoice.t) :
  Forall modestItem (Invoice.Items inv) ->
  exists inv',
    Invoice.CalculateTotals inv = Some inv' /\
    List.length (Invoice.Items inv') = List.length (Invoice.Items inv).
Proof.
  intros H. unfold Invoice.CalculateTotals.
  destruct (calculateItems_returns _ H Zero Zero) as ([[items' s] t] & Hr).
  rewrite Hr. cbn [bind]. eexists. split; [reflexivity|].
  cbn [Invoice.withTotals Invoice.Items].
  symmetry. eapply calculateItems_length; eauto.
Qed.

Lemma CalculateTotals_returns_witness :
  exists inv',
    Invoice.CalculateTotals invoice1 = Some inv' /\
    List.length (Invoice.Items inv') = List.length (Invoice.Items invoice1).
Proof.
  apply CalculateTotals_returns.
  repeat constructor; vm_compute; discriminate.
Defined.

(** An item whose quantity and unit price have exponents that add up beyond
    int32 makes CalculateTotals panic, wherever the item stands. *)
Theorem CalculateTotals_panics_on_exponent_overflow (inv : Invoice.t) (li : LineItem.t) :
  In li (Invoice.Items inv) ->
  MaxInt32 < exp (LineItem.Quantity li) + exp (LineItem.UnitPrice li) ->
  Invoice.CalculateTotals inv = None.
Proof.
  intros Hin Hexp. unfold Invoice.CalculateTotals.
  rewrite (calculateItems_panics (Invoice.Items inv) li); auto.
  unfold LineItem.Calculate. rewrite Mul_None by auto. reflexivity.
Qed.


(** A response whose first line has quantity and unit price 1e2000000000:
    both are decimals the normalizer accepts. *)
Definition hugeItem : llm.LLMLineItem.t :=
  llm.LLMLineItem.mk 1 "" "paper" "" "ream" "1e2000000000" "1e2000000000" "" "" "" "10" "" "".

Definition hugeResponse : llm.LLMResponse.t :=
  llm.LLMResponse.mk "0000123" "AA/24E" "" "normal"
    (llm.LLMParty.mk "Seller Co" "0100109106" "Ha Noi" "" "" "" "")
    (llm.LLMParty.mk "Buyer Co" "0300588569" "Da Nang" "" "" "" "")
    [PipelineSamples.sampleItem; hugeItem] "" "" "" "" "VND" "" "" "" "" "" "" "" "" "".

Lemma CalculateTotals_panics_on_exponent_overflow_witness :
  llm.parseDecimal "1e2000000000" = New 1 2000000000 /\
  Invoice.CalculateTotals
    (llm.convertToInvoice (std := PipelineSamples.plainStd) hugeResponse) = None.
Proof.
  split; [reflexivity|].
  apply (CalculateTotals_panics_on_exponent_overflow _
           (llm.convertLineItem hugeItem)).
  - right. left. reflexivity.
  - vm_compute. reflexivity.
Defined.

(** The amounts CalculateTotals stores are whole numbers: the three totals
    and every item's VAT amount and total have exponent 0, and so has the
    discount amount of an item with a non-zero discount percent. *)
Theorem CalculateTotals_whole_amounts (inv inv' : Invoice.t) :
  Invoice.CalculateTotals inv = Some inv' ->
  exp (Invoice.SubtotalAmount inv') = 0 /\
  exp (Invoice.TaxAmount inv') = 0 /\
  exp (Invoice.TotalAmount inv') = 0 /\
  Forall (fun li =>
            exp (LineItem.VATAmount li) = 0 /\ exp (LineItem.Total li) = 0 /\
            (IsZero (LineItem.Discount li) = false -> exp (LineItem.DiscountAmt li) = 0))
         (Invoice.Items inv').
Proof.
  unfold Invoice.CalculateTotals. intros H.
  inv_bind H. destruct v as [[items s] t]. inversion H; subst; clear H.
  cbn [Invoice.withTotals Invoice.SubtotalAmount Invoice.TaxAmount Invoice.TotalAmount
       Invoice.Items].
  rewrite !Round_exp. repeat split.
  revert E. generalize Zero at 1 as s0. generalize Zero as t0.
  generalize (Invoice.Items inv) as l. clear inv. intros l. revert items s t.
  induction l as [|item rest IH]; simpl; intros items s t t0 s0 H.
  - inversion H. constructor.
  - inv_bind H. inv_bind H. destruct v0 as [[rest' s2] t2]. inversion H; subst.
    constructor; [|eapply IH; eauto].
    destruct (Calculate_fields _ _ E) as (a & da & vp & vq & _ & Hd & _ & _ & ->).
    cbn [LineItem.withCalculated LineItem.VATAmount LineItem.Total LineItem.Discount
         LineItem.DiscountAmt].
    rewrite !Round_exp. repeat split.
    intros Hz. rewrite Hz in Hd. destruct Hd as (p & q & _ & _ & ->). apply Round_exp.
Qed.

Lemma CalculateTotals_whole_amounts_witness :
  exp (Invoice.TotalAmount invoice1Calculated) = 0 /\
  Forall (fun li => exp (LineItem.Total li) = 0) (Invoice.Items invoice1Calculated).
Proof.
  destruct (CalculateTotals_whole_amounts invoice1 invoice1Calculated)
    as (_ & _ & Ht & Hitems); [vm_compute; reflexivity|].
  split; [exact Ht|].
  eapply Forall_impl; [|exact Hitems]. intros li (_ & H & _). exact H.
Defined.

(** An invoice without items: the three totals become 0 and nothing else
    changes. *)
Theorem CalculateTotals_no_items (inv : Invoice.t) :
  Invoice.Items inv = [] ->
  Invoice.CalculateTotals inv =
    Some (Invoice.withTotals inv [] (New 0 0) (New 0 0) (New 0 0)).
Proof.
  intros H. unfold Invoice.CalculateTotals. rewrite H. reflexivity.
Qed.

Lemma CalculateTotals_no_items_witness :
  Invoice.CalculateTotals (invoiceOf []) =
    Some (Invoice.withTotals (invoiceOf []) [] (New 0 0) (New 0 0) (New 0 0)).
Proof. apply CalculateTotals_no_items. reflexivity. Defined.


(** *** Whole quantities and prices *)

(** [p / 100] rounded to the nearest integer, halves away from zero. *)
Definition roundHundredth (p : Z) : Z :=
  if p <? 0 then - ((- p + 50) / 100) else (p + 50) / 100.

(** The rounding of a number that is not positive, with [- e] fractional
    digits. *)
Lemma Round_fraction_neg (v e : Z) :
  e < 0 -> v <= 0 ->
  Round (New v e) 0 = New (- ((- v + 5 * 10 ^ (- e - 1)) / 10 ^ (- e))) 0.
Proof.
  intros He Hv. unfold Round. rewrite wrap32_m1, rescale_exp, wrap32_0. cbn [exp].
  assert ((e =? - 0) = false) as -> by (apply Z.eqb_neq; lia).
  assert (0 < 10 ^ (- e - 1)) as Hp by (apply Z.pow_pos_nonneg; lia).
  assert (10 ^ (- e) = 10 ^ (- e - 1) * 10) as Hk.
  { replace (- e) with ((- e - 1) + 1) at 1 by lia. now rewrite Z.pow_add_r by lia. }
  assert (value (rescale (New v e) (-1)) = - (- v / 10 ^ (- e - 1))) as Hval.
  { unfold rescale. cbn [exp value].
    destruct (Z.eqb_spec e (-1)) as [->|E].
    - cbn [value]. change (10 ^ (- -1 - 1)) with 1. rewrite Z.div_1_r. lia.
    - assert ((e <? -1) = true) as -> by (apply Z.ltb_lt; lia).
      cbn [value]. replace (Z.abs (-1 - e)) with (- e - 1) by lia.
      replace v with (- - v) at 1 by lia. rewrite Z.quot_opp_l by lia.
      f_equal. apply Z.quot_div_nonneg; lia. }
  rewrite Hval. rewrite Hk, <- Z.div_div by lia. rewrite Z.div_add by lia.
  set (w := - v / 10 ^ (- e - 1)).
  assert (0 <= w) by (apply Z.div_pos; lia).
  destruct (Z.ltb_spec (- w) 0) as [Hw|Hw].
  - assert (((- w - 5) / 10 <? 0) = true) as ->
      by (apply Z.ltb_lt; apply Z.div_lt_upper_bound; lia).
    cbn [andb]. destruct (Z.eqb_spec ((- w - 5) mod 10) 0) as [Hm|Hm]; cbn [negb];
      f_equal; Z.to_euclidean_division_equations; lia.
  - assert (w = 0) as -> by lia. reflexivity.
Qed.

Lemma Round_hundredth (p : Z) :
  Round (New (p * 10 ^ 14) (-16)) 0 = New (roundHundredth p) 0.
Proof.
  unfold roundHundredth. destruct (Z.ltb_spec p 0) as [Hp|Hp].
  - rewrite Round_fraction_neg by lia. f_equal. f_equal.
    change (- -16) with 16. change (16 - 1) with 15.
    replace (- (p * 10 ^ 14) + 5 * 10 ^ 15) with ((- p + 50) * 10 ^ 14) by lia.
    change (10 ^ 16) with (100 * 10 ^ 14).
    apply Z.div_mul_cancel_r; lia.
  - rewrite Round_fraction by lia. f_equal.
    change (- -16) with 16. change (16 - 1) with 15.
    replace (p * 10 ^ 14 + 5 * 10 ^ 15) with ((p + 50) * 10 ^ 14) by lia.
    change (10 ^ 16) with (100 * 10 ^ 14).
    apply Z.div_mul_cancel_r; lia.
Qed.

(** A whole number divided by 100: exact at 16 places. *)
Lemma Div_100_whole (p : Z) :
  Div (New p 0) (NewFromInt 100) = Some (New (p * 10 ^ 14) (-16)).
Proof.
  unfold Div, DivRound, QuoRem, NewFromInt, DivisionPrecision.
  cbv zeta. cbn [value exp]. change (Z.sgn 100 =? 0) with false. cbn iota.
  change (0 - 0 - - (16)) with 16.
  change ((MaxInt32 <? 16) || (16 <? MinInt32)) with false. cbn iota.
  change (16 <? 0) with false. cbn iota. cbn [bind].
  assert (Z.rem (p * 10 ^ 16) 100 = 0) as ->.
  { change (10 ^ 16) with (10 ^ 14 * 100). rewrite Z.mul_assoc. apply Z.rem_mul. lia. }
  assert (p * 10 ^ 16 ÷ 100 = p * 10 ^ 14) as ->.
  { change (10 ^ 16) with (10 ^ 14 * 100). rewrite Z.mul_assoc. apply Z.quot_mul. lia. }
  reflexivity.
Qed.

Lemma Sub_same_exp (a b e : Z) : Sub (New a e) (New b e) = New (a - b) e.
Proof. unfold Sub, RescalePair. cbn [exp]. now rewrite Z.ltb_irrefl. Qed.

(** For whole quantity, unit price, discount percent and stored discount
    amount, Calculate is exact integer arithmetic: the amount is the
    product; the discount amount is amount x percent / 100 rounded half away
    from zero, or the stored one for a zero percent; the VAT amount is
    (amount - discount amount) x rate / 100 rounded half away from zero; the
    total is amount - discount amount + VAT amount. *)
Theorem Calculate_whole_numbers (li : LineItem.t) (q u d da : Z) :
  LineItem.Quantity li = New q 0 ->
  LineItem.UnitPrice li = New u 0 ->
  LineItem.Discount li = New d 0 ->
  LineItem.DiscountAmt li = New da 0 ->
  let amount := q * u in
  let discount := if d =? 0 then da else roundHundredth (amount * d) in
  let vat := roundHundredth ((amount - discount) * LineItem.VATRate li) in
  LineItem.Calculate li =
    Some (LineItem.withCalculated li (New amount 0) (New discount 0) (New vat 0)
            (New (amount - discount + vat) 0)).
Proof.
  intros HQ HU HD HA amount discount vat.
  unfold LineItem.Calculate. rewrite HQ, HU, HD, HA.
  rewrite Mul_Some by (cbn [exp]; unfold MinInt32, MaxInt32; lia).
  cbn [bind value exp]. change (0 + 0) with 0. fold amount.
  assert ((if negb (IsZero (New d 0))
           then p <- Mul (New amount 0) (New d 0) ;;
                q0 <- Div p (NewFromInt 100) ;; Some (Round q0 0)
           else Some (New da 0)) = Some (New discount 0)) as ->.
  { unfold IsZero, Sign, discount. cbn [value].
    destruct (Z.eqb_spec d 0) as [->|Hd]; [reflexivity|].
    assert ((Z.sgn d =? 0) = false) as -> by (apply Z.eqb_neq; lia).
    cbn [negb]. rewrite Mul_Some by (cbn [exp]; unfold MinInt32, MaxInt32; lia).
    cbn [bind value exp]. change (0 + 0) with 0.
    rewrite Div_100_whole. cbn [bind]. now rewrite Round_hundredth. }
  cbn [bind]. rewrite Sub_same_exp.
  unfold NewFromInt at 1.
  rewrite Mul_Some by (cbn [exp]; unfold MinInt32, MaxInt32; lia).
  cbn [bind value exp]. change (0 + 0) with 0.
  rewrite Div_100_whole. cbn [bind]. rewrite Round_hundredth. fold vat.
  rewrite Add_same_exp, Round_at_exp0 by reflexivity. reflexivity.
Qed.

Lemma Calculate_whole_numbers_witness :
  LineItem.Calculate (item 2 "ink" (dec 3) (dec 4995) (dec 15) 10) =
    Some (LineItem.withCalculated (item 2 "ink" (dec 3) (dec 4995) (dec 15) 10)
            (dec 14985) (dec 2248) (dec 1274) (dec 14011)).
Proof.
  apply (Calculate_whole_numbers (item 2 "ink" (dec 3) (dec 4995) (dec 15) 10)
           3 4995 15 0); reflexivity.
Defined.

End CalculatorProps.

(** ** The response normalizer *)

Module NumberProps.
Import RenderFacts.

(** A string is the string of its bytes. *)
Lemma ofList_bytes (s : string) : ofList (list_ascii_of_string s) = s.
Proof. apply string_of_list_ascii_of_string. Qed.

Definition isDot (c : ascii) : bool := Ascii.eqb c ".".
Definition isComma (c : ascii) : bool := Ascii.eqb c ",".
Definition isDigitOrDot (c : ascii) : bool := strconv.isDigit c || isDot c.

(** The two replacements of parseDecimal, on the bytes of the literal: the
    dots go, the commas become dots. *)
Definition normalized (l : list ascii) : list ascii :=
  map (fun d => if Ascii.eqb d "," then "."%char else d)
      (filter (fun d => negb (Ascii.eqb d ".")) l).

Lemma parseDecimal_normalized (l : list ascii) :
  l <> [] ->
  llm.parseDecimal (ofList l) =
  match NewFromString (ofList (normalized l)) with
  | Some d => d
  | None => Zero
  end.
Proof.
  intros H. unfold llm.parseDecimal. rewrite ofList_nonempty by exact H.
  now rewrite ReplaceAll_delete, ReplaceAll_one.
Qed.

Lemma normalized_app l1 l2 : normalized (l1 ++ l2) = normalized l1 ++ normalized l2.
Proof. unfold normalized. now rewrite filter_app, map_app. Qed.

Lemma normalized_plain l : forallb isPlain l = true -> normalized l = l.
Proof. intros H. unfold normalized. now rewrite filter_plain, map_plain. Qed.

Lemma normalized_digits_dots l :
  forallb isDigitOrDot l = true -> normalized l = filter strconv.isDigit l.
Proof.
  unfold normalized. induction l as [|c l IH]; [reflexivity|].
  cbn [forallb filter]. intros H. apply andb_true_iff in H. destruct H as (Hc & Hl).
  unfold isDigitOrDot, isDot in Hc.
  destruct (strconv.isDigit c) eqn:Ed.
  - rewrite (plain_not_dot c (isDigit_plain c Ed)). cbn [negb map].
    rewrite (plain_not_comma c (isDigit_plain c Ed)). now rewrite IH.
  - simpl in Hc. rewrite Hc. cbn [negb]. now apply IH.
Qed.

(** Dots are not decimal points for parseDecimal: a literal made of digits
    and dots, with an optional minus sign in front, is read as the integer
    its digits spell.  So 1.234.567 is 1234567, and the JSON number 1234.56
    is 123456. *)
Theorem parseDecimal_drops_dots (negative : bool) (l : list ascii) :
  forallb isDigitOrDot l = true ->
  filter strconv.isDigit l <> [] ->
  llm.parseDecimal (ofList (signChars negative ++ l)) =
  New (signed negative (valueOf (filter strconv.isDigit l) 0)) 0.
Proof.
  intros Hl Hne.
  rewrite parseDecimal_normalized
    by (destruct l; [contradiction|destruct negative; discriminate]).
  rewrite normalized_app, (normalized_plain _ (forallb_signChars negative)).
  rewrite normalized_digits_dots by exact Hl.
  rewrite NewFromString_integer by (auto using forallb_filter). reflexivity.
Qed.

Lemma parseDecimal_drops_dots_witness :
  llm.parseDecimal "1234.56" = New 123456 0 /\
  llm.parseDecimal "-1.234.567" = New (-1234567) 0.
Proof.
  split.
  - apply (parseDecimal_drops_dots false (list_ascii_of_string "1234.56"));
      [reflexivity|discriminate].
  - apply (parseDecimal_drops_dots true (list_ascii_of_string "1.234.567"));
      [reflexivity|discriminate].
Defined.

(** The comma is parseDecimal's decimal point: digits (grouped by dots or
    not), a comma and k more digits are read as the number with k decimal
    places that the digits spell. *)
Theorem parseDecimal_comma_is_decimal_point (negative : bool) (int frac : list ascii) :
  forallb isDigitOrDot int = true ->
  filter strconv.isDigit int <> [] ->
  forallb strconv.isDigit frac = true ->
  frac <> [] ->
  Z.of_nat (List.length frac) <= 2 ^ 31 ->
  llm.parseDecimal (ofList (signChars negative ++ int ++ ","%char :: frac)) =
  New (signed negative (valueOf (filter strconv.isDigit int ++ frac) 0))
      (- Z.of_nat (List.length frac)).
Proof.
  intros Hint Hne Hfrac Hnef Hlen.
  rewrite parseDecimal_normalized by (destruct negative; destruct int; discriminate).
  rewrite !normalized_app, (normalized_plain _ (forallb_signChars negative)).
  rewrite normalized_digits_dots by exact Hint.
  change (","%char :: frac) with ([","%char] ++ frac). rewrite normalized_app.
  rewrite (normalized_plain frac) by now apply forallb_digits_plain.
  change (normalized [","%char] ++ frac) with ("."%char :: frac).
  rewrite NewFromString_fraction; auto using forallb_filter.
  unfold MinInt32. lia.
Qed.

Lemma parseDecimal_comma_is_decimal_point_witness :
  llm.parseDecimal "1.234.567,89" = New 123456789 (-2).
Proof.
  apply (parseDecimal_comma_is_decimal_point false
           (list_ascii_of_string "1.234.567") (list_ascii_of_string "89"));
    try reflexivity; try discriminate.
Defined.


(** *** Literals parseDecimal reads as zero *)

(** A byte no decimal literal holds: not a digit, a sign, a point or the
    mark of an exponent. *)
Definition foreign (c : ascii) : bool :=
  negb (strconv.isDigit c) && negb (strings.inChars c "+-.Ee").

Lemma digitsFrom_None (l : list ascii) (c : ascii) : forall a,
  In c l -> strconv.isDigit c = false -> strconv.digitsFrom (ofList l) a = None.
Proof.
  induction l as [|x l IH]; intros a Hin Hc; [contradiction|].
  cbn [string_of_list_ascii strconv.digitsFrom].
  destruct Hin as [->|Hin]; [now rewrite Hc|].
  destruct (strconv.isDigit x); [now apply IH|reflexivity].
Qed.

Lemma digits_None (l : list ascii) (c : ascii) :
  In c l -> strconv.isDigit c = false -> strconv.digits (ofList l) = None.
Proof.
  intros Hin Hc. destruct l as [|x l]; [contradiction|].
  apply (digitsFrom_None (x :: l) c); assumption.
Qed.

Lemma signedDigits_unsigned (x : ascii) (s : string) :
  x <> "+"%char -> x <> "-"%char ->
  strconv.signedDigits (String x s) = strconv.digits (String x s).
Proof.
  intros Hp Hm.
  destruct x as [[] [] [] [] [] [] [] []]; try reflexivity; congruence.
Qed.

(** Neither ParseInt nor SetString reads a literal that holds a byte other
    than a digit after its first byte, or other than a digit or a sign as
    its first byte. *)
Lemma signedDigits_None (l : list ascii) (c : ascii) :
  In c l -> strconv.isDigit c = false -> c <> "+"%char -> c <> "-"%char ->
  strconv.signedDigits (ofList l) = None.
Proof.
  intros Hin Hc Hp Hm. destruct l as [|x l]; [contradiction|].
  cbn [string_of_list_ascii].
  destruct (ascii_dec x "+") as [->|Hxp].
  - destruct Hin as [E|Hin]; [congruence|].
    cbn [strconv.signedDigits]. now apply (digits_None l c).
  - destruct (ascii_dec x "-") as [->|Hxm].
    + destruct Hin as [E|Hin]; [congruence|].
      cbn [strconv.signedDigits]. now rewrite (digits_None l c).
    + rewrite signedDigits_unsigned by assumption.
      apply (digits_None (x :: l) c); assumption.
Qed.

Lemma ParseInt_None (l : list ascii) (c : ascii) (bitSize : Z) :
  In c l -> strconv.isDigit c = false -> c <> "+"%char -> c <> "-"%char ->
  strconv.ParseInt (ofList l) bitSize = None.
Proof.
  intros. unfold strconv.ParseInt. now rewrite (signedDigits_None l c).
Qed.

(** The digits of the literal, whichever way they are read. *)
Definition parseDigits (intString : string) : option Z :=
  if len intString <=? 18
  then strconv.ParseInt intString 64
  else strconv.signedDigits intString.

Lemma parseDigits_None (l : list ascii) (c : ascii) :
  In c l -> strconv.isDigit c = false -> c <> "+"%char -> c <> "-"%char ->
  parseDigits (ofList l) = None.
Proof.
  intros. unfold parseDigits.
  destruct (_ <=? 18); [now apply (ParseInt_None l c)|now apply (signedDigits_None l c)].
Qed.

(** NewFromString from its loop over the mantissa on. *)
Definition mantissa (value : string) (exp0 : Z) : option Decimal :=
  pIndex <- pointIndex value ;;
  let vLen := len value in
  let '(intString, exp) :=
    if pIndex =? -1 then (value, exp0)
    else
      let intString :=
        if pIndex + 1 <? vLen
        then (sliceTo value pIndex ++ sliceFrom value (pIndex + 1))%string
        else sliceTo value pIndex in
      (intString, exp0 + - len (sliceFrom value (pIndex + 1))) in
  dValue <- parseDigits intString ;;
  if (exp <? MinInt32) || (MaxInt32 <? exp) then None
  else Some (New dValue exp).

Lemma NewFromString_mantissa (s : string) :
  NewFromString s =
  (let eIndex := strings.IndexAny s "Ee" in
   ve <-
     (if negb (eIndex =? -1)
      then
        expInt <- strconv.ParseInt (sliceFrom s (eIndex + 1)) 32 ;;
        Some (sliceTo s eIndex, expInt)
      else Some (s, 0)) ;;
   mantissa (fst ve) (snd ve)).
Proof.
  unfold NewFromString, mantissa, parseDigits. cbv zeta.
  destruct (negb _); [|reflexivity].
  destruct (strconv.ParseInt _ 32); reflexivity.
Qed.

Definition dots (l : list ascii) : nat := count_occ ascii_dec l "."%char.

Lemma pointIndexFrom_seen (l : list ascii) : forall i p,
  -1 < p -> (1 <= dots l)%nat -> pointIndexFrom (ofList l) i p = None.
Proof.
  induction l as [|c l IH]; intros i p Hp Hd; [unfold dots in Hd; simpl in Hd; lia|].
  cbn [string_of_list_ascii pointIndexFrom].
  destruct (Ascii.eqb_spec c ".") as [->|Hc].
  - assert ((-1 <? p) = true) as -> by (apply Z.ltb_lt; lia). reflexivity.
  - apply IH; [exact Hp|]. unfold dots in *. rewrite count_occ_cons_neq in Hd; auto.
Qed.

Lemma pointIndexFrom_two (l : list ascii) : forall i,
  0 <= i -> (2 <= dots l)%nat -> pointIndexFrom (ofList l) i (-1) = None.
Proof.
  induction l as [|c l IH]; intros i Hi Hd; [unfold dots in Hd; simpl in Hd; lia|].
  cbn [string_of_list_ascii pointIndexFrom].
  destruct (Ascii.eqb_spec c ".") as [->|Hc].
  - change (-1 <? -1) with false. cbn iota.
    unfold dots in Hd. rewrite count_occ_cons_eq in Hd by reflexivity.
    apply pointIndexFrom_seen; unfold dots; lia.
  - apply IH; [lia|]. unfold dots in *. rewrite count_occ_cons_neq in Hd; auto.
Qed.

Lemma pointIndexFrom_none (l : list ascii) : forall i p,
  dots l = 0%nat -> pointIndexFrom (ofList l) i p = Some p.
Proof.
  induction l as [|c l IH]; intros i p Hd; [reflexivity|].
  cbn [string_of_list_ascii pointIndexFrom]. unfold dots in *.
  destruct (Ascii.eqb_spec c ".") as [->|Hc].
  - rewrite count_occ_cons_eq in Hd by reflexivity. discriminate.
  - rewrite count_occ_cons_neq in Hd by auto. now apply IH.
Qed.

(** A mantissa with one point: the point's index, and the digits on its two
    sides. *)
Lemma pointIndexFrom_single (a b : list ascii) : forall i,
  dots a = 0%nat -> dots b = 0%nat ->
  pointIndexFrom (ofList (a ++ "."%char :: b)) i (-1) =
  Some (i + Z.of_nat (List.length a)).
Proof.
  induction a as [|c a IH]; intros i Ha Hb.
  - cbn [app string_of_list_ascii pointIndexFrom].
    change (Ascii.eqb "." ".") with true. cbn iota.
    change (-1 <? -1) with false. cbn iota.
    rewrite pointIndexFrom_none by exact Hb. simpl. f_equal. lia.
  - cbn [app string_of_list_ascii pointIndexFrom]. unfold dots in *.
    destruct (Ascii.eqb_spec c ".") as [->|Hc].
    + rewrite count_occ_cons_eq in Ha by reflexivity. discriminate.
    + rewrite count_occ_cons_neq in Ha by auto. rewrite IH by assumption.
      f_equal. change (List.length (c :: a)) with (S (List.length a)). lia.
Qed.

(** A list of bytes has no point, one point, or two and more. *)
Lemma dots_cases (l : list ascii) :
  dots l = 0%nat \/
  (exists a b, l = a ++ "."%char :: b /\ dots a = 0%nat /\ dots b = 0%nat) \/
  (2 <= dots l)%nat.
Proof.
  induction l as [|c l IH]; [now left|]. unfold dots in *.
  destruct (ascii_dec c ".") as [->|Hc].
  - rewrite count_occ_cons_eq by reflexivity.
    destruct IH as [H0|[(a & b & -> & Ha & Hb)|H2]].
    + right. left. exists [], l. auto.
    + right. right. rewrite count_occ_app, count_occ_cons_eq by reflexivity. lia.
    + right. right. lia.
  - rewrite count_occ_cons_neq by auto.
    destruct IH as [H0|[(a & b & -> & Ha & Hb)|H2]]; auto.
    right. left. exists (c :: a), b. repeat split; auto.
    rewrite count_occ_cons_neq; auto.
Qed.

(** The mantissa is not read when it holds two points or a foreign byte. *)
Lemma mantissa_None (v : list ascii) (exp0 : Z) :
  (2 <= dots v)%nat \/ (exists c, In c v /\ foreign c = true) ->
  mantissa (ofList v) exp0 = None.
Proof.
  intros H. unfold mantissa, pointIndex.
  destruct (dots_cases v) as [H0|[(a & b & -> & Ha & Hb)|H2]].
  - rewrite pointIndexFrom_none by exact H0. cbn [bind].
    change (-1 =? -1) with true. cbn iota.
    destruct H as [H|(c & Hin & Hc)]; [lia|].
    unfold foreign in Hc. apply andb_true_iff in Hc. destruct Hc as (Hd & Hs).
    apply negb_true_iff in Hd, Hs.
    rewrite (parseDigits_None v c); auto; intros ->; discriminate.
  - rewrite pointIndexFrom_single by assumption. cbn [bind]. rewrite Z.add_0_l.
    assert ((Z.of_nat (List.length a) =? -1) = false) as -> by (apply Z.eqb_neq; lia).
    destruct H as [H|(c & Hin & Hc)].
    { unfold dots in *. rewrite count_occ_app, count_occ_cons_eq in H by reflexivity. lia. }
    unfold foreign in Hc. apply andb_true_iff in Hc. destruct Hc as (Hd & Hs).
    apply negb_true_iff in Hd, Hs.
    assert (c <> "."%char) as Hdot by (intros ->; discriminate).
    assert (In c (a ++ b)) as Hin'.
    { apply in_app_or in Hin. apply in_or_app.
      destruct Hin as [Hin|[E|Hin]]; auto. congruence. }
    rewrite sliceTo_app.
    replace (a ++ "."%char :: b) with ((a ++ ["."%char]) ++ b)
      by (rewrite <- app_assoc; reflexivity).
    replace (Z.of_nat (List.length a) + 1) with (Z.of_nat (List.length (a ++ ["."%char])))
      by (rewrite length_app; simpl; lia).
    rewrite sliceFrom_app.
    match goal with |- context [?x <? ?y] => destruct (Z.ltb_spec x y) as [Hlt|Hge] end.
    + rewrite <- ofList_app. rewrite (parseDigits_None (a ++ b) c); auto;
        intros ->; discriminate.
    + assert (b = []) as ->.
      { rewrite len_ofList, !length_app in Hge. destruct b; [reflexivity|].
        simpl in Hge. lia. }
      rewrite app_nil_r in Hin'.
      rewrite (parseDigits_None a c); auto; intros ->; discriminate.
  - now rewrite pointIndexFrom_two by (auto; lia).
Qed.

(** The first mark of an exponent splits a literal into mantissa and
    exponent. *)
Lemma exponent_cases (l : list ascii) :
  noE l = true \/
  exists a e b, l = a ++ e :: b /\ noE a = true /\ strings.inChars e "Ee" = true.
Proof.
  induction l as [|c l IH]; [now left|].
  destruct (strings.inChars c "Ee") eqn:Ec.
  - right. exists [], c, l. auto.
  - destruct IH as [H|(a & e & b & -> & Ha & He)].
    + left. cbn [forallb]. now rewrite Ec, H.
    + right. exists (c :: a), e, b. repeat split; auto.
      cbn [forallb]. now rewrite Ec, Ha.
Qed.

Lemma indexAnyFrom_found (a : list ascii) (e : ascii) (b : list ascii) : forall i,
  noE a = true -> strings.inChars e "Ee" = true ->
  strings.indexAnyFrom (ofList (a ++ e :: b)) "Ee" i = i + Z.of_nat (List.length a).
Proof.
  induction a as [|c a IH]; intros i Ha He.
  - cbn [app string_of_list_ascii strings.indexAnyFrom]. rewrite He. simpl. lia.
  - cbn [forallb] in Ha. apply andb_true_iff in Ha. destruct Ha as (Hc & Ha).
    apply negb_true_iff in Hc.
    cbn [app string_of_list_ascii strings.indexAnyFrom]. rewrite Hc, IH by assumption.
    change (List.length (c :: a)) with (S (List.length a)). lia.
Qed.

(** NewFromString fails on a literal with two points or a foreign byte. *)
Lemma NewFromString_None (l : list ascii) :
  (2 <= dots l)%nat \/ (exists c, In c l /\ foreign c = true) ->
  NewFromString (ofList l) = None.
Proof.
  intros H. rewrite NewFromString_mantissa. cbv zeta. unfold strings.IndexAny.
  destruct (exponent_cases l) as [HnoE|(a & e & b & -> & Ha & He)].
  - rewrite indexAnyFrom_none by exact HnoE.
    change (negb (-1 =? -1)) with false. cbn iota. cbn [bind fst snd].
    now apply mantissa_None.
  - rewrite indexAnyFrom_found by assumption. rewrite Z.add_0_l.
    assert (negb (Z.of_nat (List.length a) =? -1) = true) as ->
      by (apply negb_true_iff, Z.eqb_neq; lia).
    rewrite sliceTo_app.
    replace (a ++ e :: b) with ((a ++ [e]) ++ b) by (rewrite <- app_assoc; reflexivity).
    replace (Z.of_nat (List.length a) + 1) with (Z.of_nat (List.length (a ++ [e])))
      by (rewrite length_app; simpl; lia).
    rewrite sliceFrom_app.
    assert (e <> "."%char) as Hedot by (intros ->; discriminate).
    (* where the two points, or the foreign byte, are *)
    assert ((1 <= dots b)%nat \/ (exists c, In c b /\ foreign c = true) \/
            (2 <= dots a)%nat \/ (exists c, In c a /\ foreign c = true)) as Hwhere.
    { destruct H as [H|(c & Hin & Hc)].
      - unfold dots in *.
        rewrite count_occ_app, count_occ_cons_neq in H by auto. lia.
      - apply in_app_or in Hin. destruct Hin as [Hin|[E|Hin]]; eauto 6.
        subst c. exfalso. revert He Hc. clear.
        destruct e as [[] [] [] [] [] [] [] []]; intros H1 H2;
          try discriminate H1; discriminate H2. }
    destruct Hwhere as [Hb|[(c & Hin & Hc)|Hm]].
    + assert (In "."%char b) as Hin
        by (apply (count_occ_In ascii_dec); unfold dots in Hb; lia).
      rewrite (ParseInt_None b "."); auto; discriminate.
    + unfold foreign in Hc. apply andb_true_iff in Hc. destruct Hc as (Hd & Hs).
      apply negb_true_iff in Hd, Hs.
      rewrite (ParseInt_None b c); auto; intros ->; discriminate.
    + destruct (strconv.ParseInt (ofList b) 32); [|reflexivity].
      cbn [bind fst snd]. now apply mantissa_None.
Qed.

Lemma dots_normalized (l : list ascii) :
  dots (normalized l) = count_occ ascii_dec l ","%char.
Proof.
  unfold dots, normalized. induction l as [|c l IH]; [reflexivity|].
  cbn [filter]. destruct (Ascii.eqb_spec c ".") as [->|Hdot]; cbn [negb map].
  - rewrite count_occ_cons_neq by discriminate. exact IH.
  - destruct (Ascii.eqb_spec c ",") as [->|Hcomma].
    + rewrite !count_occ_cons_eq by reflexivity. now rewrite IH.
    + rewrite !count_occ_cons_neq by auto. exact IH.
Qed.

Lemma In_normalized (l : list ascii) (c : ascii) :
  In c l -> c <> "."%char -> c <> ","%char -> In c (normalized l).
Proof.
  intros Hin Hdot Hcomma. unfold normalized.
  apply in_map_iff. exists c. split.
  - apply Ascii.eqb_neq in Hcomma. now rewrite Hcomma.
  - apply filter_In. split; [exact Hin|]. apply negb_true_iff. now apply Ascii.eqb_neq.
Qed.

(** A literal with two commas or more is read as zero: so is a number
    written with commas between its thousands, as 1,234,567. *)
Theorem parseDecimal_two_commas (n : llm.Number) :
  (2 <= count_occ ascii_dec (list_ascii_of_string n) ","%char)%nat ->
  llm.parseDecimal n = Zero.
Proof.
  intros H. rewrite <- (ofList_bytes n).
  rewrite parseDecimal_normalized by (intros E; rewrite E in H; simpl in H; lia).
  rewrite NewFromString_None; [reflexivity|].
  left. now rewrite dots_normalized.
Qed.

Lemma parseDecimal_two_commas_witness :
  llm.parseDecimal "1,234,567" = Zero.
Proof. apply parseDecimal_two_commas. vm_compute. lia. Defined.

(** A literal that holds any byte other than a digit, a sign, a dot, a
    comma, [e] or [E] is read as zero: a percent sign, a blank or a
    currency mark beside the digits costs the whole number. *)
Theorem parseDecimal_foreign_byte (n : llm.Number) (c : ascii) :
  In c (list_ascii_of_string n) ->
  strings.inChars c "0123456789+-.,eE" = false ->
  llm.parseDecimal n = Zero.
Proof.
  intros Hin Hc. rewrite <- (ofList_bytes n).
  rewrite parseDecimal_normalized by (intros E; rewrite E in Hin; contradiction).
  rewrite NewFromString_None; [reflexivity|].
  right. exists c. split.
  - apply In_normalized; [exact Hin| |]; intros ->; discriminate.
  - revert Hc. clear. destruct c as [[] [] [] [] [] [] [] []]; intros H;
      try discriminate H; reflexivity.
Qed.

Lemma parseDecimal_foreign_byte_witness :
  llm.parseDecimal "10%" = Zero /\ llm.parseDecimal "1 500 000" = Zero.
Proof.
  split.
  - apply (parseDecimal_foreign_byte "10%" "%"); [right; right; left|]; reflexivity.
  - apply (parseDecimal_foreign_byte "1 500 000" " "); [right; left|]; reflexivity.
Defined.

End NumberProps.

Module NormalizerProps.
Import model.

Section Invariants.
Context {std : GoStd}.

(** What every converted invoice satisfies, whatever the response: the
    currency is set ("VND" by default), the provider is UNKNOWN, type and
    document type are among the known ones, there is one line item per
    response item, and the number is the invoice number or, without one, the
    receipt number. *)
Theorem convertToInvoice_invariants (resp : llm.LLMResponse.t) :
  let inv := llm.convertToInvoice resp in
  Invoice.Currency inv <> "" /\
  (llm.LLMResponse.Currency resp <> "" ->
   Invoice.Currency inv = llm.LLMResponse.Currency resp) /\
  Invoice.Provider inv = ProviderUnknown /\
  In (Invoice.Type_ inv) [InvoiceTypeNormal; InvoiceTypeReplacement; InvoiceTypeAdjustment] /\
  In (Invoice.DocumentType inv) [DocumentTypeInvoice; DocumentTypeReceipt] /\
  List.length (Invoice.Items inv) = List.length (llm.LLMResponse.Items resp) /\
  (Invoice.Number inv = "" <->
   llm.LLMResponse.InvoiceNumber resp = "" /\ llm.LLMResponse.ReceiptNumber resp = "").
Proof.
  cbv zeta. unfold llm.convertToInvoice.
  cbn [Invoice.Currency Invoice.Provider Invoice.Type_ Invoice.DocumentType
       Invoice.Items Invoice.Number].
  repeat split.
  - destruct (String.eqb_spec (llm.LLMResponse.Currency resp) ""); [discriminate|assumption].
  - intros H. apply String.eqb_neq in H. now rewrite H.
  - unfold llm.parseInvoiceType. repeat (destruct (String.eqb _ _)); simpl; auto.
  - unfold llm.parseDocumentType. destruct (String.eqb _ _); simpl; auto.
  - apply length_map.
  - destruct (String.eqb_spec (llm.LLMResponse.InvoiceNumber resp) ""); congruence.
  - destruct (String.eqb_spec (llm.LLMResponse.InvoiceNumber resp) ""); tauto.
  - intros (H1 & H2). rewrite H1. exact H2.
Qed.

(** Two responses that differ only in [total_discount] and in the buyer's
    bank account and bank name: the one with these three replaced. *)
Definition withUnread (resp : llm.LLMResponse.t) (totalDiscount : llm.Number)
    (bankAccount bankName : string) : llm.LLMResponse.t :=
  let b := llm.LLMResponse.Buyer resp in
  llm.LLMResponse.mk
    (llm.LLMResponse.InvoiceNumber resp) (llm.LLMResponse.Series resp)
    (llm.LLMResponse.Date resp) (llm.LLMResponse.Type_ resp)
    (llm.LLMResponse.Seller resp)
    (llm.LLMParty.mk (llm.LLMParty.Name b) (llm.LLMParty.TaxID b) (llm.LLMParty.Address b)
       (llm.LLMParty.Phone b) (llm.LLMParty.Email b) bankAccount bankName)
    (llm.LLMResponse.Items resp) (llm.LLMResponse.Subtotal resp)
    totalDiscount
    (llm.LLMResponse.TotalVAT resp) (llm.LLMResponse.TotalAmount resp)
    (llm.LLMResponse.Currency resp) (llm.LLMResponse.PaymentMethod resp)
    (llm.LLMResponse.Notes resp) (llm.LLMResponse.DocumentType resp)
    (llm.LLMResponse.ReceiptNumber resp) (llm.LLMResponse.Cashier resp)
    (llm.LLMResponse.TerminalID resp) (llm.LLMResponse.Time_ resp)
    (llm.LLMResponse.AmountTendered resp) (llm.LLMResponse.Change resp).

(** convertToInvoice never reads the response's [total_discount] nor the
    buyer's bank account and bank name: whatever they hold, the invoice is
    the same. *)
Theorem convertToInvoice_unread_fields (resp : llm.LLMResponse.t)
    (totalDiscount : llm.Number) (bankAccount bankName : string) :
  llm.convertToInvoice (withUnread resp totalDiscount bankAccount bankName) =
  llm.convertToInvoice resp.
Proof. destruct resp as [? ? ? ? ? [] ? ? ? ? ? ? ? ? ? ? ? ? ? ? ?]. reflexivity. Qed.

End Invariants.

End NormalizerProps.

(** ** The pipeline *)

Module PipelineProps.
Import processor PipelineFacts DetectFormatClaims StringFacts.

(** A Result as the entry points build it: an invoice with one of the three
    methods at its confidence and no error, or an error with no invoice, no
    method and confidence 0. *)
Definition wellFormed (r : Result.t) : Prop :=
  ((exists inv, Result.Invoice r = Some inv) /\ Result.Error r = None /\
   ((Result.Method r = MethodXML /\ Result.Confidence r = 1.0%float) \/
    (Result.Method r = MethodLLMText /\ Result.Confidence r = 0.85%float) \/
    (Result.Method r = MethodLLMVision /\ Result.Confidence r = 0.80%float))) \/
  (Result.Invoice r = None /\ (exists err, Result.Error r = Some err) /\
   Result.Method r = "" /\ Result.Confidence r = 0%float).

(** The place of a call in a run of ProcessPDF. *)
Definition stage (c : Call) : nat :=
  match c with
  | CallXMLParse _ => 0
  | CallExtractBytes _ => 1
  | CallChatText _ _ _ => 2
  | CallConvertToImages _ => 3
  | CallChatWithImage _ _ _ _ _ => 4
  end.

(** Are the calls in the order of their stages, each stage at most once,
    none before stage [from]? *)
Fixpoint inOrder (from : nat) (calls : list Call) : bool :=
  match calls with
  | [] => true
  | c :: calls' => (from <=? stage c)%nat && inOrder (S (stage c)) calls'
  end.

Lemma inOrder_weaken (calls : list Call) (from k : nat) :
  (from <= k)%nat -> inOrder k calls = true -> inOrder from calls = true.
Proof.
  destruct calls as [|c calls]; [reflexivity|]. cbn [inOrder]. intros Hle H.
  apply andb_true_iff in H. destruct H as (Hc & H). rewrite H, andb_true_r.
  apply Nat.leb_le in Hc. apply Nat.leb_le. lia.
Qed.

Lemma inOrder_app (from : nat) (l1 l2 : list Call) (k : nat) :
  (from <= k)%nat ->
  inOrder from l1 = true -> Forall (fun c => (stage c < k)%nat) l1 ->
  inOrder k l2 = true -> inOrder from (l1 ++ l2) = true.
Proof.
  revert from. induction l1 as [|c l1 IH]; intros from Hle H1 Hf H2.
  - now apply (inOrder_weaken l2 from k).
  - cbn [app inOrder] in *. apply andb_true_iff in H1. destruct H1 as (Hc & H1).
    inversion Hf; subst. rewrite Hc. cbn [andb]. apply IH; auto.
Qed.

Lemma stage_bound (c : Call) : (stage c <= 4)%nat.
Proof. destruct c; simpl; lia. Qed.

Lemma inOrder_length (calls : list Call) : forall from,
  inOrder from calls = true -> (List.length calls <= 5 - from)%nat.
Proof.
  induction calls as [|c calls IH]; intros from H; [simpl; lia|].
  cbn [inOrder] in H. apply andb_true_iff in H. destruct H as (Hc & H).
  apply Nat.leb_le in Hc. specialize (IH _ H). pose proof (stage_bound c).
  simpl List.length. lia.
Qed.

Ltac wf_failed :=
  right; split; [reflexivity|]; split; [eexists; reflexivity|]; split; reflexivity.

Ltac wf_text :=
  left; split; [eexists; reflexivity|]; split; [reflexivity|];
  right; left; split; reflexivity.

Ltac wf_vision :=
  left; split; [eexists; reflexivity|]; split; [reflexivity|];
  right; right; split; reflexivity.

Section Props.
Context {std : GoStd} {client : llm.Client} {pdfExtractor : pdf.Extractor}
        {xmlRegistry : XMLRegistry}.

(** What the text stage asks of its collaborators, and what it returns. *)
Lemma tryLLMTextExtraction_run (e : llm.Extractor.t) (pdfData : list byte)
    (tr : list Call) :
  exists r calls,
    tryLLMTextExtraction e pdfData tr = (r, tr ++ calls) /\
    wellFormed r /\
    (Result.Method r = MethodLLMText \/ Result.Method r = "") /\
    (calls = [CallExtractBytes pdfData] \/
     exists prompt,
       calls = [CallExtractBytes pdfData;
                CallChatText (llm.Extractor.textModel e) llm.SystemPromptInvoiceExtractor
                  prompt]).
Proof.
  unfold tryLLMTextExtraction, bindT, call, ret.
  destruct (pdf.ExtractBytes pdfData) as [extracted|err].
  - destruct (String.eqb (pdf.RawText extracted) "").
    + eexists. eexists. split; [reflexivity|]. split; [|split; [now right|now left]].
      wf_failed.
    + unfold llm.ExtractFromOCRText, bindT, call, ret.
      destruct (llm.ChatText _ _ _) as [response|err].
      * unfold llm.parseResponse.
        destruct (llm.decodeJSON response) as [llmResp|err];
          eexists; eexists; rewrite <- app_assoc; (split; [reflexivity|]).
        -- split; [|split; [now left|right; eexists; reflexivity]].
           wf_text.
        -- split; [|split; [now right|right; eexists; reflexivity]].
           wf_failed.
      * eexists; eexists; rewrite <- app_assoc; (split; [reflexivity|]).
        split; [|split; [now right|right; eexists; reflexivity]].
        wf_failed.
  - eexists. eexists. split; [reflexivity|]. split; [|split; [now right|now left]].
    wf_failed.
Qed.

Lemma extractFromImage_run (e : llm.Extractor.t) (imageData : list byte)
    (mime : string) (tr : list Call) :
  exists r,
    extractFromImage e imageData mime tr =
      (Some r, tr ++ [CallChatWithImage (llm.Extractor.visionModel e)
                        llm.SystemPromptInvoiceExtractor llm.UserPromptImageExtraction
                        imageData mime]) /\
    wellFormed r /\
    (Result.Method r = MethodLLMVision \/ Result.Method r = "").
Proof.
  unfold extractFromImage, llm.ExtractFromImage, bindT, call, ret.
  destruct (llm.ChatWithImage _ _ _ _ _) as [response|err]; simpl.
  - unfold llm.parseResponse.
    destruct (llm.decodeJSON response) as [llmResp|err]; simpl;
      eexists; (split; [reflexivity|]).
    + split; [|now left]. wf_vision.
    + split; [|now right]. wf_failed.
  - eexists; (split; [reflexivity|]). split; [|now right]. wf_failed.
Qed.

(** Is [data] taken for a PDF by the vision stage? *)
Definition takenForPDF (data : list byte) (mimeType : string) : bool :=
  String.eqb mimeType "application/pdf" ||
  ((4 <=? lenb data) && String.eqb (stringOfPrefix data 4) "%PDF").

(** What the vision stage sends.  Data that is not a PDF goes to the model
    as it is, under the MIME type the caller gave, and nothing is rendered.
    A PDF is rendered; when that fails the model is not called; otherwise
    the first page alone goes to the model, under the MIME type its magic
    bytes show, and the other pages are not sent. *)
Theorem tryLLMVisionExtraction_requests (e : llm.Extractor.t) (data : list byte)
    (mimeType : string) (tr : list Call) :
  let image d m :=
    CallChatWithImage (llm.Extractor.visionModel e) llm.SystemPromptInvoiceExtractor
      llm.UserPromptImageExtraction d m in
  snd (tryLLMVisionExtraction e data mimeType tr) =
    tr ++
    (if takenForPDF data mimeType
     then
       match pdf.ConvertToImages (pdf.rendering data) with
       | Ok (first :: _) =>
         [CallConvertToImages data; image first (detectImageMimeType first)]
       | _ => [CallConvertToImages data]
       end
     else [image data mimeType]).
Proof.
  cbv zeta. unfold tryLLMVisionExtraction. fold (takenForPDF data mimeType).
  destruct (takenForPDF data mimeType).
  - unfold bindT at 1. unfold call.
    pose proof (ConvertToImages_nonempty (pdf.rendering data)) as Hne.
    destruct (pdf.ConvertToImages (pdf.rendering data)) as [[|first rest]|err];
      [congruence| |reflexivity].
    destruct (extractFromImage_run e first (detectImageMimeType first)
                (tr ++ [CallConvertToImages data])) as (r & -> & _).
    simpl. now rewrite <- app_assoc.
  - destruct (extractFromImage_run e data mimeType tr) as (r & -> & _). reflexivity.
Qed.

Lemma tryLLMVisionExtraction_run (e : llm.Extractor.t) (data : list byte)
    (mimeType : string) (tr : list Call) :
  exists r calls,
    tryLLMVisionExtraction e data mimeType tr = (Some r, tr ++ calls) /\
    wellFormed r /\
    (Result.Method r = MethodLLMVision \/ Result.Method r = "") /\
    inOrder 3 calls = true.
Proof.
  unfold tryLLMVisionExtraction.
  destruct (_ || _).
  - unfold bindT at 1. unfold call.
    pose proof (ConvertToImages_nonempty (pdf.rendering data)) as Hne.
    destruct (pdf.ConvertToImages (pdf.rendering data)) as [[|first rest]|err];
      [congruence| |].
    + destruct (extractFromImage_run e first (detectImageMimeType first)
                  (tr ++ [CallConvertToImages data])) as (r & -> & Hw & Hm).
      exists r. eexists. rewrite <- app_assoc. split; [reflexivity|].
      repeat split; auto.
    + eexists. exists [CallConvertToImages data]. unfold ret.
      split; [reflexivity|]. split; [wf_failed|].
      split; [now right|reflexivity].
  - destruct (extractFromImage_run e data mimeType tr) as (r & -> & Hw & Hm).
    exists r. eexists. split; [reflexivity|].
    repeat split; auto.
Qed.

(** A run of ProcessPDF, from the trace [tr]: what it returns and the calls
    it adds. *)
Lemma ProcessPDF_run (p : Pipeline) (r : option (result (list byte)))
    (imageData : list byte) (mimeType : string) (tr : list Call) :
  exists res calls,
    ProcessPDF p r imageData mimeType tr = (Some res, tr ++ calls) /\
    wellFormed res /\
    Result.Method res <> MethodXML /\
    inOrder 1 calls = true.
Proof.
  unfold ProcessPDF.
  destruct (llmExtractor p) as [e|].
  2:{ eexists. exists []. rewrite app_nil_r. split; [reflexivity|].
      split; [wf_failed|]. split; [discriminate|reflexivity]. }
  destruct (readPDFData r imageData) as [pdfData|err].
  2:{ eexists. exists []. rewrite app_nil_r. split; [reflexivity|].
      split; [wf_failed|]. split; [discriminate|reflexivity]. }
  unfold bindT at 1.
  destruct (tryLLMTextExtraction_run e pdfData tr) as (tres & tcalls & -> & Htw & Htm & Htc).
  assert (inOrder 1 tcalls = true /\
          Forall (fun c => (stage c < 3)%nat) tcalls) as (Hts & Htf).
  { destruct Htc as [->|(prompt & ->)]; split; try reflexivity;
      repeat constructor. }
  assert (Result.Method tres <> MethodXML) as Htx
    by (destruct Htm as [-> | ->]; discriminate).
  assert (forall (textErr : option error) (textWarnings : list string) tr1,
    exists res calls,
      (v <~ tryLLMVisionExtraction e pdfData mimeType ;;
       match v with
       | None => ret None
       | Some visionResult =>
         match Result.Invoice visionResult with
         | Some _ => ret (Some visionResult)
         | None =>
           let warnings :=
             match Result.Error visionResult with
             | Some _ => textWarnings ++ Result.Warnings visionResult
             | None => textWarnings
             end in
           match Result.Error visionResult, textErr with
           | Some _, _ =>
             ret (Some (Result.mk None "" 0%float warnings
                    (Some ("PDF extraction failed (text: " ++ fmtV (textErr)
                           ++ ", vision: " ++ fmtV (Result.Error visionResult) ++ ")")%string)))
           | None, Some terr =>
             ret (Some (Result.mk None "" 0%float (textWarnings)
                    (Some ("PDF extraction failed: " ++ terr)%string)))
           | None, None =>
             ret (Some (Result.mk None "" 0%float [] (Some "PDF extraction failed")))
           end
         end
       end) tr1 = (Some res, tr1 ++ calls) /\
      wellFormed res /\ Result.Method res <> MethodXML /\
      inOrder 3 calls = true) as Hvision.
  { intros textErr textWarnings tr1. unfold bindT.
    destruct (tryLLMVisionExtraction_run e pdfData mimeType tr1)
      as (vres & vcalls & -> & Hvw & Hvm & Hvs).
    assert (Result.Method vres <> MethodXML) as Hvx
      by (destruct Hvm as [-> | ->]; discriminate).
    destruct (Result.Invoice vres) eqn:Hvi.
    - exists vres, vcalls. auto.
    - destruct (Result.Error vres); [|destruct textErr];
        eexists; exists vcalls; (split; [reflexivity|]);
        (split; [wf_failed|]); repeat split; auto; discriminate. }
  destruct (Result.Invoice tres) as [tinv|] eqn:Hi;
    [destruct (Result.Error tres) as [terr|] eqn:He|].
  - destruct (Hvision (Some terr) (Result.Warnings tres) (tr ++ tcalls))
      as (res & vcalls & Hrun & Hw & Hx & Hs).
    exists res, (tcalls ++ vcalls). rewrite app_assoc. split; [exact Hrun|].
    repeat split; auto. apply (inOrder_app 1 tcalls vcalls 3); auto.
  - exists tres, tcalls. split; [reflexivity|]. repeat split; auto.
  - destruct (Hvision (Result.Error tres) (Result.Warnings tres) (tr ++ tcalls))
      as (res & vcalls & Hrun & Hw & Hx & Hs).
    exists res, (tcalls ++ vcalls). rewrite app_assoc. split; [exact Hrun|].
    repeat split; auto. apply (inOrder_app 1 tcalls vcalls 3); auto.
Qed.


(** Every entry point returns a well-formed Result, and does not panic
    where its collaborators return: an invoice without error, under the method that found it and that method's
    confidence (xml 1.0, llm_text 0.85, llm_vision 0.80), or an error without
    invoice, with no method and confidence 0.  ProcessPDF never answers with
    method xml, ProcessImage with llm_vision only, the XML entry points with
    xml only. *)
Theorem results_are_well_formed (p : Pipeline) (r : option (result (list byte)))
    (x : result (list byte)) (data imageData : list byte) (mimeType : string)
    (tr : list Call) :
  (exists res,
     fst (ProcessPDF p r imageData mimeType tr) = Some res /\
     wellFormed res /\ Result.Method res <> MethodXML) /\
  (exists res,
     fst (ProcessImage p imageData mimeType tr) = Some res /\
     wellFormed res /\ (Result.Method res = MethodLLMVision \/ Result.Method res = "")) /\
  (wellFormed (fst (ProcessXML x tr)) /\
   (Result.Method (fst (ProcessXML x tr)) = MethodXML \/
    Result.Method (fst (ProcessXML x tr)) = "")) /\
  (wellFormed (fst (ProcessXMLBytes data tr)) /\
   (Result.Method (fst (ProcessXMLBytes data tr)) = MethodXML \/
    Result.Method (fst (ProcessXMLBytes data tr)) = "")).
Proof.
  assert (forall d, wellFormed (fst (ProcessXMLBytes d tr)) /\
                    (Result.Method (fst (ProcessXMLBytes d tr)) = MethodXML \/
                     Result.Method (fst (ProcessXMLBytes d tr)) = "")) as Hxml.
  { intros d. unfold ProcessXMLBytes, bindT, call, ret.
    destruct (Parse d) as [inv|err]; simpl; split; auto.
    - left. split; [eexists; reflexivity|]. split; [reflexivity|]. left. split; reflexivity.
    - wf_failed. }
  repeat split.
  - destruct (ProcessPDF_run p r imageData mimeType tr) as (res & calls & H & Hw & Hx & _).
    exists res. rewrite H. auto.
  - unfold ProcessImage. destruct (llmExtractor p) as [e|].
    + destruct (tryLLMVisionExtraction_run e imageData mimeType tr)
        as (res & calls & H & Hw & Hm & _).
      exists res. rewrite H. auto.
    + eexists. split; [reflexivity|]. split; [wf_failed|now right].
  - destruct x as [d|err]; [apply Hxml|]. simpl. wf_failed.
  - destruct x as [d|err]; [apply Hxml|]. now right.
  - apply Hxml.
  - apply Hxml.
Qed.

(** The calls of one run of ProcessPDF come in the order text reader, text
    request to the model, rasterizer, image request to the model, each at
    most once; the XML registry is never called. *)
Theorem ProcessPDF_calls_in_order (p : Pipeline) (r : option (result (list byte)))
    (imageData : list byte) (mimeType : string) (tr : list Call) :
  exists calls,
    snd (ProcessPDF p r imageData mimeType tr) = tr ++ calls /\
    inOrder 1 calls = true /\
    (List.length calls <= 4)%nat.
Proof.
  destruct (ProcessPDF_run p r imageData mimeType tr) as (res & calls & H & _ & _ & Hs).
  exists calls. rewrite H. repeat split; auto.
  pose proof (inOrder_length calls 1 Hs). lia.
Qed.

(** ProcessPDF answers with an error, and calls no collaborator, when the
    pipeline has no extractor, when reading the PDF fails, and when there
    is neither a reader nor image data; so does ProcessImage without
    extractor. *)
Theorem rejected_before_any_call (p : Pipeline) (r : option (result (list byte)))
    (imageData : list byte) (mimeType : string) (tr : list Call) :
  (llmExtractor p = None ->
   ProcessPDF p r imageData mimeType tr =
     (Some (Result.mk None "" 0%float []
              (Some "LLM extractor not configured - required for PDF processing")), tr) /\
   ProcessImage p imageData mimeType tr =
     (Some (Result.mk None "" 0%float [] (Some "LLM extractor not configured")), tr)) /\
  (forall e err,
     llmExtractor p = Some e -> r = Some (Err err) ->
     ProcessPDF p r imageData mimeType tr =
       (Some (Result.mk None "" 0%float [] (Some ("failed to read PDF: " ++ err)%string)), tr)) /\
  (forall e,
     llmExtractor p = Some e -> r = None -> imageData = [] ->
     ProcessPDF p r imageData mimeType tr =
       (Some (Result.mk None "" 0%float [] (Some "no PDF data provided")), tr)).
Proof.
  unfold ProcessPDF, ProcessImage. repeat split.
  - now rewrite H.
  - now rewrite H.
  - intros e err -> ->. reflexivity.
  - intros e -> -> ->. reflexivity.
Qed.

(** Where ProcessPDF takes the document from: with a reader, the image data
    is not looked at; without one, non-empty image data stands in for the
    bytes a reader would have given. *)
Theorem ProcessPDF_data_source (p : Pipeline) (rd : result (list byte))
    (imageData other : list byte) (mimeType : string) (tr : list Call) :
  ProcessPDF p (Some rd) imageData mimeType tr = ProcessPDF p (Some rd) other mimeType tr /\
  (imageData <> [] ->
   ProcessPDF p None imageData mimeType tr =
   ProcessPDF p (Some (Ok imageData)) other mimeType tr).
Proof.
  split; [reflexivity|].
  intros H. unfold ProcessPDF, readPDFData.
  assert ((0 <? lenb imageData) = true) as ->; [|reflexivity].
  apply Z.ltb_lt. destruct imageData; [contradiction|]. unfold lenb. simpl. lia.
Qed.

End Props.

(** detectImageMimeType knows two answers: image/png for data that starts
    with the PNG magic bytes, image/jpeg for everything else -- the empty
    slice and a TIFF, which DetectFormat takes for an image, included. *)
Theorem detectImageMimeType_png_or_jpeg (data : list byte) :
  (startsWith pngMagic data -> detectImageMimeType data = "image/png") /\
  (~ startsWith pngMagic data -> detectImageMimeType data = "image/jpeg") /\
  (startsWith tiffLittleEndian data \/ startsWith tiffBigEndian data ->
   detectImageMimeType data = "image/jpeg").
Proof.
  assert (~ startsWith pngMagic data -> detectImageMimeType data = "image/jpeg") as Hn.
  { intros H. unfold detectImageMimeType.
    rewrite (magic4_spec data _ _ _ _ x89 x50 x4e x47) by reflexivity.
    destruct (startsWithb [x89; x50; x4e; x47] data) eqn:E.
    - apply startsWithb_spec in E. contradiction.
    - rewrite andb_false_r. now destruct (_ && _). }
  repeat split; auto.
  - intros (rest & ->). unfold detectImageMimeType, pngMagic. cbn [app].
    assert ((4 <=? lenb (x89 :: x50 :: x4e :: x47 :: rest)) = true) as ->
      by (apply Z.leb_le; unfold lenb; simpl List.length; lia).
    now destruct (3 <=? _).
  - intros H. apply Hn. intros (rest' & E).
    destruct H as [(rest & ->)|(rest & ->)]; discriminate E.
Qed.

(** The substring test of the pipeline: [contains s substr] holds exactly
    when [substr] occurs in [s]; the empty string occurs in every string,
    and nothing longer than [s] occurs in it. *)
Theorem contains_occurs (s substr : string) :
  (contains s substr = true <-> occursIn substr s) /\
  contains s "" = true /\
  (len s < len substr -> contains s substr = false).
Proof.
  split; [apply contains_spec|]. split.
  - apply contains_spec. exists "", s. reflexivity.
  - intros H. destruct (contains s substr) eqn:E; [|reflexivity].
    apply contains_spec in E. destruct E as (pre & post & ->).
    unfold len in H. rewrite !length_append in H. lia.
Qed.

End PipelineProps.

(** ** The printability filter *)

Module PrintableProps.
Import pdf.

(** The comparison isPrintableText ends with. *)
Definition majority (printable n : Z) : bool :=
  PrimFloat.ltb 0.5%float (PrimFloat.div (float64 printable) (float64 n)).

(** Does the comparison in floating point agree with the one in integers,
    for [n] bytes and up to [p] printable characters among them? *)
Fixpoint agreesUpTo (p : nat) (n : Z) : bool :=
  Bool.eqb (majority (Z.of_nat p) n) (n <? 2 * Z.of_nat p) &&
  match p with
  | O => true
  | S p' => agreesUpTo p' n
  end.

(** ... and for every number of bytes from 1 to [n]? *)
Fixpoint agreesBelow (n : nat) : bool :=
  match n with
  | O => true
  | S n' => agreesUpTo n (Z.of_nat n) && agreesBelow n'
  end.

Lemma agreesUpTo_at (n : Z) (p : nat) :
  agreesUpTo p n = true ->
  forall q, (q <= p)%nat -> majority (Z.of_nat q) n = (n <? 2 * Z.of_nat q).
Proof.
  induction p as [|p IH]; cbn [agreesUpTo]; intros H q Hq;
    apply andb_true_iff in H; destruct H as (H0 & H).
  - assert (q = 0%nat) as -> by lia. now apply eqb_prop.
  - destruct (Nat.eq_dec q (S p)) as [->|Hne]; [now apply eqb_prop|].
    apply IH; [exact H|lia].
Qed.

Lemma agreesBelow_at (N : nat) :
  agreesBelow N = true ->
  forall n q, (1 <= n <= N)%nat -> (q <= n)%nat ->
    majority (Z.of_nat q) (Z.of_nat n) = (Z.of_nat n <? 2 * Z.of_nat q).
Proof.
  induction N as [|N IH]; cbn [agreesBelow]; intros H n q Hn Hq; [lia|].
  apply andb_true_iff in H. destruct H as (H0 & H).
  destruct (Nat.eq_dec n (S N)) as [->|Hne].
  - now apply (agreesUpTo_at _ (S N)).
  - apply IH; [exact H|lia|exact Hq].
Qed.

Lemma agrees_512 : agreesBelow 512 = true.
Proof. vm_compute. reflexivity. Qed.

(** There are no more runes than bytes, and no more printable ones than
    runes. *)
Lemma runesFrom_length (s : string) : forall skip,
  (List.length (utf8.runesFrom s skip) <= String.length s)%nat.
Proof.
  induction s as [|c s IH]; intros skip; cbn [utf8.runesFrom]; [simpl; lia|].
  destruct skip as [|k].
  - destruct (utf8.DecodeRuneInString c s) as (r, size). simpl.
    specialize (IH (size - 1)%nat). lia.
  - specialize (IH k). simpl. lia.
Qed.

Lemma countPrintable_bounds (rs : list Z) : forall printable,
  printable <= countPrintable rs printable <= printable + lenb rs.
Proof.
  unfold lenb. induction rs as [|r rs IH]; intros printable; cbn [countPrintable].
  - simpl. lia.
  - destruct (isPrintableRune r).
    + specialize (IH (printable + 1)). simpl List.length. lia.
    + specialize (IH printable). simpl List.length. lia.
Qed.

(** A text of up to 512 bytes is printable exactly when its printable
    characters are more than half as many as its bytes: the quotient in
    floating point decides as the integers do. *)
Theorem isPrintableText_majority (s : string) :
  len s <= 512 ->
  isPrintableText s = (len s <? 2 * countPrintable (utf8.runes s) 0).
Proof.
  intros Hlen. unfold isPrintableText.
  pose proof (countPrintable_bounds (utf8.runes s) 0) as Hc.
  pose proof (runesFrom_length s 0) as Hr. fold (utf8.runes s) in Hr.
  unfold lenb in Hc. unfold len in *.
  destruct (Z.eqb_spec (Z.of_nat (String.length s)) 0) as [E|E].
  - symmetry. apply Z.ltb_ge. lia.
  - cbv zeta. fold (majority (countPrintable (utf8.runes s) 0) (Z.of_nat (String.length s))).
    rewrite <- (Z2Nat.id (countPrintable (utf8.runes s) 0)) by lia.
    apply (agreesBelow_at 512 agrees_512); lia.
Qed.

Lemma isPrintableText_majority_witness :
  isPrintableText "Hello, 123" = (len "Hello, 123" <? 2 * countPrintable (utf8.runes "Hello, 123") 0).
Proof. apply isPrintableText_majority. vm_compute. discriminate. Defined.

End PrintableProps.

(** ** The PDF text miner *)

Module TextMinerProps.
Import pdf StringFacts.

(** unescapePDFString returns a string without backslash as it is, and
    never returns a string longer than the one it was given. *)
Theorem unescapePDFString_plain_and_shorter (s : string) :
  (strings.inChars backslash s = false -> unescapePDFString s = s) /\
  len (unescapePDFString s) <= len s.
Proof.
  split.
  - intros H. unfold unescapePDFString, escape. cbv zeta.
    now rewrite !(ReplaceAll_absent backslash _ _ s H).
  - unfold unescapePDFString, escape, len. cbv zeta.
    repeat match goal with
    | |- Z.of_nat (String.length (strings.ReplaceAll ?t ?old ?new)) <= _ =>
        apply Z.le_trans with (Z.of_nat (String.length t));
          [apply Nat2Z.inj_le, ReplaceAll_length; simpl; lia|]
    end.
    lia.
Qed.


Lemma replaceFrom_absent (c0 : ascii) (old' new t : string) :
  strings.inChars c0 t = false ->
  strings.replaceFrom (String c0 old') new t 0 = t.
Proof. apply ReplaceAll_absent. Qed.

Lemma prefix_nil (t : string) : String.prefix "" t = true.
Proof. now destruct t. Qed.

(** One pass over a pattern of two bytes: where it stands, and where its
    first byte is followed by another byte than its second. *)
Lemma replaceFrom_here (a b : ascii) (new t : string) :
  strings.replaceFrom (String a (String b "")) new (String a (String b t)) 0 =
  (new ++ strings.replaceFrom (String a (String b "")) new t 0)%string.
Proof.
  cbn [strings.replaceFrom String.prefix String.length Nat.sub].
  destruct (ascii_dec a a); [|congruence]. destruct (ascii_dec b b); [|congruence].
  rewrite prefix_nil. cbn [Nat.sub]. reflexivity.
Qed.

Lemma replaceFrom_not_here (a b c : ascii) (new t : string) :
  c <> b ->
  strings.replaceFrom (String a (String b "")) new (String a (String c t)) 0 =
  String a (strings.replaceFrom (String a (String b "")) new (String c t) 0).
Proof.
  intros H. cbn [strings.replaceFrom String.prefix].
  destruct (ascii_dec a a); [|congruence]. destruct (ascii_dec b c); [congruence|].
  reflexivity.
Qed.

Lemma replaceFrom_other (a b c : ascii) (new t : string) :
  c <> a ->
  strings.replaceFrom (String a (String b "")) new (String c t) 0 =
  String c (strings.replaceFrom (String a (String b "")) new t 0).
Proof.
  intros H. cbn [strings.replaceFrom]. now rewrite prefix_other.
Qed.

(** A backslash followed by a line feed is no escape sequence. *)
Lemma ReplaceAll_backslash_LF (b : ascii) (new s t : string) :
  b <> LF ->
  strings.inChars backslash s = false ->
  strings.inChars backslash t = false ->
  strings.ReplaceAll (s ++ String backslash (String LF t)) (String backslash (String b "")) new =
  (s ++ String backslash (String LF t))%string.
Proof.
  intros Hb Hs Ht. unfold strings.ReplaceAll.
  rewrite replaceFrom_app_absent by exact Hs.
  rewrite replaceFrom_not_here by congruence.
  rewrite replaceFrom_other by discriminate.
  now rewrite replaceFrom_absent.
Qed.

(** The escapes are replaced in six passes, the escaped backslash last.  So
    an escaped backslash followed by [n] -- a backslash and the letter n in
    the PDF -- has its second backslash taken with the [n] for a line feed
    in the first pass: the result is a backslash and a line feed. *)
Theorem unescapePDFString_escaped_backslash_then_n (s t : string) :
  strings.inChars backslash s = false ->
  strings.inChars backslash t = false ->
  unescapePDFString (s ++ escape backslash ++ "n" ++ t) =
  (s ++ String backslash (String LF t))%string.
Proof.
  intros Hs Ht. unfold unescapePDFString, escape. cbv zeta.
  assert (strings.ReplaceAll (s ++ String backslash (String backslash "") ++ "n" ++ t)
            (String backslash "n") (String LF "") =
          (s ++ String backslash (String LF t))%string) as ->.
  { unfold strings.ReplaceAll. rewrite replaceFrom_app_absent by exact Hs.
    cbn [append]. rewrite replaceFrom_not_here by discriminate.
    rewrite replaceFrom_here. now rewrite replaceFrom_absent. }
  rewrite !ReplaceAll_backslash_LF by (auto; discriminate). reflexivity.
Qed.

Lemma unescapePDFString_escaped_backslash_then_n_witness :
  unescapePDFString ("C:" ++ escape backslash ++ "n" ++ "ew") =
  ("C:" ++ String backslash (String LF "ew"))%string.
Proof. apply unescapePDFString_escaped_backslash_then_n; reflexivity. Defined.


(** *** Hexadecimal strings *)

(** The hexadecimal digit of a value below 16, as a capital or a small
    letter. *)
Definition hexChar (upper : bool) (d : Z) : ascii :=
  if d <? 10 then ascii_of_N (Z.to_N (byteVal "0" + d))
  else ascii_of_N (Z.to_N ((if upper then byteVal "A" else byteVal "a") + d - 10)).

(** The two hexadecimal digits of every byte of [s]. *)
Fixpoint toHex (upper : bool) (s : string) : string :=
  match s with
  | EmptyString => ""
  | String c s' =>
    String (hexChar upper (byteVal c / 16))
      (String (hexChar upper (byteVal c mod 16)) (toHex upper s'))
  end.

Section Hex.
Context {gofmt : GoFmt}.

Lemma scanHexByte_hexChar (upper : bool) (c : ascii) :
  scanHexByte (hexChar upper (byteVal c / 16)) (hexChar upper (byteVal c mod 16)) = c.
Proof.
  destruct upper; destruct c as [[] [] [] [] [] [] [] []]; reflexivity.
Qed.

Lemma hexToString_length_le (n : nat) : forall hex,
  (String.length hex <= n)%nat ->
  String.length (hexToString hex) = Nat.div2 (String.length hex).
Proof.
  induction n as [|n IH]; intros hex H.
  - destruct hex; [reflexivity|simpl in H; lia].
  - destruct hex as [|c1 [|c2 rest]]; try reflexivity.
    cbn [hexToString String.length Nat.div2]. f_equal. apply IH. simpl in H. lia.
Qed.

(** hexToString reads its argument two digits at a time: it returns one
    byte for every pair, whatever the pair holds, and leaves out a last
    digit without partner; the hexadecimal digits of a byte string, capital
    or small, give that byte string back. *)
Theorem hexToString_decodes (upper : bool) (s hex : string) (odd : ascii) :
  len (hexToString hex) = len hex / 2 /\
  hexToString (toHex upper s) = s /\
  hexToString (toHex upper s ++ String odd "") = s.
Proof.
  split; [|split].
  - unfold len. rewrite (hexToString_length_le (String.length hex)) by lia.
    rewrite Nat.div2_div, Nat2Z.inj_div. reflexivity.
  - induction s as [|c s IH]; [reflexivity|].
    cbn [toHex hexToString]. now rewrite scanHexByte_hexChar, IH.
  - induction s as [|c s IH]; [reflexivity|].
    cbn [toHex hexToString append]. now rewrite scanHexByte_hexChar, IH.
Qed.

End Hex.

(** *** The two scans of a content stream *)

Section Scans.

Lemma literalStrings_open (a : string) : forall m rest,
  strings.inChars ")" a = false ->
  literalStrings (a ++ String ")" rest) (Some m) =
  (m ++ a)%string :: literalStrings rest None.
Proof.
  induction a as [|c a IH]; intros m rest H.
  - cbn [append literalStrings]. change (Ascii.eqb ")" ")") with true. cbn iota.
    now rewrite append_nil_r.
  - cbn [strings.inChars] in H. apply orb_false_iff in H. destruct H as (Hc & Ha).
    cbn [append literalStrings]. rewrite Ascii.eqb_sym, Hc.
    rewrite IH by exact Ha. rewrite append_assoc. reflexivity.
Qed.

Lemma literalStrings_skip (p : string) : forall rest,
  strings.inChars "(" p = false ->
  literalStrings (p ++ rest) None = literalStrings rest None.
Proof.
  induction p as [|c p IH]; intros rest H; [reflexivity|].
  cbn [strings.inChars] in H. apply orb_false_iff in H. destruct H as (Hc & Hp).
  cbn [append literalStrings]. rewrite Ascii.eqb_sym, Hc. now apply IH.
Qed.

Lemma literalStrings_delimited (before a rest : string) :
  strings.inChars "(" before = false ->
  strings.inChars ")" a = false ->
  literalStrings (before ++ String "(" (a ++ String ")" rest)) None =
  a :: literalStrings rest None.
Proof.
  intros Hb Ha. rewrite literalStrings_skip by exact Hb.
  cbn [literalStrings]. change (Ascii.eqb "(" "(") with true. cbn iota.
  now rewrite literalStrings_open.
Qed.

Lemma literalStrings_no_closing (content : string) : forall open,
  match open with
  | Some m => strings.inChars ")" m = false
  | None => True
  end ->
  Forall (fun m => strings.inChars ")" m = false) (literalStrings content open).
Proof.
  induction content as [|c content IH]; intros open Ho; [constructor|].
  cbn [literalStrings]. destruct open as [m|].
  - destruct (Ascii.eqb c ")") eqn:E.
    + constructor; [exact Ho|]. now apply IH.
    + apply IH. rewrite inChars_app, Ho. cbn [strings.inChars].
      rewrite Ascii.eqb_sym, E. reflexivity.
  - destruct (Ascii.eqb c "("); now apply IH.
Qed.

(** A literal string is what stands between an opening parenthesis and the
    first closing parenthesis after it, whether that one is escaped or
    closes a nested pair: the scan takes it for the end and goes on behind
    it.  So no literal string holds a closing parenthesis. *)
Theorem literal_string_ends_at_first_closing_parenthesis (before a rest content : string) :
  (strings.inChars "(" before = false ->
   strings.inChars ")" a = false ->
   literalStrings (before ++ String "(" (a ++ String ")" rest)) None =
   a :: literalStrings rest None) /\
  Forall (fun m => strings.inChars ")" m = false) (literalStrings content None).
Proof.
  split.
  - apply literalStrings_delimited.
  - now apply literalStrings_no_closing.
Qed.

Lemma literal_string_ends_at_first_closing_parenthesis_witness :
  literalStrings ("BT " ++ String "(" (("Total " ++ escape "(" ++ "VND" ++ String backslash "")
                                        ++ String ")" ") Tj ET")) None =
  [("Total " ++ escape "(" ++ "VND" ++ String backslash "")%string].
Proof.
  apply (proj1 (literal_string_ends_at_first_closing_parenthesis "BT "
           ("Total " ++ escape "(" ++ "VND" ++ String backslash "") ") Tj ET" ""));
    reflexivity.
Defined.


Definition allHex (h : string) : bool :=
  forallb isHexDigit (list_ascii_of_string h).

Lemma hexDigit_not_angle (c : ascii) :
  isHexDigit c = true -> Ascii.eqb c "<" = false.
Proof. destruct c as [[] [] [] [] [] [] [] []]; intros H; try discriminate H; reflexivity. Qed.

Lemma hexStrings_open (h : string) : forall m rest,
  allHex h = true -> (m ++ h)%string <> "" ->
  hexStrings (h ++ String ">" rest) (Some m) =
  (m ++ h)%string :: hexStrings rest None.
Proof.
  unfold allHex. induction h as [|c h IH]; intros m rest H Hne.
  - rewrite append_nil_r in *. cbn [append hexStrings].
    change (Ascii.eqb ">" "<") with false. change (isHexDigit ">") with false.
    change (Ascii.eqb ">" ">") with true. cbn iota.
    apply String.eqb_neq in Hne. now rewrite Hne.
  - cbn [list_ascii_of_string forallb] in H. apply andb_true_iff in H.
    destruct H as (Hc & Hh).
    cbn [append hexStrings]. rewrite (hexDigit_not_angle c Hc), Hc.
    rewrite IH; [now rewrite append_assoc|exact Hh|].
    rewrite append_assoc. cbn [append]. destruct m; discriminate.
Qed.

Lemma hexStrings_skip (p : string) : forall rest,
  strings.inChars "<" p = false ->
  hexStrings (p ++ rest) None = hexStrings rest None.
Proof.
  induction p as [|c p IH]; intros rest H; [reflexivity|].
  cbn [strings.inChars] in H. apply orb_false_iff in H. destruct H as (Hc & Hp).
  cbn [append hexStrings]. rewrite Ascii.eqb_sym, Hc. now apply IH.
Qed.

Lemma allHex_no_parenthesis (h : string) :
  allHex h = true -> strings.inChars "(" h = false.
Proof.
  unfold allHex. induction h as [|c h IH]; intros H; [reflexivity|].
  cbn [list_ascii_of_string forallb] in H. apply andb_true_iff in H.
  destruct H as (Hc & Hh). cbn [strings.inChars]. rewrite IH by exact Hh.
  rewrite orb_false_r. revert Hc. clear.
  destruct c as [[] [] [] [] [] [] [] []]; intros H; try discriminate H; reflexivity.
Qed.

Section Order.
Context {std : GoStd} {gofmt : GoFmt}.

(** The text of a content stream is not in the order of the stream: all
    the literal strings come first, then all the hexadecimal strings.  A
    hexadecimal string followed by a literal string comes out behind it. *)
Theorem extractTextFromContentStream_literals_first (h t : string) :
  allHex h = true -> h <> "" ->
  strings.inChars ")" t = false -> strings.inChars "<" t = false ->
  extractTextFromContentStream (String "<" (h ++ String ">" (String "(" (t ++ String ")" "")))) =
  strings_TrimSpace
    ((if isPrintableText (unescapePDFString t) then unescapePDFString t ++ " " else "") ++
     (if isPrintableText (hexToString h) then hexToString h ++ " " else ""))%string.
Proof.
  intros Hh Hne Ht Ht'. unfold extractTextFromContentStream. cbv zeta.
  assert (literalStrings (String "<" (h ++ String ">" (String "(" (t ++ String ")" "")))) None =
          [t]) as ->.
  { change (String "<" (h ++ String ">" (String "(" (t ++ String ")" ""))))
      with ("<" ++ (h ++ String ">" (String "(" (t ++ String ")" ""))))%string.
    rewrite literalStrings_skip by reflexivity.
    replace (h ++ String ">" (String "(" (t ++ String ")" "")))%string
      with ((h ++ ">") ++ String "(" (t ++ String ")" ""))%string
      by (rewrite append_assoc; reflexivity).
    rewrite (literalStrings_delimited (h ++ ">") t "").
    - reflexivity.
    - rewrite inChars_app, allHex_no_parenthesis by exact Hh. reflexivity.
    - exact Ht. }
  assert (hexStrings (String "<" (h ++ String ">" (String "(" (t ++ String ")" "")))) None =
          [h]) as ->.
  { cbn [hexStrings]. change (Ascii.eqb "<" "<") with true. cbn iota.
    rewrite hexStrings_open by (auto).
    change (String "(" (t ++ String ")" "")) with ("(" ++ (t ++ ")"))%string.
    rewrite hexStrings_skip by reflexivity.
    rewrite <- (append_nil_r (t ++ ")")). rewrite hexStrings_skip.
    - reflexivity.
    - rewrite inChars_app, Ht'. reflexivity. }
  cbn [map writeTexts].
  destruct (isPrintableText (unescapePDFString t));
    destruct (isPrintableText (hexToString h)); cbn [append]; try reflexivity.
  now rewrite append_assoc.
Qed.

End Order.

End Scans.


(** *** Lines *)

Definition lineFeed : string := String LF "".

(** The pieces of [s] between line feeds, by recursion on [s]. *)
Lemma splitFrom_byte (c0 c : ascii) (s cur : string) :
  strings.splitFrom (String c0 "") (String c s) 0 cur =
  if Ascii.eqb c c0 then cur :: strings.splitFrom (String c0 "") s 0 ""
  else strings.splitFrom (String c0 "") s 0 (cur ++ String c "").
Proof.
  cbn [strings.splitFrom String.prefix String.length Nat.sub].
  destruct (ascii_dec c0 c) as [->|Hne].
  - rewrite Ascii.eqb_refl, prefix_nil. reflexivity.
  - apply not_eq_sym in Hne. apply Ascii.eqb_neq in Hne. now rewrite Hne.
Qed.

Lemma splitFrom_nonempty (sep s : string) : forall skip cur,
  strings.splitFrom sep s skip cur <> [].
Proof.
  induction s as [|c s IH]; intros skip cur; cbn [strings.splitFrom]; [discriminate|].
  destruct skip; [|apply IH]. destruct (String.prefix sep (String c s)); [discriminate|apply IH].
Qed.

(** There is one piece more than there are line feeds. *)
Lemma Split_length (s : string) : forall cur,
  List.length (strings.splitFrom lineFeed s 0 cur) =
  S (count_occ ascii_dec (list_ascii_of_string s) LF).
Proof.
  unfold lineFeed. induction s as [|c s IH]; intros cur; [reflexivity|].
  rewrite splitFrom_byte. cbn [list_ascii_of_string].
  destruct (Ascii.eqb_spec c LF) as [->|Hne].
  - rewrite count_occ_cons_eq by reflexivity. simpl. now rewrite IH.
  - rewrite count_occ_cons_neq by auto. apply IH.
Qed.

Section Lines.
Context {std : GoStd}.

Definition notBlank (line : string) : bool := negb (String.eqb line "").

Lemma trimmedLines_filter (lines : list string) : forall result,
  trimmedLines lines result =
  result ++ filter notBlank (map strings_TrimSpace lines).
Proof.
  induction lines as [|line lines IH]; intros result; cbn [trimmedLines map filter].
  - now rewrite app_nil_r.
  - unfold notBlank at 1. destruct (negb _); rewrite IH; [|reflexivity].
    now rewrite <- app_assoc.
Qed.

Lemma GetLines_filter (et : ExtractedText) :
  GetLines et =
    filter notBlank (map strings_TrimSpace (strings.Split (RawText et) lineFeed)).
Proof. unfold GetLines, splitIntoLines. cbv zeta. now rewrite trimmedLines_filter. Qed.

(** GetLines returns the lines of the raw text trimmed, in their order,
    without those that are blank after trimming: no line it returns is
    empty, and there are no more of them than line feeds in the text plus
    one. *)
Theorem GetLines_drops_blank_lines (et : ExtractedText) :
  GetLines et =
    filter notBlank (map strings_TrimSpace (strings.Split (RawText et) lineFeed)) /\
  Forall (fun line => line <> "") (GetLines et) /\
  lenb (GetLines et) <= 1 + Z.of_nat (count_occ ascii_dec (list_ascii_of_string (RawText et)) LF).
Proof.
  pose proof (GetLines_filter et) as H.
  split; [exact H|]. rewrite H. split.
  - apply Forall_forall. intros line Hin. apply filter_In in Hin.
    destruct Hin as (_ & Hn). unfold notBlank in Hn.
    apply negb_true_iff, String.eqb_neq in Hn. exact Hn.
  - unfold lenb.
    pose proof (filter_length_le notBlank
                  (map strings_TrimSpace (strings.Split (RawText et) lineFeed))) as Hle.
    rewrite length_map in Hle. unfold strings.Split in *.
    rewrite Split_length in Hle. lia.
Qed.

(** GetLine numbers the lines from 0 and counts the blank ones: outside 0
    .. the number of line feeds it returns the empty string, inside it
    returns the trimmed line.  Its numbers are those of GetLines only for a
    text without blank lines. *)
Theorem GetLine_counts_blank_lines (et : ExtractedText) (lineNum : Z) :
  let lines := strings.Split (RawText et) lineFeed in
  let feeds := Z.of_nat (count_occ ascii_dec (list_ascii_of_string (RawText et)) LF) in
  lenb lines = feeds + 1 /\
  (lineNum < 0 \/ feeds < lineNum -> GetLine et lineNum = "") /\
  (0 <= lineNum <= feeds ->
   GetLine et lineNum = strings_TrimSpace (nth (Z.to_nat lineNum) lines "")) /\
  (Forall (fun line => strings_TrimSpace line <> "") lines ->
   0 <= lineNum <= feeds ->
   GetLine et lineNum = nth (Z.to_nat lineNum) (GetLines et) "").
Proof.
  cbv zeta.
  assert (lenb (strings.Split (RawText et) lineFeed) =
          Z.of_nat (count_occ ascii_dec (list_ascii_of_string (RawText et)) LF) + 1) as Hlen.
  { unfold lenb, strings.Split. rewrite Split_length. lia. }
  assert (0 <= lineNum <= Z.of_nat (count_occ ascii_dec (list_ascii_of_string (RawText et)) LF) ->
          GetLine et lineNum =
          strings_TrimSpace (nth (Z.to_nat lineNum) (strings.Split (RawText et) lineFeed) ""))
    as Hin.
  { intros H. unfold GetLine. cbv zeta. fold lineFeed. rewrite Hlen.
    assert ((0 <=? lineNum) = true) as -> by (apply Z.leb_le; lia).
    assert ((lineNum <? Z.of_nat (count_occ ascii_dec (list_ascii_of_string (RawText et)) LF) + 1)
            = true) as -> by (apply Z.ltb_lt; lia).
    reflexivity. }
  split; [exact Hlen|]. split; [|split; [exact Hin|]].
  - intros H. unfold GetLine. cbv zeta. fold lineFeed. rewrite Hlen.
    destruct H as [H|H].
    + assert ((0 <=? lineNum) = false) as -> by (apply Z.leb_gt; lia). reflexivity.
    + assert ((lineNum <? Z.of_nat (count_occ ascii_dec (list_ascii_of_string (RawText et)) LF) + 1)
              = false) as -> by (apply Z.ltb_ge; lia).
      now rewrite andb_false_r.
  - intros Hall Hr. rewrite (Hin Hr).
    rewrite (GetLines_filter et).
    assert (filter notBlank (map strings_TrimSpace (strings.Split (RawText et) lineFeed)) =
            map strings_TrimSpace (strings.Split (RawText et) lineFeed)) as ->.
    { apply forallb_filter_id. apply forallb_forall. intros x Hx.
      apply in_map_iff in Hx. destruct Hx as (line & <- & Hl).
      rewrite Forall_forall in Hall. specialize (Hall line Hl).
      unfold notBlank. apply negb_true_iff, String.eqb_neq. exact Hall. }
    rewrite <- (map_nth strings_TrimSpace).
    apply nth_indep. rewrite length_map. unfold lenb in Hlen. lia.
Qed.


(** Does [line] hold the label, letter case left aside?  The test of
    FindNear. *)
Definition mentions (line label : string) : bool :=
  strings.Contains (strings.ToLower line) (strings.ToLower label).

Lemma findNearFrom_skip (before : list string) (label : string) (maxDistance : Z) :
  forall lines,
    Forall (fun line => mentions line label = false) before ->
    findNearFrom (before ++ lines) label maxDistance =
    findNearFrom lines label maxDistance.
Proof.
  induction before as [|line before IH]; intros lines H; [reflexivity|].
  inversion H as [|? ? Hl Hb]; subst. cbn [app findNearFrom].
  unfold mentions in Hl. rewrite Hl. now apply IH.
Qed.

(** FindNear answers from the first line that mentions the label.  When
    that line holds a colon with something other than blanks behind the
    first one, the answer is what stands behind that first colon, trimmed:
    wherever in the line the label stands, before the colon or behind it.
    When no line mentions the label, the answer is the empty string. *)
Theorem FindNear_first_colon (et : ExtractedText) (label : string) (maxDistance : Z) :
  (forall before line after,
     strings.Split (RawText et) lineFeed = before ++ line :: after ->
     Forall (fun l => mentions l label = false) before ->
     mentions line label = true ->
     0 <= strings.Index line ":" ->
     strings_TrimSpace (sliceFrom line (strings.Index line ":" + 1)) <> "" ->
     FindNear et label maxDistance =
     strings_TrimSpace (sliceFrom line (strings.Index line ":" + 1))) /\
  (Forall (fun l => mentions l label = false) (strings.Split (RawText et) lineFeed) ->
   FindNear et label maxDistance = "").
Proof.
  unfold FindNear. cbv zeta. fold lineFeed. split.
  - intros before line after -> Hb Hl Hidx Hv.
    rewrite findNearFrom_skip by exact Hb. cbn [findNearFrom].
    unfold mentions in Hl. rewrite Hl.
    apply Z.leb_le in Hidx. rewrite Hidx.
    apply String.eqb_neq in Hv. rewrite Hv. reflexivity.
  - intros H. rewrite <- (app_nil_r (strings.Split _ _)).
    now rewrite findNearFrom_skip.
Qed.

(** isLabel takes for a label every string that, trimmed, ends with a
    colon; a string that does not and has 50 bytes or more when trimmed is
    never one. *)
Theorem isLabel_colon_and_length (s : string) :
  (strings.HasSuffix (strings_TrimSpace s) ":" = true -> isLabel s = true) /\
  (strings.HasSuffix (strings_TrimSpace s) ":" = false ->
   50 <= len (strings_TrimSpace s) -> isLabel s = false).
Proof.
  unfold isLabel. cbv zeta. split.
  - intros ->. reflexivity.
  - intros -> Hlen.
    assert ((len (strings_TrimSpace s) <? 50) = false) as Hlt by (apply Z.ltb_ge; lia).
    cbn [matchesLabel]. rewrite Hlt, !andb_false_r. reflexivity.
Qed.

End Lines.


(** *** Extract *)

Section Extraction.
Context {std : GoStd} {gofmt : GoFmt}.

(** Is [s] empty, or does it end with a line feed? *)
Definition endsLines (s : string) : Prop :=
  s = "" \/ exists t, s = (t ++ lineFeed)%string.

Lemma endsLines_append (allText text : string) :
  endsLines (allText ++ text ++ lineFeed).
Proof. right. exists (allText ++ text)%string. now rewrite append_assoc. Qed.

Lemma append_empty (s t : string) : (s ++ t)%string = "" -> s = "" /\ t = "".
Proof. destruct s; simpl; [auto|discriminate]. Qed.

Lemma readContentFiles_text (files : list DirEntry) : forall allText,
  endsLines allText ->
  endsLines (readContentFiles files allText) /\
  (readContentFiles files allText = "" -> allText = "").
Proof.
  induction files as [|f files IH]; intros allText H; cbn [readContentFiles]; [auto|].
  destruct (IsDir f); [now apply IH|].
  destruct (ReadFile f) as [data|err]; [|now apply IH].
  destruct (negb _) eqn:E; [|now apply IH].
  destruct (IH (allText ++ extractTextFromContentStream (string_of_list_byte data)
                  ++ String LF "")%string (endsLines_append _ _)) as (H1 & H2).
  split; [exact H1|]. intros H0. specialize (H2 H0).
  apply append_empty in H2. destruct H2 as (_ & H2).
  apply append_empty in H2. destruct H2 as (_ & H2). discriminate.
Qed.

(** The pages extractFromContext adds are numbered from [i] on, in rising
    order, below [i + n]; the text it adds is theirs, each followed by a
    line feed. *)
Definition pageLines (pages : list PageText) : string :=
  fold_right (fun p rest => (Text p ++ lineFeed ++ rest)%string) "" pages.

Fixpoint risingFrom (i : Z) (pages : list PageText) : bool :=
  match pages with
  | [] => true
  | p :: more => (i <=? PageNum p) && risingFrom (PageNum p + 1) more
  end.

Lemma pagesFrom_pages (w : Mining) (n : nat) : forall i pages allText,
  exists added,
    pagesFrom w n i pages allText =
      (pages ++ added, (allText ++ pageLines added)%string) /\
    risingFrom i added = true /\
    Forall (fun p => PageNum p < i + Z.of_nat n /\ Text p <> "" /\
                     Lines p = splitIntoLines (Text p)) added.
Proof.
  induction n as [|n IH]; intros i pages allText; cbn [pagesFrom].
  - exists []. rewrite app_nil_r. simpl. rewrite append_nil_r. auto.
  - assert (forall added,
              risingFrom (i + 1) added = true -> risingFrom i added = true) as Hrise.
    { intros [|p more]; [reflexivity|]. cbn [risingFrom]. intros H.
      apply andb_true_iff in H. destruct H as (H1 & H2). rewrite H2, andb_true_r.
      apply Z.leb_le in H1. apply Z.leb_le. lia. }
    assert (forall added,
              Forall (fun p => PageNum p < i + 1 + Z.of_nat n /\ Text p <> "" /\
                               Lines p = splitIntoLines (Text p)) added ->
              Forall (fun p => PageNum p < i + Z.of_nat (S n) /\ Text p <> "" /\
                               Lines p = splitIntoLines (Text p)) added) as Hbound.
    { intros added H. eapply Forall_impl; [|exact H]. simpl. intros p (H1 & H2). split; [lia|auto]. }
    destruct (apiExtractPage w i) as [pageContent|err].
    + destruct (negb _) eqn:E.
      * destruct (IH (i + 1)
                    (pages ++ [mkPageText i
                                 (extractTextFromContentStream (string_of_list_byte pageContent))
                                 (splitIntoLines
                                    (extractTextFromContentStream
                                       (string_of_list_byte pageContent)))])
                    (allText ++ extractTextFromContentStream (string_of_list_byte pageContent)
                       ++ String LF "")%string) as (added & -> & Hr & Hf).
        exists (mkPageText i
                  (extractTextFromContentStream (string_of_list_byte pageContent))
                  (splitIntoLines
                     (extractTextFromContentStream (string_of_list_byte pageContent)))
                :: added).
        split; [|split].
        -- rewrite <- app_assoc. cbn [app pageLines fold_right Text]. f_equal.
           unfold lineFeed. rewrite !append_assoc. reflexivity.
        -- cbn [risingFrom PageNum]. rewrite Z.leb_refl. exact Hr.
        -- constructor; [|now apply Hbound]. cbn [PageNum Text Lines].
           split; [lia|]. split; [|reflexivity].
           apply negb_true_iff, String.eqb_neq in E. exact E.
      * destruct (IH (i + 1) pages allText) as (added & -> & Hr & Hf).
        exists added. auto.
    + destruct (IH (i + 1) pages allText) as (added & -> & Hr & Hf).
      exists added. auto.
Qed.


Lemma pageLines_ends (pages : list PageText) : endsLines (pageLines pages).
Proof.
  induction pages as [|p pages IH]; [now left|]. right. cbn [pageLines fold_right].
  destruct IH as [H|(t & H)]; fold (pageLines pages) in *; rewrite H.
  - exists (Text p). now rewrite append_nil_r.
  - exists (Text p ++ lineFeed ++ t)%string. now rewrite !append_assoc.
Qed.

Lemma pageLines_empty (pages : list PageText) : pageLines pages = "" -> pages = [].
Proof.
  destruct pages as [|p pages]; [reflexivity|]. cbn [pageLines fold_right]. intros H.
  apply append_empty in H. destruct H as (_ & H). discriminate.
Qed.

(** The text of one entry of the temporary directory: none for a directory
    and for a file that cannot be read. *)
Definition fileText (f : DirEntry) : string :=
  if IsDir f then ""
  else
    match ReadFile f with
    | Ok data => extractTextFromContentStream (string_of_list_byte data)
    | Err _ => ""
    end.

(** The texts, each followed by a line feed. *)
Definition joinLines (texts : list string) : string :=
  fold_right (fun text rest => (text ++ lineFeed ++ rest)%string) "" texts.

Lemma readContentFiles_join (files : list DirEntry) : forall allText,
  readContentFiles files allText =
  (allText ++ joinLines (filter notBlank (map fileText files)))%string.
Proof.
  induction files as [|f files IH]; intros allText; cbn [readContentFiles map filter].
  - simpl. now rewrite append_nil_r.
  - destruct (IsDir f) eqn:Ed.
    + assert (fileText f = "") as -> by (unfold fileText; now rewrite Ed).
      cbn [notBlank String.eqb negb]. apply IH.
    + destruct (ReadFile f) as [data|err] eqn:Er.
      * assert (fileText f = extractTextFromContentStream (string_of_list_byte data)) as ->
          by (unfold fileText; now rewrite Ed, Er).
        unfold notBlank at 1. destruct (negb _); rewrite IH; [|reflexivity].
        unfold joinLines. cbn [fold_right]. unfold lineFeed. now rewrite !append_assoc.
      * assert (fileText f = "") as -> by (unfold fileText; now rewrite Ed, Er).
        cbn [notBlank String.eqb negb]. apply IH.
Qed.

(** When the content streams can be extracted to files, Extract puts all
    their text on one page, numbered 1, whatever the number of pages of the
    document.  The raw text is the texts of the files in the order of the
    directory, each followed by a line feed; directories, files that cannot
    be read and files without text add nothing.  The pages are that one
    page, holding the whole raw text, or none when there is no text. *)
Theorem Extract_content_on_one_page (content : list byte) (world : list byte -> Mining)
    (pageCount : Z) :
  apiPageCount (world content) = Ok pageCount ->
  0 <= pageCount ->
  osMkdirTemp (world content) = None ->
  apiExtractContent (world content) = None ->
  exists et,
    Extract (Ok content) world = Some (Ok et) /\
    PageCount et = pageCount /\
    RawText et = joinLines (filter notBlank (map fileText (contentFiles (world content)))) /\
    Pages et =
      (if String.eqb (RawText et) "" then []
       else [mkPageText 1 (RawText et) (splitIntoLines (RawText et))]).
Proof.
  intros Hc Hn Hm He. unfold Extract. cbv zeta. rewrite Hc.
  assert ((pageCount <? 0) = false) as -> by (apply Z.ltb_ge; lia).
  rewrite Hm, He. eexists. split; [reflexivity|].
  cbn [PageCount RawText Pages]. split; [reflexivity|]. split.
  - now rewrite readContentFiles_join.
  - now destruct (String.eqb _ "").
Qed.


(** Extract panics on a negative page count, before it looks at anything
    else.  What it returns has a page count that is not negative and a raw
    text that is empty or ends with a line feed, and the raw text is empty
    exactly when there are no pages: the test of the pipeline's text stage,
    [RawText == ""], is the test for no page with text. *)
Theorem Extract_raw_text_and_pages (r : result (list byte)) (world : list byte -> Mining) :
  (forall content pageCount,
     r = Ok content -> apiPageCount (world content) = Ok pageCount -> pageCount < 0 ->
     Extract r world = None) /\
  (forall et,
     Extract r world = Some (Ok et) ->
     0 <= PageCount et /\
     endsLines (RawText et) /\ (RawText et = "" <-> Pages et = [])).
Proof.
  unfold Extract, extractFromContext. cbv zeta. split.
  { intros content pageCount -> -> Hneg. apply Z.ltb_lt in Hneg. now rewrite Hneg. }
  destruct r as [content|err]; [|discriminate].
  destruct (apiPageCount (world content)) as [pageCount|err]; [|discriminate].
  destruct (Z.ltb_spec pageCount 0) as [Hneg|Hpos]; [discriminate|].
  destruct (osMkdirTemp (world content)); [discriminate|].
  destruct (apiExtractContent (world content)).
  - destruct (apiReadAndValidate (world content)); [discriminate|].
    destruct (pagesFrom_pages (world content) (Z.to_nat pageCount) 1 [] "")
      as (added & -> & Hr & Hf).
    intros et H. inversion H; subst et. cbn [PageCount RawText Pages app append].
    split; [exact Hpos|].
    split; [apply pageLines_ends|]. split; [apply pageLines_empty|now intros ->].
  - intros et H. inversion H; subst et. cbn [PageCount RawText Pages].
    split; [exact Hpos|].
    destruct (readContentFiles_text (contentFiles (world content)) "") as (He & _);
      [now left|].
    split; [exact He|].
    destruct (String.eqb_spec (readContentFiles (contentFiles (world content)) "") "")
      as [E|E]; cbn [negb]; split; auto; try discriminate. contradiction.
Qed.

End Extraction.

(** *** Samples *)

(** The white space of ASCII: blank, tab, line feed, vertical tab, form feed
    and carriage return. *)
Definition isAsciiSpace (c : ascii) : bool :=
  (byteVal c =? 32) || ((9 <=? byteVal c) && (byteVal c <=? 13)).

Fixpoint trimLeft (s : string) : string :=
  match s with
  | EmptyString => ""
  | String c s' => if isAsciiSpace c then trimLeft s' else s
  end.

Fixpoint trimRight (s : string) : string :=
  match s with
  | EmptyString => ""
  | String c s' =>
    match trimRight s' with
    | EmptyString => if isAsciiSpace c then "" else String c ""
    | t => String c t
    end
  end.

(** A standard library that trims the white space of ASCII, as Go's
    TrimSpace does on a string of ASCII, accepts no date and has no Unicode
    tables. *)
Definition asciiStd : GoStd := {|
  time_Parse := fun _ value => Err ("parsing time " ++ value)%string;
  strings_TrimSpace := fun s => trimRight (trimLeft s);
  unicode_ToLower := fun s => s
|}.

(** A Sscanf that leaves the byte at 0 where it reads no number. *)
Definition zeroFmt : GoFmt := {|
  fmt_Sscanf_02x := fun _ => Ascii.zero
|}.

Lemma extractTextFromContentStream_literals_first_witness :
  extractTextFromContentStream (std := asciiStd) (gofmt := zeroFmt)
    "<48656C6c6F>(Total)" = "Total Hello".
Proof.
  apply (extractTextFromContentStream_literals_first (std := asciiStd) (gofmt := zeroFmt)
           "48656C6c6F" "Total"); [reflexivity|discriminate|reflexivity|reflexivity].
Defined.

Definition sampleText : ExtractedText :=
  mkExtractedText []
    ("INVOICE" ++ lineFeed ++ lineFeed ++ "Tax ID of the seller: 0100109106 " ++ lineFeed)
    1.

Lemma FindNear_first_colon_witness :
  FindNear (std := asciiStd) sampleText "TAX ID" 2 = "0100109106".
Proof.
  apply (proj1 (FindNear_first_colon (std := asciiStd) sampleText "TAX ID" 2)
           ["INVOICE"; ""] "Tax ID of the seller: 0100109106 " [""]).
  - reflexivity.
  - repeat constructor.
  - reflexivity.
  - vm_compute. discriminate.
  - discriminate.
Defined.

(** A document of three pages whose content streams are extracted to two
    files and a directory. *)
Definition streamsWorld (content : list byte) : Mining := {|
  apiPageCount := Ok 3;
  osMkdirTemp := None;
  apiExtractContent := None;
  contentFiles :=
    [mkDirEntry "content_1.txt" false (Ok (list_byte_of_string "BT (Invoice 001) Tj ET"));
     mkDirEntry "fonts" true (Err "is a directory");
     mkDirEntry "content_2.txt" false (Ok (list_byte_of_string "BT (Total: 935) Tj ET"))];
  apiReadAndValidate := None;
  apiExtractPage := fun _ => Err "no such page"
|}.


Lemma Extract_content_on_one_page_witness :
  exists et,
    Extract (std := asciiStd) (gofmt := zeroFmt) (Ok []) streamsWorld = Some (Ok et) /\
    PageCount et = 3 /\
    RawText et = ("Invoice 001" ++ lineFeed ++ "Total: 935" ++ lineFeed)%string /\
    Pages et = [mkPageText 1 (RawText et) ["Invoice 001"; "Total: 935"]].
Proof.
  destruct (Extract_content_on_one_page (std := asciiStd) (gofmt := zeroFmt)
              [] streamsWorld 3 eq_refl) as (et & H & Hc & Hr & Hp);
    [lia|reflexivity|reflexivity|].
  exists et. split; [exact H|]. split; [exact Hc|]. split; [exact Hr|].
  rewrite Hp, Hr. reflexivity.
Defined.


End TextMinerProps.
